(** * Jailhouse ARM core: trap handling, PSCI, vGIC v2 and CPU control

    A shallow embedding of the architecture-specific core of the Jailhouse
    hypervisor for 32-bit ARM:

    - [hypervisor/arch/arm/traps.c]   condition check, instruction skip,
      guest register access, CP15 emulation;
    - [hypervisor/arch/arm/control.c] per-CPU control flags, suspend/resume,
      cell creation;
    - [hypervisor/arch/arm/psci.c]    PSCI emulation;
    - [hypervisor/arch/arm/gic-v2.c]  list-register injection.

    Machine words are integers in [Z] with the wrap-around of the C types
    written out ([unsigned long] and [u32] are 32 bits wide on this target).
    Hardware registers, the per-CPU table and the console are explicit
    state; everything the code does to the outside world (locks, SGIs,
    system-register writes, collaborator calls) is also appended to an event
    log so that ordering properties can be stated. *)

From Stdlib Require Import ZArith List Bool Lia String.
From stdpp Require Import base list functions sorting.
Import ListNotations.

Local Open Scope Z_scope.

(** ** Machine words *)

Definition u32 (x : Z) : Z := x mod 2 ^ 32.
#[global] Arguments u32 : simpl never.

(** [(unsigned int)-1], the "not found" value of the CPU lookups. *)
Definition UINT_MINUS_1 : Z := u32 (-1).

(** ** Hardware registers

    Banked and system registers are read and written through
    [arm_read_banked_reg], [arm_write_banked_reg], [arm_read_sysreg],
    [arm_write_sysreg] and [arm_write_sysreg_32].  A register is identified
    by the name the source uses for it; [arm_write_sysreg_32] names its
    target by the CP15 encoding.  Every write is also kept in a log, oldest
    first. *)

Module Hw.

Inductive reg_name : Type :=
  (* banked core registers *)
  | SP_usr | LR_usr | SP_svc | LR_svc | SP_abt | LR_abt | SP_und | LR_und
  | SP_irq | LR_irq | SP_fiq | LR_fiq
  | R8_fiq | R9_fiq | R10_fiq | R11_fiq | R12_fiq
  | SPSR_svc | SPSR_abt | SPSR_und | SPSR_irq | SPSR_fiq
  | SPSR_hyp | ELR_hyp
  (* system registers, by name *)
  | SCTLR_EL1 | ACTLR_EL1 | CPACR_EL1 | CONTEXTIDR_EL1 | PAR_EL1
  | TTBR0_EL1 | TTBR1_EL1 | CSSELR_EL1
  | CNTKCTL_EL1 | CNTP_CTL_EL0 | CNTP_CVAL_EL0 | CNTV_CTL_EL0 | CNTV_CVAL_EL0
  | TTBCR | DACR | VBAR | DFSR | DFAR | IFSR | IFAR | ADFSR | AIFSR
  | MAIR0 | MAIR1 | AMAIR0 | AMAIR1 | TPIDRURW | TPIDRURO | TPIDRPRW
  | VMPIDR_EL2
  (* system registers, by 32-bit CP15 encoding *)
  | SYSREG_32 (opc1 crn crm opc2 : Z).

#[global] Instance reg_name_eq_dec : EqDecision reg_name.
Proof. solve_decision. Defined.

Record hw_state := mk_hw_state {
  regfile : reg_name -> Z;
  reg_writes : list (reg_name * Z)
}.

Definition read_reg (hw : hw_state) (r : reg_name) : Z := regfile hw r.

Definition write_reg (r : reg_name) (v : Z) (hw : hw_state) : hw_state :=
  mk_hw_state (<[r := v]> (regfile hw)) (reg_writes hw ++ [(r, v)]).

End Hw.

(** ** traps.c *)

Module Traps.

(** *** Syndrome and PSR accessors *)

(** Modelled from the spec: the accessor macros of [asm/traps.h] and
    [asm/processor.h] are not part of the sources at hand.  The spec fixes
    the exception class as syndrome[31:26], an IL syndrome bit, a
    condition-valid flag with a 4-bit condition, the decode of
    [{CRn, op1, CRm, op2, Rt, read-bit}] and the split (26:25, 15:10) layout
    of the IT field; the bit positions are those of the ARMv7 HSR and CPSR,
    and agree with the shifts that traps.c itself applies ([hsr >> 5] for
    Rt, [hsr & 1] for the direction, [cpsr >> 28] for the flags). *)
Definition HSR_EC (hsr : Z) : Z := Z.land (Z.shiftr hsr 26) 0x3f.
Definition HSR_IL (hsr : Z) : Z := Z.land (Z.shiftr hsr 25) 0x1.
Definition HSR_ICC (hsr : Z) : Z := Z.land hsr 0x1ffffff.
Definition HSR_ICC_CV_BIT : Z := Z.shiftl 1 24.
Definition HSR_ICC_COND (icc : Z) : Z := Z.land (Z.shiftr icc 20) 0xf.

Definition PSR_MODE_MASK : Z := 0xf.
Definition PSR_USR_MODE : Z := 0x0.
Definition PSR_FIQ_MODE : Z := 0x1.
Definition PSR_IRQ_MODE : Z := 0x2.
Definition PSR_SVC_MODE : Z := 0x3.
Definition PSR_ABT_MODE : Z := 0x7.
Definition PSR_UND_MODE : Z := 0xb.
Definition PSR_SYS_MODE : Z := 0xf.

Definition PSR_IT_MASK (it : Z) : Z :=
  Z.lor (Z.shiftl (Z.land it 0x3) 25) (Z.shiftl (Z.land it 0xfc) 8).
Definition PSR_IT (cpsr : Z) : Z :=
  Z.lor (Z.land (Z.shiftr cpsr 8) 0xfc) (Z.land (Z.shiftr cpsr 25) 0x3).

(** Modelled from the spec: [HSR_MATCH_MCR_MRC] of [asm/traps.h] is not part
    of the sources at hand.  It compares the [{CRn, op1, CRm, op2}] fields of
    an MCR/MRC syndrome (Opc2 in bits 19:17, Opc1 in 16:14, CRn in 13:10,
    CRm in 4:1) with the given encoding. *)
Definition HSR_MCR_MRC_FIELDS : Z := Z.lor 0xffc00 0x1e.
Definition HSR_MATCH_MCR_MRC (hsr crn opc1 crm opc2 : Z) : bool :=
  Z.land hsr HSR_MCR_MRC_FIELDS =?
  Z.lor (Z.lor (Z.lor (Z.shiftl opc2 17) (Z.shiftl opc1 14)) (Z.shiftl crn 10))
        (Z.shiftl crm 1).

(** The four fields on their own, as the spec names them. *)
Definition hsr_crn (hsr : Z) : Z := Z.land (Z.shiftr hsr 10) 0xf.
Definition hsr_opc1 (hsr : Z) : Z := Z.land (Z.shiftr hsr 14) 0x7.
Definition hsr_crm (hsr : Z) : Z := Z.land (Z.shiftr hsr 1) 0xf.
Definition hsr_opc2 (hsr : Z) : Z := Z.land (Z.shiftr hsr 17) 0x7.

(** *** Trap context *)

Record trap_context := mk_trap_context {
  pc : Z;
  cpsr : Z;
  hsr : Z;
  regs : list Z   (* the on-stack user register save area *)
}.

Definition set_pc (v : Z) (ctx : trap_context) : trap_context :=
  mk_trap_context v (cpsr ctx) (hsr ctx) (regs ctx).
Definition set_cpsr (v : Z) (ctx : trap_context) : trap_context :=
  mk_trap_context (pc ctx) v (hsr ctx) (regs ctx).
Definition set_regs (v : list Z) (ctx : trap_context) : trap_context :=
  mk_trap_context (pc ctx) (cpsr ctx) (hsr ctx) v.

(** *** Condition check *)

Definition cc_map : list Z :=
  [ 0xF0F0;  (* EQ == Z set            *)
    0x0F0F;  (* NE                     *)
    0xCCCC;  (* CS == C set            *)
    0x3333;  (* CC                     *)
    0xFF00;  (* MI == N set            *)
    0x00FF;  (* PL                     *)
    0xAAAA;  (* VS == V set            *)
    0x5555;  (* VC                     *)
    0x0C0C;  (* HI == C set && Z clear *)
    0xF3F3;  (* LS == C clear || Z set *)
    0xAA55;  (* GE == (N==V)           *)
    0x55AA;  (* LT == (N!=V)           *)
    0x0A05;  (* GT == (!Z && (N==V))   *)
    0xF5FA;  (* LE == (Z || (N!=V))    *)
    0xFFFF;  (* AL always              *)
    0        (* NV                     *) ].

Definition cc_map_at (cond : Z) : Z := nth (Z.to_nat cond) cc_map 0.

Definition arch_failed_condition (ctx : trap_context) : bool :=
  let class := HSR_EC (hsr ctx) in
  let icc := HSR_ICC (hsr ctx) in
  let flags := Z.shiftr (cpsr ctx) 28 in
  if negb (Z.land class 0x30 =? 0) || (class =? 0) then false
  else
    if negb (Z.land icc HSR_ICC_CV_BIT =? 0) then
      let cond := HSR_ICC_COND icc in
      if negb (Z.land (Z.shiftr (cc_map_at cond) flags) 1 =? 0) then false
      else true
    else
      let it := PSR_IT (cpsr ctx) in
      if it =? 0 then false
      else
        let cond := Z.shiftr it 4 in
        if negb (Z.land (Z.shiftr (cc_map_at cond) flags) 1 =? 0) then false
        else true.

(** *** Instruction skip *)

Definition arch_advance_itstate (ctx : trap_context) : trap_context :=
  let cpsr0 := cpsr ctx in
  if Z.land cpsr0 (PSR_IT_MASK 0xff) =? 0 then ctx
  else
    let itbits := PSR_IT cpsr0 in
    let cond := Z.shiftr itbits 5 in
    let '(itbits, cond) :=
      if Z.land itbits 0x7 =? 0 then (0, 0)
      else (Z.land (Z.shiftl itbits 1) 0x1f, cond) in
    let itbits := Z.lor itbits (Z.shiftl cond 5) in
    let cpsr1 := Z.land cpsr0 (Z.lnot (PSR_IT_MASK 0xff)) in
    let cpsr2 := Z.lor cpsr1 (PSR_IT_MASK itbits) in
    set_cpsr cpsr2 ctx.

Definition arch_skip_instruction (ctx : trap_context) : trap_context :=
  let instruction_length := HSR_IL (hsr ctx) in
  let ctx := set_pc (u32 (pc ctx + (if instruction_length =? 0 then 2 else 4))) ctx in
  arch_advance_itstate ctx.

(** *** Guest register access *)

Inductive printk_msg : Type :=
  | WARN_pc_access
  | ERROR_write_register (reg : Z).

Record trap_state := mk_trap_state {
  ctx : trap_context;
  hw : Hw.hw_state;
  console : list printk_msg
}.

Definition with_ctx (c : trap_context) (s : trap_state) : trap_state :=
  mk_trap_state c (hw s) (console s).
Definition with_hw (h : Hw.hw_state) (s : trap_state) : trap_state :=
  mk_trap_state (ctx s) h (console s).
Definition printk (m : printk_msg) (s : trap_state) : trap_state :=
  mk_trap_state (ctx s) (hw s) (console s ++ [m]).

(** The register banks [access_banked_reg] is instantiated with. *)
Inductive bank : Type := usr | svc | und | abt | irq | fiq.

Definition SP_of (b : bank) : Hw.reg_name :=
  match b with
  | usr => Hw.SP_usr | svc => Hw.SP_svc | und => Hw.SP_und
  | abt => Hw.SP_abt | irq => Hw.SP_irq | fiq => Hw.SP_fiq
  end.
Definition LR_of (b : bank) : Hw.reg_name :=
  match b with
  | usr => Hw.LR_usr | svc => Hw.LR_svc | und => Hw.LR_und
  | abt => Hw.LR_abt | irq => Hw.LR_irq | fiq => Hw.LR_fiq
  end.

(** Modelled from the spec: the macros [access_usr_reg], [access_fiq_reg]
    and [access_banked_reg] of [asm/traps.h] are not part of the sources at
    hand.  [access_usr_reg] moves a value between [*val] and slot [reg] of
    the on-stack user copy; [access_fiq_reg] does so for the FIQ bank of
    r8..r12; [access_banked_reg] for the banked SP (r13) and LR (r14) of a
    mode.  A read returns the new [*val], a write leaves it as it is.  An
    index outside the save area has no defined behaviour in C; the model
    reads 0 and stores nothing there, and traps.c only passes 0..13. *)
Definition access_usr_reg (s : trap_state) (reg : Z) (val : Z) (is_read : bool)
  : trap_state * Z :=
  let c := ctx s in
  if is_read then (s, default 0 (regs c !! Z.to_nat reg))
  else (with_ctx (set_regs (<[Z.to_nat reg := val]> (regs c)) c) s, val).

Definition access_hw_reg (s : trap_state) (r : Hw.reg_name) (val : Z)
    (is_read : bool) : trap_state * Z :=
  if is_read then (s, Hw.read_reg (hw s) r)
  else (with_hw (Hw.write_reg r val (hw s)) s, val).

Definition access_fiq_reg (s : trap_state) (reg : Z) (val : Z) (is_read : bool)
  : trap_state * Z :=
  if reg =? 8 then access_hw_reg s Hw.R8_fiq val is_read
  else if reg =? 9 then access_hw_reg s Hw.R9_fiq val is_read
  else if reg =? 10 then access_hw_reg s Hw.R10_fiq val is_read
  else if reg =? 11 then access_hw_reg s Hw.R11_fiq val is_read
  else if reg =? 12 then access_hw_reg s Hw.R12_fiq val is_read
  else (s, val).

Definition access_banked_reg (b : bank) (s : trap_state) (reg : Z) (val : Z)
    (is_read : bool) : trap_state * Z :=
  if reg =? 13 then access_hw_reg s (SP_of b) val is_read
  else if reg =? 14 then access_hw_reg s (LR_of b) val is_read
  else (s, val).

Definition access_cell_reg (s : trap_state) (reg : Z) (val : Z) (is_read : bool)
  : trap_state * Z :=
  let mode := Z.land (cpsr (ctx s)) PSR_MODE_MASK in
  if (0 <=? reg) && (reg <=? 7) then
    access_usr_reg s reg val is_read
  else if (8 <=? reg) && (reg <=? 12) then
    if mode =? PSR_FIQ_MODE then access_fiq_reg s reg val is_read
    else access_usr_reg s reg val is_read
  else if (13 <=? reg) && (reg <=? 14) then
    if (mode =? PSR_USR_MODE) || (mode =? PSR_SYS_MODE) then
      (* lr is saved on the stack, as it is not banked in HYP mode. sp is
         banked, so lr is at offset 13 in the USR regs. *)
      if reg =? 13 then access_banked_reg usr s reg val is_read
      else access_usr_reg s 13 val is_read
    else if mode =? PSR_SVC_MODE then access_banked_reg svc s reg val is_read
    else if mode =? PSR_UND_MODE then access_banked_reg und s reg val is_read
    else if mode =? PSR_ABT_MODE then access_banked_reg abt s reg val is_read
    else if mode =? PSR_IRQ_MODE then access_banked_reg irq s reg val is_read
    else if mode =? PSR_FIQ_MODE then access_banked_reg fiq s reg val is_read
    else (s, val)
  else if reg =? 15 then
    let s := printk WARN_pc_access s in
    if is_read then (s, pc (ctx s))
    else (with_ctx (set_pc val (ctx s)) s, val)
  else
    (printk (ERROR_write_register reg) s, val).

(** *** CP15 32-bit emulation *)

Inductive trap_result : Type := TRAP_HANDLED | TRAP_UNHANDLED | TRAP_FORBIDDEN.

Definition CP15_32_PERFORM_WRITE (val : Z) (s : trap_state)
    (crn opc1 crm opc2 : Z) : trap_state * bool :=
  if HSR_MATCH_MCR_MRC (hsr (ctx s)) crn opc1 crm opc2 then
    (with_hw (Hw.write_reg (Hw.SYSREG_32 opc1 crn crm opc2) val (hw s)) s, true)
  else (s, false).

(** The [{crn, opc1, crm, opc2}] arguments of the chain of
    [CP15_32_PERFORM_WRITE] alternatives, in source order. *)
Definition cp15_32_write_chain : list (Z * Z * Z * Z) :=
  [ (2, 0, 0, 0);    (* TTBR0 *)
    (2, 0, 0, 1);    (* TTBR1 *)
    (2, 0, 0, 2);    (* TTBCR *)
    (3, 0, 0, 0);    (* DACR *)
    (5, 0, 0, 0);    (* DFSR *)
    (5, 0, 0, 1);    (* IFSR *)
    (6, 0, 0, 0);    (* DFAR *)
    (6, 0, 0, 2);    (* IFAR *)
    (5, 0, 1, 0);    (* ADFSR *)
    (5, 0, 1, 1);    (* AIDSR *)
    (10, 0, 2, 0);   (* PRRR / MAIR0 *)
    (10, 0, 2, 1);   (* NMRR / MAIR1 *)
    (13, 0, 0, 1) ]. (* CONTEXTIDR *)

(** [a || b || ...] over the chain: the first alternative that matches
    performs its write and the remaining ones are not evaluated. *)
Fixpoint perform_write_chain (val : Z) (s : trap_state)
    (chain : list (Z * Z * Z * Z)) : trap_state * bool :=
  match chain with
  | [] => (s, false)
  | (crn, opc1, crm, opc2) :: rest =>
      let '(s', matched) := CP15_32_PERFORM_WRITE val s crn opc1 crm opc2 in
      if matched then (s', true) else perform_write_chain val s' rest
  end.

(** The local [val] is declared without an initialiser, and
    [access_cell_reg] does not always store into it; what it holds at first
    is given ([uninitialised]). *)
Definition arch_handle_cp15_32 (uninitialised : Z) (s : trap_state)
  : trap_state * trap_result :=
  let hsr0 := hsr (ctx s) in
  let rt := Z.land (Z.shiftr hsr0 5) 0xf in
  let read := Z.land hsr0 1 in
  let is_rd := negb (read =? 0) in
  let val := uninitialised in
  let '(s, val) :=
    if negb is_rd then access_cell_reg s rt val true else (s, val) in
  let finish (s : trap_state) (val : Z) :=
    let '(s, _) :=
      if is_rd then access_cell_reg s rt val false else (s, val) in
    (with_ctx (arch_skip_instruction (ctx s)) s, TRAP_HANDLED) in
  if HSR_MATCH_MCR_MRC (hsr (ctx s)) 1 0 0 1 then (* ACTLR *)
    (* Do not let the guest disable coherency by writing ACTLR... *)
    let val := if is_rd then Hw.read_reg (hw s) Hw.ACTLR_EL1 else val in
    finish s val
  else if is_rd then
    (s, TRAP_UNHANDLED)
  else if HSR_MATCH_MCR_MRC hsr0 1 0 0 0 then (* SCTLR *)
    finish (with_hw (Hw.write_reg Hw.SCTLR_EL1 val (hw s)) s) val
  else
    let '(s, matched) := perform_write_chain val s cp15_32_write_chain in
    if negb matched then (s, TRAP_UNHANDLED)
    else finish s val.

End Traps.

(** ** control.c: per-CPU records and the cross-CPU control protocol *)

Module Control.

(** *** Platform constants

    The values come from the platform configuration and from headers that
    are not part of the sources at hand; the code is modelled for every
    choice of them. *)
Record platform := mk_platform {
  SGI_INJECT : Z;
  SGI_EVENT : Z;
  PSCI_INVALID_ADDRESS : Z;
  RESET_PSR : Z;
  SCTLR_MASK : Z;
  MPIDR_MP_BIT : Z
}.

(** *** Per-CPU record *)

Inductive cpu_stat : Type :=
  | JAILHOUSE_CPU_STAT_VMEXITS_TOTAL
  | JAILHOUSE_CPU_STAT_VMEXITS_MANAGEMENT
  | JAILHOUSE_CPU_STAT_VMEXITS_VSGI
  | JAILHOUSE_CPU_STAT_VMEXITS_VIRQ
  | JAILHOUSE_CPU_STAT_VMEXITS_MAINTENANCE
  | JAILHOUSE_CPU_STAT_VMEXITS_PSCI.

#[global] Instance cpu_stat_eq_dec : EqDecision cpu_stat.
Proof. solve_decision. Defined.

Record per_cpu := mk_per_cpu {
  cpu_id : Z;
  virt_id : Z;
  cell : Z;                      (* the owning cell, by its index *)
  cpu_on_entry : Z;
  cpu_on_context : Z;
  park : bool;
  reset : bool;
  suspend_cpu : bool;
  cpu_suspended : bool;
  wait_for_poweron : bool;
  flush_vcpu_caches : bool;
  stats : cpu_stat -> Z;         (* u32 counters *)
  guest_usr : list Z             (* guest_regs(cpu_data)->usr *)
}.

(** A store to one member of a per-CPU record. *)
Inductive store : Type :=
  | W_virt_id (v : Z)
  | W_cpu_on_entry (v : Z)
  | W_cpu_on_context (v : Z)
  | W_park (b : bool)
  | W_reset (b : bool)
  | W_suspend_cpu (b : bool)
  | W_cpu_suspended (b : bool)
  | W_wait_for_poweron (b : bool)
  | W_flush_vcpu_caches (b : bool)
  | W_stats_add (k : cpu_stat) (n : Z)
  | W_guest_usr (l : list Z).

Definition apply_store (w : store) (d : per_cpu) : per_cpu :=
  let '(mk_per_cpu id vid cl entry context pk rs sc cs wfp fl st gu) := d in
  match w with
  | W_virt_id v => mk_per_cpu id v cl entry context pk rs sc cs wfp fl st gu
  | W_cpu_on_entry v => mk_per_cpu id vid cl v context pk rs sc cs wfp fl st gu
  | W_cpu_on_context v => mk_per_cpu id vid cl entry v pk rs sc cs wfp fl st gu
  | W_park b => mk_per_cpu id vid cl entry context b rs sc cs wfp fl st gu
  | W_reset b => mk_per_cpu id vid cl entry context pk b sc cs wfp fl st gu
  | W_suspend_cpu b => mk_per_cpu id vid cl entry context pk rs b cs wfp fl st gu
  | W_cpu_suspended b => mk_per_cpu id vid cl entry context pk rs sc b wfp fl st gu
  | W_wait_for_poweron b => mk_per_cpu id vid cl entry context pk rs sc cs b fl st gu
  | W_flush_vcpu_caches b => mk_per_cpu id vid cl entry context pk rs sc cs wfp b st gu
  | W_stats_add k n =>
      mk_per_cpu id vid cl entry context pk rs sc cs wfp fl
                 (<[k := u32 (st k + n)]> st) gu
  | W_guest_usr l => mk_per_cpu id vid cl entry context pk rs sc cs wfp fl st l
  end.

(** *** Cells and CPU sets *)

Record cpu_set := mk_cpu_set {
  max_cpu_id : Z;
  bitmap : Z
}.

Record cell_t := mk_cell {
  cell_cpu_set : cpu_set;
  last_virt_id : Z               (* cell->arch.last_virt_id, unsigned int *)
}.

(** Modelled from the spec: the [for_each_cpu] macro of
    [jailhouse/control.h] is not part of the sources at hand.  It walks the
    CPUs of a set in ascending physical order; here it is the list of the
    CPU numbers it visits. *)
Definition for_each_cpu (set : cpu_set) : list Z :=
  filter (λ cpu, Z.testbit (bitmap set) cpu = true)
         (seqZ 0 (max_cpu_id set + 1)).

(** *** What the executing CPU does to the outside *)

Record sgi := mk_sgi {
  targets : Z;
  routing_mode : Z;
  id : Z
}.

Inductive mm_ref : Type := cell_mm (c : Z) | parking_mm.

Inductive event : Type :=
  | EvSpinLock (cpu : Z)                 (* spin_lock(&per_cpu(cpu)->control_lock) *)
  | EvSpinUnlock (cpu : Z)
  | EvStore (cpu : Z) (w : store)        (* a store to per_cpu(cpu) *)
  | EvCpuRelax
  | EvSendSgi (s : sgi)                  (* irqchip_send_sgi *)
  | EvFlushTlbs                          (* arm_paging_vcpu_flush_tlbs *)
  | EvPagingVcpuInit (mm : mm_ref)       (* arm_paging_vcpu_init *)
  | EvIrqchipCpuReset (cpu : Z)
  | EvPagingCellInit (c : Z)
  | EvPagingCellDestroy (c : Z)
  | EvIrqchipCellInit (c : Z)
  | EvSmpCellInit (c : Z).

(** *** What the other CPUs do meanwhile

    The control flags of a per-CPU record are shared between CPUs and only
    touched with the record's [control_lock] held, so a critical section is
    one atomic action on the record.  While the executing CPU waits (for a
    lock, or in a [cpu_relax] loop) any number of critical sections of the
    other CPUs may run; each is one of the sections of control.c and
    psci.c, acting on the record of CPU [cpu]. *)
Inductive env_action : Type :=
  | Env_suspend (cpu : Z)            (* arch_suspend_cpu: suspend_cpu = true *)
  | Env_resume (cpu : Z)             (* arch_resume_cpu: suspend_cpu = false *)
  | Env_reset_request (cpu : Z)      (* arch_reset_cpu: reset = true *)
  | Env_park_request (cpu : Z)       (* arch_park_cpu: park = true *)
  | Env_flush_request (cpu : Z)      (* arch_flush_cell_vcpu_caches *)
  | Env_cpu_on (cpu : Z) (entry context : Z)  (* psci_emulate_cpu_on *)
  | Env_events_suspended (cpu : Z)   (* check_events on cpu, first section *)
  | Env_events_resumed (cpu : Z)     (* check_events on cpu, second section *)
  | Env_events_flush (cpu : Z)       (* check_events on cpu, flush section *)
  | Env_cpu_off (cpu : Z).           (* arm_cpu_park on cpu: enter_cpu_off *)

Definition schedule := list (list env_action).

Record system := mk_system {
  percpu : Z -> per_cpu;          (* per_cpu(cpu) *)
  cells : Z -> cell_t;
  this_cpu_id : Z;
  hw : Hw.hw_state;               (* the registers of the executing CPU *)
  events : list event
}.

Definition with_percpu (f : Z -> per_cpu) (s : system) : system :=
  mk_system f (cells s) (this_cpu_id s) (hw s) (events s).
Definition with_cells (f : Z -> cell_t) (s : system) : system :=
  mk_system (percpu s) f (this_cpu_id s) (hw s) (events s).
Definition with_hw (h : Hw.hw_state) (s : system) : system :=
  mk_system (percpu s) (cells s) (this_cpu_id s) h (events s).
Definition with_events (l : list event) (s : system) : system :=
  mk_system (percpu s) (cells s) (this_cpu_id s) (hw s) l.

Definition log (e : event) (s : system) : system :=
  with_events (events s ++ [e]) s.

Definition stores (cpu : Z) (ws : list store) (s : system) : system :=
  with_percpu (<[cpu := foldl (λ d w, apply_store w d) (percpu s cpu) ws]> (percpu s)) s.

(** *** Critical sections, as stores to one record *)

(** [enter_cpu_off]. *)
Definition enter_cpu_off : list store :=
  [W_park false; W_wait_for_poweron true].

(** check_events, first section: [if (suspend_cpu) cpu_suspended = true]. *)
Definition events_suspended_section (d : per_cpu) : list store :=
  if suspend_cpu d then [W_cpu_suspended true] else [].

(** check_events, second section: the stores, whether the loop is left by
    [break], and the local [reset]. *)
Definition events_resumed_section (P : platform) (d : per_cpu)
  : list store * bool * bool :=
  if negb (suspend_cpu d) then
    if park d then
      (W_cpu_suspended false :: enter_cpu_off, true, false)
    else if reset d then
      if negb (cpu_on_entry d =? PSCI_INVALID_ADDRESS P) then
        ([W_cpu_suspended false; W_reset false; W_wait_for_poweron false],
         true, true)
      else
        (W_cpu_suspended false :: W_reset false :: enter_cpu_off, true, false)
    else ([W_cpu_suspended false], false, false)
  else ([], false, false).

(** check_events, flush section. *)
Definition events_flush_section (d : per_cpu) : list store :=
  if flush_vcpu_caches d then [W_flush_vcpu_caches false] else [].

(** psci_emulate_cpu_on, the section under the target's lock. *)
Definition cpu_on_section (entry context : Z) (d : per_cpu) : list store :=
  if wait_for_poweron d then
    [W_cpu_on_entry entry; W_cpu_on_context context; W_reset true]
  else [].

Definition env_stores (P : platform) (a : env_action) (s : system)
  : Z * list store :=
  match a with
  | Env_suspend cpu => (cpu, [W_suspend_cpu true])
  | Env_resume cpu => (cpu, [W_suspend_cpu false])
  | Env_reset_request cpu => (cpu, [W_reset true])
  | Env_park_request cpu => (cpu, [W_park true])
  | Env_flush_request cpu => (cpu, [W_flush_vcpu_caches true])
  | Env_cpu_on cpu entry context =>
      (cpu, cpu_on_section entry context (percpu s cpu))
  | Env_events_suspended cpu => (cpu, events_suspended_section (percpu s cpu))
  | Env_events_resumed cpu => (cpu, (events_resumed_section P (percpu s cpu)).1.1)
  | Env_events_flush cpu => (cpu, events_flush_section (percpu s cpu))
  | Env_cpu_off cpu => (cpu, enter_cpu_off)
  end.

Definition env_step (P : platform) (s : system) (a : env_action) : system :=
  let '(cpu, ws) := env_stores P a s in stores cpu ws s.

Definition env_run (P : platform) (acts : list env_action) (s : system) : system :=
  foldl (env_step P) s acts.

(** *** The monad of the executing CPU

    A computation runs on the shared [system] against a [schedule] of the
    other CPUs: each time the executing CPU waits, the next entry of the
    schedule (the critical sections that run meanwhile) is applied.  [None]
    means that the CPU spins on a condition while the schedule has nothing
    left that could change it: it is blocked. *)
Definition M (A : Type) : Type :=
  schedule -> system -> option (A * system * schedule).

#[global] Instance M_ret : MRet M := λ A x sc s, Some (x, s, sc).
#[global] Instance M_bind : MBind M := λ A B f m sc s,
  match m sc s with
  | Some (x, s', sc') => f x sc' s'
  | None => None
  end.

Definition get : M system := λ sc s, Some (s, s, sc).
Definition modify (f : system -> system) : M unit := λ sc s, Some (tt, f s, sc).
Definition emit (e : event) : M unit := modify (log e).

(** A load from and a store to a member of [per_cpu(cpu)]. *)
Definition read {A : Type} (cpu : Z) (member : per_cpu -> A) : M A :=
  s ← get; mret (member (percpu s cpu)).
Definition write (cpu : Z) (w : store) : M unit :=
  modify (λ s, log (EvStore cpu w) (stores cpu [w] s)).
Fixpoint write_all (cpu : Z) (ws : list store) : M unit :=
  match ws with
  | [] => mret tt
  | w :: ws => write cpu w;; write_all cpu ws
  end.

Definition arm_write_reg (r : Hw.reg_name) (v : Z) : M unit :=
  modify (λ s, with_hw (Hw.write_reg r v (hw s)) s).
Definition arm_read_reg (r : Hw.reg_name) : M Z :=
  s ← get; mret (Hw.read_reg (hw s) r).

Section WithPlatform.

Variable P : platform.

(** The other CPUs get to run: the next schedule entry is applied. *)
Definition yield : M unit := λ sc s,
  match sc with
  | [] => Some (tt, s, [])
  | acts :: rest => Some (tt, env_run P acts s, rest)
  end.

Definition spin_lock (cpu : Z) : M unit := yield;; emit (EvSpinLock cpu).
Definition spin_unlock (cpu : Z) : M unit := emit (EvSpinUnlock cpu).

(** [while (cond) cpu_relax();] *)
Fixpoint spin_while (cond : system -> bool) (sc : schedule) (s : system)
  : option (unit * system * schedule) :=
  match sc with
  | [] => if cond s then None else Some (tt, s, [])
  | acts :: rest =>
      if cond s then spin_while cond rest (env_run P acts (log EvCpuRelax s))
      else Some (tt, s, sc)
  end.

Definition cpu_reset : M unit :=
  s ← get;
  let this := this_cpu_id s in
  cell ← read this cell;
  regs ← read this guest_usr;
  (* Wipe all banked and usr regs *)
  write this (W_guest_usr ((λ _, 0) <$> regs));;
  arm_write_reg Hw.SP_usr 0;;
  arm_write_reg Hw.SP_svc 0;;
  arm_write_reg Hw.SP_abt 0;;
  arm_write_reg Hw.SP_und 0;;
  arm_write_reg Hw.SP_irq 0;;
  arm_write_reg Hw.SP_fiq 0;;
  arm_write_reg Hw.LR_svc 0;;
  arm_write_reg Hw.LR_abt 0;;
  arm_write_reg Hw.LR_und 0;;
  arm_write_reg Hw.LR_irq 0;;
  arm_write_reg Hw.LR_fiq 0;;
  arm_write_reg Hw.R8_fiq 0;;
  arm_write_reg Hw.R9_fiq 0;;
  arm_write_reg Hw.R10_fiq 0;;
  arm_write_reg Hw.R11_fiq 0;;
  arm_write_reg Hw.R12_fiq 0;;
  arm_write_reg Hw.SPSR_svc 0;;
  arm_write_reg Hw.SPSR_abt 0;;
  arm_write_reg Hw.SPSR_und 0;;
  arm_write_reg Hw.SPSR_irq 0;;
  arm_write_reg Hw.SPSR_fiq 0;;
  (* Wipe the system registers *)
  sctlr ← arm_read_reg Hw.SCTLR_EL1;
  arm_write_reg Hw.SCTLR_EL1 (Z.land sctlr (Z.lnot (SCTLR_MASK P)));;
  arm_write_reg Hw.CPACR_EL1 0;;
  arm_write_reg Hw.CONTEXTIDR_EL1 0;;
  arm_write_reg Hw.PAR_EL1 0;;
  arm_write_reg Hw.TTBR0_EL1 0;;
  arm_write_reg Hw.TTBR1_EL1 0;;
  arm_write_reg Hw.CSSELR_EL1 0;;
  arm_write_reg Hw.CNTKCTL_EL1 0;;
  arm_write_reg Hw.CNTP_CTL_EL0 0;;
  arm_write_reg Hw.CNTP_CVAL_EL0 0;;
  arm_write_reg Hw.CNTV_CTL_EL0 0;;
  arm_write_reg Hw.CNTV_CVAL_EL0 0;;
  (* AArch32 specific *)
  arm_write_reg Hw.TTBCR 0;;
  arm_write_reg Hw.DACR 0;;
  arm_write_reg Hw.VBAR 0;;
  arm_write_reg Hw.DFSR 0;;
  arm_write_reg Hw.DFAR 0;;
  arm_write_reg Hw.IFSR 0;;
  arm_write_reg Hw.IFAR 0;;
  arm_write_reg Hw.ADFSR 0;;
  arm_write_reg Hw.AIFSR 0;;
  arm_write_reg Hw.MAIR0 0;;
  arm_write_reg Hw.MAIR1 0;;
  arm_write_reg Hw.AMAIR0 0;;
  arm_write_reg Hw.AMAIR1 0;;
  arm_write_reg Hw.TPIDRURW 0;;
  arm_write_reg Hw.TPIDRURO 0;;
  arm_write_reg Hw.TPIDRPRW 0;;
  arm_write_reg Hw.SPSR_hyp (RESET_PSR P);;
  entry ← read this cpu_on_entry;
  arm_write_reg Hw.ELR_hyp entry;;
  (* transfer the context that may have been passed to PSCI_CPU_ON *)
  context ← read this cpu_on_context;
  regs ← read this guest_usr;
  write this (W_guest_usr (<[1%nat := context]> regs));;
  vid ← read this virt_id;
  arm_write_reg Hw.VMPIDR_EL2 (Z.lor vid (MPIDR_MP_BIT P));;
  emit (EvPagingVcpuInit (cell_mm cell));;
  emit (EvIrqchipCpuReset this).

Definition arm_cpu_park : M unit :=
  s ← get;
  let this := this_cpu_id s in
  spin_lock this;;
  write_all this enter_cpu_off;;
  spin_unlock this;;
  cpu_reset;;
  arm_write_reg Hw.ELR_hyp 0;;
  emit (EvPagingVcpuInit parking_mm).

Definition arm_cpu_kick (cpu_id : Z) : M unit :=
  emit (EvSendSgi (mk_sgi (Z.shiftl 1 cpu_id) 0 (SGI_EVENT P))).

Definition arch_suspend_cpu (cpu_id : Z) : M unit :=
  spin_lock cpu_id;;
  write cpu_id (W_suspend_cpu true);;
  target_suspended ← read cpu_id cpu_suspended;
  spin_unlock cpu_id;;
  if negb target_suspended then
    arm_cpu_kick cpu_id;;
    spin_while (λ s, negb (cpu_suspended (percpu s cpu_id)))
  else mret tt.

Definition arch_resume_cpu (cpu_id : Z) : M unit :=
  (* take lock to avoid theoretical race with a pending suspension *)
  spin_lock cpu_id;;
  write cpu_id (W_suspend_cpu false);;
  spin_unlock cpu_id.

Definition arch_reset_cpu (cpu_id : Z) : M unit :=
  write cpu_id (W_reset true);;
  arch_resume_cpu cpu_id.

Definition arch_park_cpu (cpu_id : Z) : M unit :=
  write cpu_id (W_park true);;
  arch_resume_cpu cpu_id.

(** The [do ... while (cpu_data->suspend_cpu)] loop of [check_events],
    entered with the lock held; it yields the local [reset].  Every turn
    but the first needs the other CPUs to set [suspend_cpu] again, so the
    length of the schedule bounds the number of turns. *)
Fixpoint check_events_loop (turns : nat) (cpu : Z) : M bool :=
  match turns with
  | O => λ _ _, None
  | S turns =>
      d ← read cpu (λ d, d);
      write_all cpu (events_suspended_section d);;
      spin_unlock cpu;;
      spin_while (λ s, suspend_cpu (percpu s cpu));;
      spin_lock cpu;;
      d ← read cpu (λ d, d);
      let '(ws, break, reset) := events_resumed_section P d in
      write_all cpu ws;;
      if break then mret reset
      else
        again ← read cpu suspend_cpu;
        if again : bool then check_events_loop turns cpu else mret reset
  end.

Definition check_events (cpu : Z) : M unit :=
  spin_lock cpu;;
  reset ← ((λ sc, check_events_loop (S (length sc)) cpu sc) : M bool);
  flush ← read cpu flush_vcpu_caches;
  (if flush : bool then
     write cpu (W_flush_vcpu_caches false);;
     emit EvFlushTlbs
   else mret tt);;
  spin_unlock cpu;;
  (* wait_for_poweron is only modified on this CPU, so checking outside of
     control_lock is fine. *)
  wfp ← read cpu wait_for_poweron;
  if wfp : bool then arm_cpu_park
  else if reset : bool then cpu_reset
  else mret tt.

Definition arm_cpu_virt2phys (s : system) (cell : Z) (virt : Z) : Z :=
  default UINT_MINUS_1
    (head (filter (λ cpu, virt_id (percpu s cpu) = virt)
                  (for_each_cpu (cell_cpu_set (cells s cell))))).

(** The loop of [arch_cell_create] over the CPUs of the cell; it yields
    the final [virt_id]. *)
Fixpoint cell_create_loop (cpus : list Z) (virt_id : Z) : M Z :=
  match cpus with
  | [] => mret virt_id
  | cpu :: rest =>
      write cpu (W_cpu_on_entry
                   (if virt_id =? 0 then 0 else PSCI_INVALID_ADDRESS P));;
      write cpu (W_virt_id virt_id);;
      cell_create_loop rest (u32 (virt_id + 1))
  end.

(** [arm_paging_cell_init] and [irqchip_cell_init] are collaborators; the
    values they return are given. *)
Definition arch_cell_create (paging_cell_init irqchip_cell_init : Z)
    (cell : Z) : M Z :=
  emit (EvPagingCellInit cell);;
  let err := paging_cell_init in
  if negb (err =? 0) then mret err
  else
    s ← get;
    (* Generate a virtual CPU id according to the position of each CPU in
       the cell set *)
    virt_id ← cell_create_loop (for_each_cpu (cell_cpu_set (cells s cell))) 0;
    modify (λ s, with_cells
      (<[cell := mk_cell (cell_cpu_set (cells s cell)) (u32 (virt_id - 1))]>
         (cells s)) s);;
    emit (EvIrqchipCellInit cell);;
    let err := irqchip_cell_init in
    if negb (err =? 0) then
      emit (EvPagingCellDestroy cell);;
      mret err
    else
      emit (EvSmpCellInit cell);;
      mret 0.

End WithPlatform.

End Control.

(** ** psci.c *)

Module Psci.

Import Control.

(** Modelled from the spec: the PSCI constants of [asm/psci.h] are not part
    of the sources at hand.  The spec gives the function identifiers
    [CPU_OFF], [CPU_ON_32] and [AFFINITY_INFO_32] and the result codes. *)
Definition PSCI_CPU_OFF : Z := 0x84000002.
Definition PSCI_CPU_ON_32 : Z := 0x84000003.
Definition PSCI_AFFINITY_INFO_32 : Z := 0x84000004.

Definition PSCI_SUCCESS : Z := 0.
Definition PSCI_NOT_SUPPORTED : Z := -1.
Definition PSCI_DENIED : Z := -3.
Definition PSCI_ALREADY_ON : Z := -4.
Definition PSCI_CPU_IS_ON : Z := 0.
Definition PSCI_CPU_IS_OFF : Z := 1.

(** The identifiers the spec does not give; the code is modelled for every
    choice of them. *)
Record psci_ids := mk_psci_ids {
  PSCI_VERSION : Z;
  PSCI_CPU_OFF_V0_1_UBOOT : Z;
  PSCI_CPU_ON_V0_1_UBOOT : Z
}.

(** [ctx->regs[n]] *)
Definition ctx_reg (ctx : Traps.trap_context) (n : nat) : Z :=
  default 0 (Traps.regs ctx !! n).

Section WithPlatform.

Variable P : platform.
Variable I : psci_ids.

(** [arm_cpu_by_mpidr] is not part of the sources at hand: it maps a cell
    and an MPIDR value to the physical CPU of the cell's CPU set that
    carries it, or to [-1]. *)
Variable arm_cpu_by_mpidr : system -> Z -> Z -> Z.

Definition psci_emulate_cpu_on (cpu_data : Z) (ctx : Traps.trap_context)
  : M Z :=
  s ← get;
  cell ← read cpu_data cell;
  let cpu := arm_cpu_by_mpidr s cell (ctx_reg ctx 1) in
  if cpu =? UINT_MINUS_1 then
    (* Virtual id not in set *)
    mret PSCI_DENIED
  else
    let target_data := cpu in
    spin_lock P target_data;;
    wfp ← read target_data wait_for_poweron;
    '(kick_cpu, result) ←
      (if wfp : bool then
         write target_data (W_cpu_on_entry (ctx_reg ctx 2));;
         write target_data (W_cpu_on_context (ctx_reg ctx 3));;
         write target_data (W_reset true);;
         mret (true, PSCI_SUCCESS)
       else
         mret (false, PSCI_ALREADY_ON));
    spin_unlock target_data;;
    (if kick_cpu : bool then arm_cpu_kick P cpu else mret tt);;
    mret result.

Definition psci_emulate_affinity_info (cpu_data : Z)
    (ctx : Traps.trap_context) : M Z :=
  s ← get;
  cell ← read cpu_data cell;
  let cpu := arm_cpu_by_mpidr s cell (ctx_reg ctx 1) in
  if cpu =? UINT_MINUS_1 then
    (* Virtual id not in set *)
    mret PSCI_DENIED
  else
    wfp ← read cpu wait_for_poweron;
    mret (if wfp : bool then PSCI_CPU_IS_OFF else PSCI_CPU_IS_ON).

Definition psci_dispatch (ctx : Traps.trap_context) : M Z :=
  s ← get;
  let cpu_data := this_cpu_id s in
  let function_id := u32 (ctx_reg ctx 0) in
  write (this_cpu_id s) (W_stats_add JAILHOUSE_CPU_STAT_VMEXITS_PSCI 1);;
  if function_id =? PSCI_VERSION I then
    (* Major[31:16], minor[15:0] *)
    mret 2
  else if (function_id =? PSCI_CPU_OFF)
          || (function_id =? PSCI_CPU_OFF_V0_1_UBOOT I) then
    arm_cpu_park P;;
    mret 0
  else if (function_id =? PSCI_CPU_ON_32)
          || (function_id =? PSCI_CPU_ON_V0_1_UBOOT I) then
    psci_emulate_cpu_on cpu_data ctx
  else if function_id =? PSCI_AFFINITY_INFO_32 then
    psci_emulate_affinity_info cpu_data ctx
  else
    mret PSCI_NOT_SUPPORTED.

End WithPlatform.

End Psci.

(** ** gic-v2.c *)

Module GicV2.

(** Modelled from the spec: the list-register layout of [asm/gic_v2.h], the
    test [is_sgi] and the error numbers are not part of the sources at hand.
    A list register holds the virtual id in its low ten bits, the physical
    id above them, the pending and active state bits and the hardware bit;
    the 16 lowest interrupt ids are SGIs; [EBUSY] and [EEXIST] carry their
    usual numbers. *)
Definition GICH_LR_VIRT_ID_MASK : Z := 0x3ff.
Definition GICH_LR_PHYS_ID_SHIFT : Z := 10.
Definition GICH_LR_EOI_BIT : Z := Z.shiftl 1 19.
Definition GICH_LR_PENDING_BIT : Z := Z.shiftl 1 28.
Definition GICH_LR_ACTIVE_BIT : Z := Z.shiftl 1 29.
Definition GICH_LR_HW_BIT : Z := Z.shiftl 1 31.
Definition is_sgi (irqn : Z) : bool := irqn <? 16.
Definition EBUSY : Z := 16.
Definition EEXIST : Z := 17.

(** The window of the hypervisor interface the driver works on: the two
    empty-list-register status words and the list registers. *)
Record gich := mk_gich {
  GICH_ELSR0 : Z;
  GICH_ELSR1 : Z;
  GICH_LR : list Z
}.

(** [test_bit(nr, addr)] on an array of 32-bit words. *)
Definition test_bit (nr : Z) (addr : list Z) : bool :=
  Z.testbit (default 0 (addr !! Z.to_nat (nr / 32))) (nr mod 32).

Definition gic_read_lr (g : gich) (i : Z) : Z :=
  default 0 (GICH_LR g !! Z.to_nat i).

(** Modelled from the spec: the hardware behind [gic_write_lr] is not code.
    A write replaces the list register, and the hardware keeps the status
    bit of that register: it is set exactly when the register holds no
    pending or active interrupt (and is not waiting for an EOI
    maintenance interrupt). *)
Definition lr_is_empty (lr : Z) : bool :=
  (Z.land lr (Z.lor GICH_LR_PENDING_BIT GICH_LR_ACTIVE_BIT) =? 0)
  && (negb (Z.land lr GICH_LR_HW_BIT =? 0) || (Z.land lr GICH_LR_EOI_BIT =? 0)).

Definition set_status_bit (word : Z) (bit : Z) (b : bool) : Z :=
  if b then Z.setbit word bit else Z.clearbit word bit.

Definition gic_write_lr (i : Z) (lr : Z) (g : gich) : gich :=
  let e := lr_is_empty lr in
  mk_gich
    (if i <? 32 then set_status_bit (GICH_ELSR0 g) i e else GICH_ELSR0 g)
    (if (32 <=? i) && (i <? 64) then set_status_bit (GICH_ELSR1 g) (i - 32) e
     else GICH_ELSR1 g)
    (<[Z.to_nat i := lr]> (GICH_LR g)).

(** The [for] loop of [gic_inject_irq], from index [i] for [count] more
    turns: [inl] is the early [return -EEXIST], [inr] the final
    [first_free]. *)
Fixpoint scan_list_registers (g : gich) (elsr : list Z) (irq_id : Z)
    (count : nat) (i : Z) (first_free : Z) : Z + Z :=
  match count with
  | O => inr first_free
  | S count =>
      if test_bit i elsr then
        (* Entry is available *)
        scan_list_registers g elsr irq_id count (i + 1)
          (if first_free =? -1 then i else first_free)
      else
        (* Check that there is no overlapping *)
        let lr := gic_read_lr g i in
        if Z.land lr GICH_LR_VIRT_ID_MASK =? irq_id then inl (- EEXIST)
        else scan_list_registers g elsr irq_id count (i + 1) first_free
  end.

Definition gic_inject_irq (gic_num_lr : Z) (g : gich) (irq_id : Z)
  : gich * Z :=
  let elsr := [GICH_ELSR0 g; GICH_ELSR1 g] in
  match scan_list_registers g elsr irq_id (Z.to_nat gic_num_lr) 0 (-1) with
  | inl err => (g, err)
  | inr first_free =>
      if first_free =? -1 then (g, - EBUSY)
      else
        (* Inject group 0 interrupt (seen as IRQ by the guest) *)
        let lr := irq_id in
        let lr := Z.lor lr GICH_LR_PENDING_BIT in
        let lr :=
          if negb (is_sgi irq_id) then
            Z.lor (Z.lor lr GICH_LR_HW_BIT)
                  (Z.shiftl irq_id GICH_LR_PHYS_ID_SHIFT)
          else lr in
        (gic_write_lr first_free lr g, 0)
  end.

End GicV2.

(** * Specification-side definitions *)

Module Spec.

(** The truth value of an AArch32 condition code under the flags nibble
    NZCV (N is bit 3, Z bit 2, C bit 1, V bit 0), as the architecture
    defines it. *)
Definition arm_condition_holds (cond flags : Z) : bool :=
  let N := Z.testbit flags 3 in
  let Zf := Z.testbit flags 2 in
  let C := Z.testbit flags 1 in
  let V := Z.testbit flags 0 in
  match cond with
  | 0 => Zf                          (* EQ *)
  | 1 => negb Zf                     (* NE *)
  | 2 => C                           (* CS *)
  | 3 => negb C                      (* CC *)
  | 4 => N                           (* MI *)
  | 5 => negb N                      (* PL *)
  | 6 => V                           (* VS *)
  | 7 => negb V                      (* VC *)
  | 8 => C && negb Zf                (* HI *)
  | 9 => negb C || Zf                (* LS *)
  | 10 => Bool.eqb N V               (* GE *)
  | 11 => negb (Bool.eqb N V)        (* LT *)
  | 12 => negb Zf && Bool.eqb N V    (* GT *)
  | 13 => Zf || negb (Bool.eqb N V)  (* LE *)
  | 14 => true                       (* AL *)
  | _ => false                       (* NV *)
  end.

(** The condition that applies to a trapped instruction, if any: none for
    the exception classes that are unconditional (syndrome class bits 5:4
    set) or unknown (class zero); the syndrome's condition field when the
    syndrome declares it valid; otherwise the leading condition of the
    Thumb IT block, and none outside an IT block. *)
Definition applicable_condition (ctx : Traps.trap_context) : option Z :=
  let class := Traps.HSR_EC (Traps.hsr ctx) in
  if (0 <? Z.land class 0x30) || (class =? 0) then None
  else if Z.testbit (Traps.hsr ctx) 24 then
    Some (Z.land (Z.shiftr (Traps.hsr ctx) 20) 0xf)
  else
    let it := Traps.PSR_IT (Traps.cpsr ctx) in
    if it =? 0 then None else Some (Z.shiftr it 4).

(** The IT-advance rule on the 8-bit IT state: nothing to do outside an IT
    block; the state is cleared when the block is exhausted (its low three
    bits are zero: one instruction was left); otherwise the low five bits
    are shifted left by one and masked to five bits, under the unchanged
    base condition in the top three bits. *)
Definition it_advance (it : Z) : Z :=
  if it =? 0 then 0
  else if Z.land it 0x7 =? 0 then 0
  else Z.lor (Z.land (Z.shiftl (Z.land it 0x1f) 1) 0x1f)
             (Z.shiftl (Z.shiftr it 5) 5).

(** The bits of the PSR that hold the IT state: 26:25 and 15:10. *)
Definition PSR_IT_FIELD : Z := 0x0600fc00.

(** The instruction length the syndrome's IL bit (bit 25) stands for. *)
Definition instruction_length (hsr : Z) : Z :=
  if Z.testbit hsr 25 then 4 else 2.

End Spec.

(** * Bit-level lemmas *)

Lemma testbit_field (w s i : Z) :
  0 <= w -> 0 <= s ->
  Z.testbit (Z.shiftl (Z.ones w) s) i = (s <=? i) && (i <? s + w).
Proof.
  intros Hw Hs.
  destruct (Z.leb_spec s i) as [Hle|Hlt]; simpl.
  - rewrite Z.shiftl_spec by lia.
    destruct (Z.ltb_spec i (s + w)).
    + apply Z.ones_spec_low; lia.
    + apply Z.ones_spec_high; lia.
  - destruct (Z.neg_nonneg_cases i) as [Hn|Hn].
    + apply Z.testbit_neg_r; lia.
    + rewrite Z.shiftl_spec by lia. apply Z.testbit_neg_r; lia.
Qed.

Lemma testbit_shiftl_b (a n i : Z) :
  0 <= n -> Z.testbit (Z.shiftl a n) i = (n <=? i) && Z.testbit a (i - n).
Proof.
  intros Hn. destruct (Z.leb_spec n i); simpl.
  - apply Z.shiftl_spec; lia.
  - destruct (Z.neg_nonneg_cases i).
    + apply Z.testbit_neg_r; lia.
    + rewrite Z.shiftl_spec by lia. apply Z.testbit_neg_r; lia.
Qed.

Lemma testbit_shiftr_b (a n i : Z) :
  0 <= n -> Z.testbit (Z.shiftr a n) i = (0 <=? i) && Z.testbit a (i + n).
Proof.
  intros Hn. destruct (Z.leb_spec 0 i); simpl.
  - apply Z.shiftr_spec; lia.
  - apply Z.testbit_neg_r; lia.
Qed.

Lemma testbit_lnot_b (a i : Z) :
  Z.testbit (Z.lnot a) i = (0 <=? i) && negb (Z.testbit a i).
Proof.
  destruct (Z.leb_spec 0 i); simpl.
  - apply Z.lnot_spec; lia.
  - apply Z.testbit_neg_r; lia.
Qed.

Lemma testbit_small (k a i : Z) :
  0 <= a < 2 ^ k -> 0 <= k -> Z.testbit a i = (i <? k) && Z.testbit a i.
Proof.
  intros Ha Hk. destruct (Z.ltb_spec i k); simpl; [reflexivity|].
  rewrite <- (Z.mod_small a (2 ^ k)) by lia.
  apply Z.mod_pow2_bits_high; lia.
Qed.

Lemma testbit_high (k a i : Z) :
  0 <= a < 2 ^ k -> 0 <= k <= i -> Z.testbit a i = false.
Proof.
  intros Ha Hk. rewrite (testbit_small k a i) by lia.
  destruct (Z.ltb_spec i k); [lia|reflexivity].
Qed.

(** The same, with the remaining bit test under a name of its own, so that
    rewriting with it any number of times ends. *)
Definition bit_sealed : { f : Z -> Z -> bool | f = Z.testbit }.
Proof. exists Z.testbit. reflexivity. Qed.
Definition bit : Z -> Z -> bool := proj1_sig bit_sealed.

Lemma bit_eq : bit = Z.testbit.
Proof. exact (proj2_sig bit_sealed). Qed.

Lemma testbit_bounded (k a i : Z) :
  0 <= a < 2 ^ k -> 0 <= k -> Z.testbit a i = (i <? k) && bit a i.
Proof. rewrite bit_eq. apply testbit_small. Qed.

Lemma testbit_pow2_b (k i : Z) :
  0 <= k -> Z.testbit (Z.shiftl 1 k) i = (k =? i).
Proof.
  intros Hk. rewrite Z.shiftl_1_l. apply Z.pow2_bits_eqb. lia.
Qed.

(** The masks of the source as bit ranges. *)
Lemma tb_0x1 i : Z.testbit 0x1 i = (0 <=? i) && (i <? 0 + 1).
Proof. exact (testbit_field 1 0 i ltac:(lia) ltac:(lia)). Qed.
Lemma tb_0x3 i : Z.testbit 0x3 i = (0 <=? i) && (i <? 0 + 2).
Proof. exact (testbit_field 2 0 i ltac:(lia) ltac:(lia)). Qed.
Lemma tb_0x7 i : Z.testbit 0x7 i = (0 <=? i) && (i <? 0 + 3).
Proof. exact (testbit_field 3 0 i ltac:(lia) ltac:(lia)). Qed.
Lemma tb_0xf i : Z.testbit 0xf i = (0 <=? i) && (i <? 0 + 4).
Proof. exact (testbit_field 4 0 i ltac:(lia) ltac:(lia)). Qed.
Lemma tb_0x1f i : Z.testbit 0x1f i = (0 <=? i) && (i <? 0 + 5).
Proof. exact (testbit_field 5 0 i ltac:(lia) ltac:(lia)). Qed.
Lemma tb_0x3f i : Z.testbit 0x3f i = (0 <=? i) && (i <? 0 + 6).
Proof. exact (testbit_field 6 0 i ltac:(lia) ltac:(lia)). Qed.
Lemma tb_0xff i : Z.testbit 0xff i = (0 <=? i) && (i <? 0 + 8).
Proof. exact (testbit_field 8 0 i ltac:(lia) ltac:(lia)). Qed.
Lemma tb_0xfc i : Z.testbit 0xfc i = (2 <=? i) && (i <? 2 + 6).
Proof. exact (testbit_field 6 2 i ltac:(lia) ltac:(lia)). Qed.
Lemma tb_0x30 i : Z.testbit 0x30 i = (4 <=? i) && (i <? 4 + 2).
Proof. exact (testbit_field 2 4 i ltac:(lia) ltac:(lia)). Qed.
Lemma tb_0x3ff i : Z.testbit 0x3ff i = (0 <=? i) && (i <? 0 + 10).
Proof. exact (testbit_field 10 0 i ltac:(lia) ltac:(lia)). Qed.
Lemma tb_0x1e i : Z.testbit 0x1e i = (1 <=? i) && (i <? 1 + 4).
Proof. exact (testbit_field 4 1 i ltac:(lia) ltac:(lia)). Qed.
Lemma tb_0xffc00 i : Z.testbit 0xffc00 i = (10 <=? i) && (i <? 10 + 10).
Proof. exact (testbit_field 10 10 i ltac:(lia) ltac:(lia)). Qed.
Lemma tb_0x1ffffff i : Z.testbit 0x1ffffff i = (0 <=? i) && (i <? 0 + 25).
Proof. exact (testbit_field 25 0 i ltac:(lia) ltac:(lia)). Qed.
Lemma tb_it_field i :
  Z.testbit 0x0600fc00 i = ((10 <=? i) && (i <? 16)) || ((25 <=? i) && (i <? 27)).
Proof.
  change 0x0600fc00 with (Z.lor (Z.shiftl (Z.ones 6) 10) (Z.shiftl (Z.ones 2) 25)).
  rewrite Z.lor_spec, !testbit_field by lia. reflexivity.
Qed.

(** Turn the bit [i] of a bitwise expression into a boolean formula over
    bits of its variables and comparisons on [i]. *)
Ltac bits_rw :=
  repeat first
    [ rewrite Z.lor_spec | rewrite Z.land_spec | rewrite Z.ldiff_spec
    | rewrite testbit_lnot_b
    | rewrite testbit_shiftl_b by lia
    | rewrite testbit_shiftr_b by lia
    | rewrite tb_0x1 | rewrite tb_0x3 | rewrite tb_0x7 | rewrite tb_0xf
    | rewrite tb_0x1f | rewrite tb_0x3f | rewrite tb_0xff | rewrite tb_0xfc
    | rewrite tb_0x30 | rewrite tb_0x3ff | rewrite tb_0x1e | rewrite tb_0xffc00
    | rewrite tb_0x1ffffff | rewrite tb_it_field
    | rewrite Z.testbit_0_l ].

Ltac bits_cases :=
  repeat match goal with
  | |- context [?a <=? ?b] => destruct (Z.leb_spec a b); try lia
  | |- context [?a <? ?b] => destruct (Z.ltb_spec a b); try lia
  | |- context [?a =? ?b] => destruct (Z.eqb_spec a b); try lia
  end.

Ltac bits_norm i :=
  repeat match goal with
  | |- context [Z.testbit ?x ?j] =>
      lazymatch j with
      | i => fail
      | _ => replace j with i by lia
      end
  end.

Ltac bits_close :=
  simpl;
  repeat match goal with
  | |- context [Z.testbit ?x ?j] => destruct (Z.testbit x j)
  end; simpl; try reflexivity; try lia.

Ltac bitblast i :=
  bits_rw; bits_cases; bits_norm i; bits_close.

Section ItState.

Import Traps.

Lemma PSR_IT_byte (c : Z) : Z.land (PSR_IT c) 0xff = PSR_IT c.
Proof.
  unfold PSR_IT. apply Z.bits_inj'; intros i Hi. bitblast i.
Qed.

Lemma PSR_IT_range (c : Z) : 0 <= PSR_IT c < 256.
Proof.
  rewrite <- PSR_IT_byte. change 0xff with (Z.ones 8).
  rewrite Z.land_ones by lia. apply Z.mod_pos_bound. lia.
Qed.

Lemma PSR_IT_MASK_of_PSR_IT (c : Z) :
  PSR_IT_MASK (PSR_IT c) = Z.land c (PSR_IT_MASK 0xff).
Proof.
  unfold PSR_IT, PSR_IT_MASK. apply Z.bits_inj'; intros i Hi. bitblast i.
Qed.

Lemma PSR_IT_of_field (c : Z) : PSR_IT (Z.land c (PSR_IT_MASK 0xff)) = PSR_IT c.
Proof.
  unfold PSR_IT, PSR_IT_MASK. apply Z.bits_inj'; intros i Hi. bitblast i.
Qed.

Lemma PSR_IT_insert (c it : Z) :
  0 <= it < 256 ->
  PSR_IT (Z.lor (Z.land c (Z.lnot (PSR_IT_MASK 0xff))) (PSR_IT_MASK it)) = it.
Proof.
  intros H. unfold PSR_IT, PSR_IT_MASK.
  apply Z.bits_inj'; intros i Hi.
  rewrite (testbit_small 8 it i) by lia.
  bitblast i.
Qed.

Lemma PSR_IT_insert_frame (c it : Z) :
  Z.ldiff (Z.lor (Z.land c (Z.lnot (PSR_IT_MASK 0xff))) (PSR_IT_MASK it))
          Spec.PSR_IT_FIELD
  = Z.ldiff c Spec.PSR_IT_FIELD.
Proof.
  unfold PSR_IT_MASK, Spec.PSR_IT_FIELD.
  apply Z.bits_inj'; intros i Hi. bitblast i.
Qed.

Lemma PSR_IT_zero_iff (c : Z) :
  Z.land c (PSR_IT_MASK 0xff) = 0 <-> PSR_IT c = 0.
Proof.
  split; intros H.
  - rewrite <- PSR_IT_of_field, H. reflexivity.
  - rewrite <- PSR_IT_MASK_of_PSR_IT, H. reflexivity.
Qed.

End ItState.

(** * traps.c: condition check *)

Section ConditionCheck.

Import Traps.

Lemma land_shiftr_1 (a n : Z) :
  Z.land (Z.shiftr a n) 1 = if Z.testbit a n then 1 else 0.
Proof.
  rewrite Z.testbit_odd. change 1 with (Z.ones 1) at 1.
  rewrite Z.land_ones by lia. change (2 ^ 1) with 2. apply Zmod_odd.
Qed.

Lemma cc_map_bit_test (cond flags : Z) :
  negb (Z.land (Z.shiftr (cc_map_at cond) flags) 1 =? 0)
  = Z.testbit (cc_map_at cond) flags.
Proof. rewrite land_shiftr_1. destruct (Z.testbit _ _); reflexivity. Qed.

Ltac enum16 x H :=
  let E := fresh "E" in
  assert (x = 0 \/ x = 1 \/ x = 2 \/ x = 3 \/ x = 4 \/ x = 5 \/ x = 6 \/ x = 7
          \/ x = 8 \/ x = 9 \/ x = 10 \/ x = 11 \/ x = 12 \/ x = 13 \/ x = 14
          \/ x = 15) as E by lia;
  clear H; repeat (destruct E as [E|E]; [subst x|]); [..|subst x].

Lemma cc_map_table (cond flags : Z) :
  0 <= cond < 16 -> 0 <= flags < 16 ->
  Z.testbit (cc_map_at cond) flags = Spec.arm_condition_holds cond flags.
Proof.
  intros Hc Hf. enum16 cond Hc; enum16 flags Hf; reflexivity.
Qed.

Lemma HSR_EC_unconditional (h : Z) :
  negb (Z.land (HSR_EC h) 0x30 =? 0) = (0 <? Z.land (HSR_EC h) 0x30).
Proof.
  assert (0 <= Z.land (HSR_EC h) 0x30) by (apply Z.land_nonneg; lia).
  destruct (Z.eqb_spec (Z.land (HSR_EC h) 0x30) 0), (Z.ltb_spec 0 (Z.land (HSR_EC h) 0x30));
    simpl; try reflexivity; lia.
Qed.

Lemma HSR_ICC_cv (h : Z) :
  negb (Z.land (HSR_ICC h) HSR_ICC_CV_BIT =? 0) = Z.testbit h 24.
Proof.
  assert (Z.land (HSR_ICC h) HSR_ICC_CV_BIT
          = if Z.testbit h 24 then Z.shiftl 1 24 else 0) as ->.
  { unfold HSR_ICC, HSR_ICC_CV_BIT. apply Z.bits_inj'; intros i Hi.
    destruct (Z.testbit h 24) eqn:E.
    - rewrite Z.land_spec, Z.land_spec, tb_0x1ffffff, !testbit_pow2_b by lia.
      bits_cases; subst; rewrite ?E; simpl; try reflexivity;
        rewrite ?andb_false_r; reflexivity.
    - rewrite Z.land_spec, Z.land_spec, tb_0x1ffffff, !testbit_pow2_b, Z.testbit_0_l by lia.
      bits_cases; subst; rewrite ?E; simpl; try reflexivity;
        rewrite ?andb_false_r; reflexivity. }
  destruct (Z.testbit h 24); reflexivity.
Qed.

Lemma HSR_ICC_COND_field (h : Z) :
  HSR_ICC_COND (HSR_ICC h) = Z.land (Z.shiftr h 20) 0xf.
Proof.
  unfold HSR_ICC_COND, HSR_ICC. apply Z.bits_inj'; intros i Hi. bitblast i.
Qed.

Lemma cond_field_range (x : Z) : 0 <= Z.land x 0xf < 16.
Proof.
  change 0xf with (Z.ones 4). rewrite Z.land_ones by lia.
  apply Z.mod_pos_bound. lia.
Qed.

Lemma it_cond_range (c : Z) : 0 <= Z.shiftr (PSR_IT c) 4 < 16.
Proof.
  pose proof (PSR_IT_range c). rewrite Z.shiftr_div_pow2 by lia.
  change (2 ^ 4) with 16. split.
  - apply Z.div_pos; lia.
  - apply Z.div_lt_upper_bound; lia.
Qed.

Lemma flags_range (c : Z) : 0 <= c < 2 ^ 32 -> 0 <= Z.shiftr c 28 < 16.
Proof.
  intros H. rewrite Z.shiftr_div_pow2 by lia. split.
  - apply Z.div_pos; lia.
  - apply Z.div_lt_upper_bound; lia.
Qed.

Lemma arch_failed_condition_eq (ctx : trap_context) :
  0 <= cpsr ctx < 2 ^ 32 ->
  arch_failed_condition ctx =
  match Spec.applicable_condition ctx with
  | None => false
  | Some c => negb (Spec.arm_condition_holds c (Z.shiftr (cpsr ctx) 28))
  end.
Proof.
  intros Hc. pose proof (flags_range _ Hc) as Hf.
  unfold arch_failed_condition, Spec.applicable_condition.
  rewrite HSR_EC_unconditional, HSR_ICC_cv, !cc_map_bit_test, HSR_ICC_COND_field.
  destruct (_ || _); [reflexivity|].
  destruct (Z.testbit (hsr ctx) 24).
  - rewrite cc_map_table by (auto using cond_field_range).
    destruct (Spec.arm_condition_holds _ _); reflexivity.
  - destruct (PSR_IT (cpsr ctx) =? 0); [reflexivity|].
    rewrite cc_map_table by (auto using it_cond_range).
    destruct (Spec.arm_condition_holds _ _); reflexivity.
Qed.

End ConditionCheck.

(** C5.  For all 16 condition codes and all 16 NZCV nibbles, bit [flags] of
    [cc_map[cond]] is the architecture's truth value of the condition under
    the flags; and for every trap context (with a 32-bit PSR)
    [arch_failed_condition] is true exactly when a condition applies to the
    trapped instruction and evaluates to false under the guest flags. *)
Theorem cc_map_matches_arm_conditions
    (cond flags : Z) (ctx : Traps.trap_context) :
  0 <= cond < 16 -> 0 <= flags < 16 -> 0 <= Traps.cpsr ctx < 2 ^ 32 ->
  Z.testbit (Traps.cc_map_at cond) flags = Spec.arm_condition_holds cond flags
  /\ (Traps.arch_failed_condition ctx = true <->
      exists c, Spec.applicable_condition ctx = Some c
                /\ Spec.arm_condition_holds c (Z.shiftr (Traps.cpsr ctx) 28) = false).
Proof.
  intros Hc Hf Hp. split.
  - apply cc_map_table; assumption.
  - rewrite arch_failed_condition_eq by assumption.
    destruct (Spec.applicable_condition ctx) as [c|].
    + split.
      * intros H. exists c. split; [reflexivity|].
        destruct (Spec.arm_condition_holds _ _); [discriminate|reflexivity].
      * intros (c' & [= <-] & ->). reflexivity.
    + split; [discriminate|]. intros (c' & [=] & _).
Qed.

(** A trapped [MCR] with condition EQ (syndrome class CP15_32, condition
    valid) while only the C flag is set: the condition fails. *)
Definition ctx_mcr_eq_z_clear : Traps.trap_context :=
  Traps.mk_trap_context 0x8000 0x20000013 0x0F000000 (replicate 14 0).

Lemma cc_map_matches_arm_conditions_witness :
  Z.testbit (Traps.cc_map_at 8) 2 = Spec.arm_condition_holds 8 2
  /\ (Traps.arch_failed_condition ctx_mcr_eq_z_clear = true <->
      exists c, Spec.applicable_condition ctx_mcr_eq_z_clear = Some c
                /\ Spec.arm_condition_holds c
                     (Z.shiftr (Traps.cpsr ctx_mcr_eq_z_clear) 28) = false).
Proof.
  apply (cc_map_matches_arm_conditions 8 2 ctx_mcr_eq_z_clear);
    simpl; lia.
Defined.

(** * traps.c: instruction skip *)

Section InstructionSkip.

Import Traps.

Lemma HSR_IL_length (h : Z) :
  (if HSR_IL h =? 0 then 2 else 4) = Spec.instruction_length h.
Proof.
  unfold HSR_IL, Spec.instruction_length. rewrite land_shiftr_1.
  destruct (Z.testbit h 25); reflexivity.
Qed.

Lemma it_low3 (it : Z) : Z.land it 0x7 = 0 -> Z.land (Z.land it 0x1f) 0x7 = 0.
Proof.
  intros H. rewrite <- H. apply Z.bits_inj'; intros i Hi. bitblast i.
Qed.

(** The value [arch_advance_itstate] re-encodes is the advanced IT state. *)
Lemma advance_itbits (it : Z) :
  0 <= it < 256 -> it <> 0 ->
  (let '(itbits, cond) :=
     if Z.land it 0x7 =? 0 then (0, 0)
     else (Z.land (Z.shiftl it 1) 0x1f, Z.shiftr it 5) in
   Z.lor itbits (Z.shiftl cond 5)) = Spec.it_advance it.
Proof.
  intros Hr Hnz. unfold Spec.it_advance.
  destruct (Z.eqb_spec it 0); [contradiction|].
  destruct (Z.land it 0x7 =? 0); [reflexivity|].
  f_equal. apply Z.bits_inj'; intros i Hi. bitblast i.
Qed.

Lemma it_advance_range (it : Z) : 0 <= it < 256 -> 0 <= Spec.it_advance it < 256.
Proof.
  intros H. unfold Spec.it_advance.
  destruct (it =? 0); [lia|]. destruct (Z.land it 0x7 =? 0); [lia|].
  assert (Z.land (Z.lor (Z.land (Z.shiftl (Z.land it 0x1f) 1) 0x1f)
                        (Z.shiftl (Z.shiftr it 5) 5)) 0xff
          = Z.lor (Z.land (Z.shiftl (Z.land it 0x1f) 1) 0x1f)
                  (Z.shiftl (Z.shiftr it 5) 5)) as <-.
  { apply Z.bits_inj'; intros i Hi. bits_rw.
    rewrite (testbit_small 8 it (i - 5 + 5)) by lia.
    bits_cases; bits_norm i; bits_close. }
  change 0xff with (Z.ones 8). rewrite Z.land_ones by lia.
  apply Z.mod_pos_bound. lia.
Qed.

Lemma it_advance_0 : Spec.it_advance 0 = 0.
Proof. reflexivity. Qed.

Lemma arch_advance_itstate_cpsr (ctx : trap_context) :
  cpsr (arch_advance_itstate ctx) =
  if PSR_IT (cpsr ctx) =? 0 then cpsr ctx
  else Z.lor (Z.land (cpsr ctx) (Z.lnot (PSR_IT_MASK 0xff)))
             (PSR_IT_MASK (Spec.it_advance (PSR_IT (cpsr ctx)))).
Proof.
  unfold arch_advance_itstate.
  destruct (Z.eqb_spec (Z.land (cpsr ctx) (PSR_IT_MASK 0xff)) 0) as [E|E];
    destruct (Z.eqb_spec (PSR_IT (cpsr ctx)) 0) as [E'|E'].
  - reflexivity.
  - apply PSR_IT_zero_iff in E. contradiction.
  - apply PSR_IT_zero_iff in E'. contradiction.
  - rewrite <- (advance_itbits (PSR_IT (cpsr ctx)))
      by (auto using PSR_IT_range).
    destruct (Z.land (PSR_IT (cpsr ctx)) 7 =? 0); reflexivity.
Qed.

Lemma arch_advance_itstate_frame (ctx : trap_context) :
  pc (arch_advance_itstate ctx) = pc ctx
  /\ hsr (arch_advance_itstate ctx) = hsr ctx
  /\ regs (arch_advance_itstate ctx) = regs ctx.
Proof.
  unfold arch_advance_itstate.
  destruct (_ =? 0); [auto|].
  destruct (if Z.land _ _ =? 0 then _ else _); auto.
Qed.

Lemma arch_advance_itstate_it (ctx : trap_context) :
  PSR_IT (cpsr (arch_advance_itstate ctx)) = Spec.it_advance (PSR_IT (cpsr ctx)).
Proof.
  rewrite arch_advance_itstate_cpsr.
  destruct (Z.eqb_spec (PSR_IT (cpsr ctx)) 0) as [E|E].
  - rewrite E. reflexivity.
  - apply PSR_IT_insert, it_advance_range, PSR_IT_range.
Qed.

Lemma arch_advance_itstate_other_bits (ctx : trap_context) :
  Z.ldiff (cpsr (arch_advance_itstate ctx)) Spec.PSR_IT_FIELD
  = Z.ldiff (cpsr ctx) Spec.PSR_IT_FIELD.
Proof.
  rewrite arch_advance_itstate_cpsr.
  destruct (PSR_IT (cpsr ctx) =? 0); [reflexivity|].
  apply PSR_IT_insert_frame.
Qed.

Lemma arch_skip_instruction_pc (ctx : trap_context) :
  pc (arch_skip_instruction ctx)
  = u32 (pc ctx + Spec.instruction_length (hsr ctx)).
Proof.
  unfold arch_skip_instruction.
  destruct (arch_advance_itstate_frame
              (set_pc (u32 (pc ctx + (if HSR_IL (hsr ctx) =? 0 then 2 else 4))) ctx))
    as (-> & _ & _).
  cbn [pc set_pc]. rewrite HSR_IL_length. reflexivity.
Qed.

Lemma arch_skip_instruction_frame (ctx : trap_context) :
  hsr (arch_skip_instruction ctx) = hsr ctx
  /\ regs (arch_skip_instruction ctx) = regs ctx.
Proof.
  unfold arch_skip_instruction.
  destruct (arch_advance_itstate_frame
              (set_pc (u32 (pc ctx + (if HSR_IL (hsr ctx) =? 0 then 2 else 4))) ctx))
    as (_ & -> & ->).
  split; reflexivity.
Qed.

Lemma arch_skip_instruction_it (ctx : trap_context) :
  PSR_IT (cpsr (arch_skip_instruction ctx)) = Spec.it_advance (PSR_IT (cpsr ctx)).
Proof.
  unfold arch_skip_instruction.
  exact (arch_advance_itstate_it (set_pc _ ctx)).
Qed.

Lemma arch_skip_instruction_other_bits (ctx : trap_context) :
  Z.ldiff (cpsr (arch_skip_instruction ctx)) Spec.PSR_IT_FIELD
  = Z.ldiff (cpsr ctx) Spec.PSR_IT_FIELD.
Proof.
  unfold arch_skip_instruction.
  exact (arch_advance_itstate_other_bits (set_pc _ ctx)).
Qed.

Lemma arch_skip_instruction_no_it (ctx : trap_context) :
  PSR_IT (cpsr ctx) = 0 -> cpsr (arch_skip_instruction ctx) = cpsr ctx.
Proof.
  intros H. unfold arch_skip_instruction.
  rewrite arch_advance_itstate_cpsr. cbn [cpsr set_pc]. rewrite H. reflexivity.
Qed.

End InstructionSkip.

(** C6.  For every trap context, [arch_skip_instruction] adds 4 to the PC
    (a 32-bit word) when the syndrome's IL bit is set and 2 otherwise, and
    leaves the syndrome and the saved registers alone.  If the PSR's IT
    field is zero the PSR is unchanged.  In every case the IT field of the
    new PSR, read back from bits (26:25, 15:10), is the advanced IT state
    (low five bits shifted left by one and masked to five bits, cleared
    entirely when the block is exhausted), and all other PSR bits are
    unchanged. *)
Theorem arch_skip_instruction_advances (ctx : Traps.trap_context) :
  let ctx' := Traps.arch_skip_instruction ctx in
  Traps.pc ctx'
    = u32 (Traps.pc ctx + (if Z.testbit (Traps.hsr ctx) 25 then 4 else 2))
  /\ Traps.hsr ctx' = Traps.hsr ctx
  /\ Traps.regs ctx' = Traps.regs ctx
  /\ (Traps.PSR_IT (Traps.cpsr ctx) = 0 -> Traps.cpsr ctx' = Traps.cpsr ctx)
  /\ Traps.PSR_IT (Traps.cpsr ctx') = Spec.it_advance (Traps.PSR_IT (Traps.cpsr ctx))
  /\ Z.ldiff (Traps.cpsr ctx') Spec.PSR_IT_FIELD
     = Z.ldiff (Traps.cpsr ctx) Spec.PSR_IT_FIELD.
Proof.
  cbv zeta. repeat split.
  - apply arch_skip_instruction_pc.
  - apply arch_skip_instruction_frame.
  - apply arch_skip_instruction_frame.
  - apply arch_skip_instruction_no_it.
  - apply arch_skip_instruction_it.
  - apply arch_skip_instruction_other_bits.
Qed.

(** C7.  Skipping twice from the same context (the syndrome, hence the IL
    bit, is the same for both) leaves a PC that is the starting PC plus
    twice the instruction length, as a 32-bit word and so exactly that much
    greater when the sum fits, and an IT state that is the starting one
    advanced by two steps of the IT-advance rule. *)
Theorem arch_skip_instruction_twice (ctx : Traps.trap_context) :
  let len := if Z.testbit (Traps.hsr ctx) 25 then 4 else 2 in
  let ctx'' := Traps.arch_skip_instruction (Traps.arch_skip_instruction ctx) in
  Traps.pc ctx'' = u32 (Traps.pc ctx + 2 * len)
  /\ (0 <= Traps.pc ctx -> Traps.pc ctx + 2 * len < 2 ^ 32 ->
      Traps.pc ctx'' = Traps.pc ctx + 2 * len)
  /\ Traps.PSR_IT (Traps.cpsr ctx'')
     = Spec.it_advance (Spec.it_advance (Traps.PSR_IT (Traps.cpsr ctx)))
  /\ Z.ldiff (Traps.cpsr ctx'') Spec.PSR_IT_FIELD
     = Z.ldiff (Traps.cpsr ctx) Spec.PSR_IT_FIELD.
Proof.
  cbv zeta.
  assert (Traps.pc (Traps.arch_skip_instruction (Traps.arch_skip_instruction ctx))
          = u32 (Traps.pc ctx
                 + 2 * (if Z.testbit (Traps.hsr ctx) 25 then 4 else 2))) as Hpc.
  { rewrite !arch_skip_instruction_pc.
    destruct (arch_skip_instruction_frame ctx) as [-> _].
    unfold u32, Spec.instruction_length.
    rewrite Zplus_mod_idemp_l. f_equal. lia. }
  repeat split.
  - exact Hpc.
  - intros H0 H1. rewrite Hpc. unfold u32. apply Z.mod_small.
    destruct (Z.testbit (Traps.hsr ctx) 25); lia.
  - rewrite !arch_skip_instruction_it. reflexivity.
  - rewrite !arch_skip_instruction_other_bits. reflexivity.
Qed.

(** * traps.c: guest register access *)

Section GuestRegisters.

Import Traps.

Lemma access_cell_reg_usr_sys (s : trap_state) (val : Z) :
  Z.land (cpsr (ctx s)) PSR_MODE_MASK = PSR_USR_MODE
  \/ Z.land (cpsr (ctx s)) PSR_MODE_MASK = PSR_SYS_MODE ->
  (forall is_read, access_cell_reg s 14 val is_read = access_usr_reg s 13 val is_read)
  /\ (forall is_read, access_cell_reg s 13 val is_read
                      = access_hw_reg s Hw.SP_usr val is_read).
Proof.
  intros Hm. unfold access_cell_reg.
  assert ((Z.land (cpsr (ctx s)) PSR_MODE_MASK =? PSR_USR_MODE)
          || (Z.land (cpsr (ctx s)) PSR_MODE_MASK =? PSR_SYS_MODE) = true) as ->.
  { destruct Hm as [-> | ->]; reflexivity. }
  split; intros is_read; reflexivity.
Qed.

(** Reading a guest register never writes a hardware register and leaves
    the trap context as it is. *)
Lemma access_cell_reg_read (s : trap_state) (reg val : Z) :
  ctx (access_cell_reg s reg val true).1 = ctx s
  /\ hw (access_cell_reg s reg val true).1 = hw s.
Proof.
  unfold access_cell_reg, access_banked_reg, access_fiq_reg, access_usr_reg,
    access_hw_reg.
  repeat match goal with
         | |- context [if ?b then _ else _] => destruct b
         end; split; reflexivity.
Qed.

End GuestRegisters.

(** A guest in USR mode whose save area holds its own index in every
    slot. *)
Definition usr_mode_state : Traps.trap_state :=
  Traps.mk_trap_state
    (Traps.mk_trap_context 0x8000 0x10 0
       [0; 1; 2; 3; 4; 5; 6; 7; 8; 9; 10; 11; 12; 13; 14])
    (Hw.mk_hw_state (λ _, 0) [])
    [].

(** C2, as stated, fails: in USR mode a read of r14 returns the content of
    slot 13 of the save area, not of slot 14, and a write of r14 changes
    slot 13 and leaves slot 14 alone. *)
Lemma access_cell_reg_lr_not_at_offset_14 :
  Z.land (Traps.cpsr (Traps.ctx usr_mode_state)) Traps.PSR_MODE_MASK
    = Traps.PSR_USR_MODE
  /\ Traps.regs (Traps.ctx usr_mode_state) !! 14%nat = Some 14
  /\ (Traps.access_cell_reg usr_mode_state 14 0 true).2 = 13
  /\ Traps.regs (Traps.ctx (Traps.access_cell_reg usr_mode_state 14 77 false).1)
     = [0; 1; 2; 3; 4; 5; 6; 7; 8; 9; 10; 11; 12; 77; 14].
Proof. repeat split. Qed.

(** C2 (amended).  While the guest PSR mode is USR or SYS, an access to
    r14 (LR) reads or writes slot 13 of the on-stack user register save
    area, and an access to r13 (SP) reads or writes the banked [SP_usr];
    nothing else changes. *)
Theorem access_cell_reg_usr_sys_sp_lr (s : Traps.trap_state) (val : Z) :
  Z.land (Traps.cpsr (Traps.ctx s)) Traps.PSR_MODE_MASK = Traps.PSR_USR_MODE
  \/ Z.land (Traps.cpsr (Traps.ctx s)) Traps.PSR_MODE_MASK = Traps.PSR_SYS_MODE ->
  Traps.access_cell_reg s 14 val true
    = (s, default 0 (Traps.regs (Traps.ctx s) !! 13%nat))
  /\ Traps.access_cell_reg s 14 val false
     = (Traps.with_ctx
          (Traps.set_regs (<[13%nat := val]> (Traps.regs (Traps.ctx s)))
                          (Traps.ctx s)) s, val)
  /\ Traps.access_cell_reg s 13 val true = (s, Hw.read_reg (Traps.hw s) Hw.SP_usr)
  /\ Traps.access_cell_reg s 13 val false
     = (Traps.with_hw (Hw.write_reg Hw.SP_usr val (Traps.hw s)) s, val).
Proof.
  intros Hm. destruct (access_cell_reg_usr_sys s val Hm) as [Hlr Hsp].
  rewrite !Hlr, !Hsp. repeat split.
Qed.

Lemma access_cell_reg_usr_sys_sp_lr_witness :
  Traps.access_cell_reg usr_mode_state 14 5 true
    = (usr_mode_state, default 0 (Traps.regs (Traps.ctx usr_mode_state) !! 13%nat))
  /\ Traps.access_cell_reg usr_mode_state 14 5 false
     = (Traps.with_ctx
          (Traps.set_regs (<[13%nat := 5]> (Traps.regs (Traps.ctx usr_mode_state)))
                          (Traps.ctx usr_mode_state)) usr_mode_state, 5)
  /\ Traps.access_cell_reg usr_mode_state 13 5 true
     = (usr_mode_state, Hw.read_reg (Traps.hw usr_mode_state) Hw.SP_usr)
  /\ Traps.access_cell_reg usr_mode_state 13 5 false
     = (Traps.with_hw (Hw.write_reg Hw.SP_usr 5 (Traps.hw usr_mode_state))
                      usr_mode_state, 5).
Proof.
  apply (access_cell_reg_usr_sys_sp_lr usr_mode_state 5).
  left. reflexivity.
Defined.

(** * traps.c: what a read of a guest register stores *)

Module RegSpec.

Import Traps.

(** The modes whose banked SP and LR [access_cell_reg] knows. *)
Definition banked_mode (mode : Z) : bool :=
  (mode =? PSR_USR_MODE) || (mode =? PSR_SYS_MODE) || (mode =? PSR_SVC_MODE)
  || (mode =? PSR_UND_MODE) || (mode =? PSR_ABT_MODE) || (mode =? PSR_IRQ_MODE)
  || (mode =? PSR_FIQ_MODE).

Definition mode_of (s : trap_state) : Z :=
  Z.land (cpsr (ctx s)) PSR_MODE_MASK.

(** The reads that store nothing in [*val]: r13 and r14 in a mode that is
    none of the seven (the inner switch of [access_cell_reg] has no
    default). *)
Definition reads_nothing (s : trap_state) (reg : Z) : bool :=
  (13 <=? reg) && (reg <=? 14) && negb (banked_mode (mode_of s)).

End RegSpec.

Section GuestRegisterRead.

Import Traps RegSpec.

(** A read that stores nothing leaves in [*val] what was there. *)
Lemma access_cell_reg_reads_nothing (s : trap_state) (reg val : Z) :
  reads_nothing s reg = true ->
  access_cell_reg s reg val true = (s, val).
Proof.
  unfold reads_nothing, banked_mode, mode_of. intros H.
  apply andb_prop in H as [H Hm]. apply andb_prop in H as [H13 H14].
  apply Z.leb_le in H13, H14. apply negb_true_iff in Hm.
  unfold access_cell_reg.
  destruct (Z.leb_spec 0 reg), (Z.leb_spec reg 7), (Z.leb_spec 8 reg),
    (Z.leb_spec reg 12), (Z.leb_spec 13 reg), (Z.leb_spec reg 14);
    try lia; cbn [andb].
  repeat match goal with
         | |- context [Z.land (cpsr (ctx s)) PSR_MODE_MASK =? ?m] =>
             destruct (Z.land (cpsr (ctx s)) PSR_MODE_MASK =? m);
             cbn [orb] in Hm |- *
         end; try discriminate Hm; reflexivity.
Qed.

(** Every other read of r0..r15 stores the guest's register: what [*val]
    held before does not matter. *)
Lemma access_cell_reg_reads_register (s : trap_state) (reg val val' : Z) :
  0 <= reg <= 15 ->
  reads_nothing s reg = false ->
  (access_cell_reg s reg val true).2 = (access_cell_reg s reg val' true).2.
Proof.
  unfold reads_nothing, banked_mode, mode_of. intros Hr H.
  unfold access_cell_reg.
  destruct (Z.leb_spec 0 reg), (Z.leb_spec reg 7), (Z.leb_spec 8 reg),
    (Z.leb_spec reg 12), (Z.leb_spec 13 reg), (Z.leb_spec reg 14);
    try lia; cbn [andb negb] in H |- *.
  - reflexivity.
  - unfold access_fiq_reg, access_usr_reg, access_hw_reg.
    destruct (Z.land (cpsr (ctx s)) PSR_MODE_MASK =? PSR_FIQ_MODE);
      [|reflexivity].
    destruct (Z.eqb_spec reg 8), (Z.eqb_spec reg 9), (Z.eqb_spec reg 10),
      (Z.eqb_spec reg 11), (Z.eqb_spec reg 12); try lia; reflexivity.
  - apply negb_false_iff in H.
    unfold access_banked_reg, access_usr_reg, access_hw_reg.
    destruct (Z.eqb_spec reg 13), (Z.eqb_spec reg 14); try lia;
      repeat match goal with
             | |- context [Z.land (cpsr (ctx s)) PSR_MODE_MASK =? ?m] =>
                 destruct (Z.land (cpsr (ctx s)) PSR_MODE_MASK =? m);
                 cbn [orb] in H |- *
             end; try reflexivity; discriminate H.
  - destruct (Z.eqb_spec reg 15); [reflexivity|lia].
Qed.

End GuestRegisterRead.

(** * traps.c: CP15 32-bit emulation *)

Module Cp15Spec.

(** The [{CRn, op1, CRm, op2}] tuple of an MCR/MRC syndrome. *)
Definition cp15_tuple (hsr : Z) : Z * Z * Z * Z :=
  (Traps.hsr_crn hsr, Traps.hsr_opc1 hsr, Traps.hsr_crm hsr, Traps.hsr_opc2 hsr).

Definition ACTLR : Z * Z * Z * Z := (1, 0, 0, 1).

(** The allow-list of writable virtual-memory and fault registers, by their
    architectural CP15 encodings. *)
Definition write_allow_list : list (Z * Z * Z * Z) :=
  [ (1, 0, 0, 0);     (* SCTLR *)
    (2, 0, 0, 0);     (* TTBR0 *)
    (2, 0, 0, 1);     (* TTBR1 *)
    (2, 0, 0, 2);     (* TTBCR *)
    (3, 0, 0, 0);     (* DACR *)
    (5, 0, 0, 0);     (* DFSR *)
    (5, 0, 0, 1);     (* IFSR *)
    (6, 0, 0, 0);     (* DFAR *)
    (6, 0, 0, 2);     (* IFAR *)
    (5, 0, 1, 0);     (* ADFSR *)
    (5, 0, 1, 1);     (* AIFSR *)
    (10, 0, 2, 0);    (* MAIR0 *)
    (10, 0, 2, 1);    (* MAIR1 *)
    (13, 0, 0, 1) ].  (* CONTEXTIDR *)

(** The register a write to an allow-listed tuple goes to, as the source
    names it. *)
Definition write_target (t : Z * Z * Z * Z) : Hw.reg_name :=
  let '(crn, opc1, crm, opc2) := t in
  if decide (t = (1, 0, 0, 0)) then Hw.SCTLR_EL1
  else Hw.SYSREG_32 opc1 crn crm opc2.

(** The register an alternative of the [CP15_32_PERFORM_WRITE] chain
    writes. *)
Definition chain_target (t : Z * Z * Z * Z) : Hw.reg_name :=
  let '(crn, opc1, crm, opc2) := t in Hw.SYSREG_32 opc1 crn crm opc2.

(** The guest register [Rt] of a trapped [MCR] or [MRC]. *)
Definition hsr_rt (hsr : Z) : Z := Z.land (Z.shiftr hsr 5) 0xf.

(** What the local [val] holds once the handler has read the guest
    register [Rt] of the trapped [MCR] into it, [uninitialised] being what
    it held before. *)
Definition guest_value (uninitialised : Z) (s : Traps.trap_state) : Z :=
  (Traps.access_cell_reg s (hsr_rt (Traps.hsr (Traps.ctx s)))
                         uninitialised true).2.

End Cp15Spec.

Section Cp15.

Import Traps Cp15Spec.

Lemma hsr_fields_of_masked (h : Z) :
  cp15_tuple (Z.land h HSR_MCR_MRC_FIELDS) = cp15_tuple h.
Proof.
  unfold cp15_tuple, hsr_crn, hsr_opc1, hsr_crm, hsr_opc2, HSR_MCR_MRC_FIELDS.
  repeat apply (f_equal2 pair); apply Z.bits_inj'; intros i Hi; bitblast i.
Qed.

Lemma hsr_masked_of_fields (h : Z) :
  Z.land h HSR_MCR_MRC_FIELDS =
  Z.lor (Z.lor (Z.lor (Z.shiftl (hsr_opc2 h) 17) (Z.shiftl (hsr_opc1 h) 14))
               (Z.shiftl (hsr_crn h) 10))
        (Z.shiftl (hsr_crm h) 1).
Proof.
  unfold hsr_crn, hsr_opc1, hsr_crm, hsr_opc2, HSR_MCR_MRC_FIELDS.
  apply Z.bits_inj'; intros i Hi; bitblast i.
Qed.

Lemma hsr_fields_of_encoding (crn opc1 crm opc2 : Z) :
  0 <= crn < 16 -> 0 <= opc1 < 8 -> 0 <= crm < 16 -> 0 <= opc2 < 8 ->
  cp15_tuple
    (Z.lor (Z.lor (Z.lor (Z.shiftl opc2 17) (Z.shiftl opc1 14)) (Z.shiftl crn 10))
           (Z.shiftl crm 1))
  = (crn, opc1, crm, opc2).
Proof.
  intros H1 H2 H3 H4.
  unfold cp15_tuple, hsr_crn, hsr_opc1, hsr_crm, hsr_opc2.
  repeat apply (f_equal2 pair); apply Z.bits_inj'; intros i Hi; bits_rw;
    rewrite ?(testbit_bounded 4 crn), ?(testbit_bounded 3 opc1),
      ?(testbit_bounded 4 crm), ?(testbit_bounded 3 opc2) by lia;
    bits_cases; rewrite ?bit_eq; bits_norm i; bits_close.
Qed.

(** [HSR_MATCH_MCR_MRC] holds exactly when the syndrome carries the tuple. *)
Lemma HSR_MATCH_MCR_MRC_iff (h crn opc1 crm opc2 : Z) :
  0 <= crn < 16 -> 0 <= opc1 < 8 -> 0 <= crm < 16 -> 0 <= opc2 < 8 ->
  HSR_MATCH_MCR_MRC h crn opc1 crm opc2 = true
  <-> cp15_tuple h = (crn, opc1, crm, opc2).
Proof.
  intros H1 H2 H3 H4. unfold HSR_MATCH_MCR_MRC. rewrite Z.eqb_eq. split.
  - intros E. rewrite <- hsr_fields_of_masked, E.
    apply hsr_fields_of_encoding; assumption.
  - intros E. rewrite hsr_masked_of_fields.
    unfold cp15_tuple in E. injection E as -> -> -> ->. reflexivity.
Qed.

Lemma HSR_MATCH_MCR_MRC_decide (h crn opc1 crm opc2 : Z) :
  0 <= crn < 16 -> 0 <= opc1 < 8 -> 0 <= crm < 16 -> 0 <= opc2 < 8 ->
  HSR_MATCH_MCR_MRC h crn opc1 crm opc2
  = bool_decide (cp15_tuple h = (crn, opc1, crm, opc2)).
Proof.
  intros H1 H2 H3 H4.
  pose proof (HSR_MATCH_MCR_MRC_iff h crn opc1 crm opc2 H1 H2 H3 H4) as Hiff.
  destruct (HSR_MATCH_MCR_MRC h crn opc1 crm opc2); symmetry.
  - apply bool_decide_eq_true. apply Hiff. reflexivity.
  - apply bool_decide_eq_false. intros E. apply Hiff in E. discriminate.
Qed.

Definition valid_tuple (t : Z * Z * Z * Z) : Prop :=
  let '(crn, opc1, crm, opc2) := t in
  0 <= crn < 16 /\ 0 <= opc1 < 8 /\ 0 <= crm < 16 /\ 0 <= opc2 < 8.

(** The chain of alternatives writes the register of the syndrome's tuple
    when the tuple is in the chain, and does nothing otherwise. *)
Lemma perform_write_chain_spec (val : Z) (s : trap_state)
    (chain : list (Z * Z * Z * Z)) :
  Forall valid_tuple chain ->
  perform_write_chain val s chain =
  if decide (cp15_tuple (hsr (ctx s)) ∈ chain) then
    (with_hw (Hw.write_reg (chain_target (cp15_tuple (hsr (ctx s)))) val (hw s)) s,
     true)
  else (s, false).
Proof.
  induction 1 as [|[[[crn opc1] crm] opc2] chain (H1 & H2 & H3 & H4) _ IH].
  - cbn [perform_write_chain].
    destruct (decide _) as [Hin|_]; [|reflexivity].
    apply elem_of_nil in Hin. contradiction.
  - cbn [perform_write_chain]. unfold CP15_32_PERFORM_WRITE.
    rewrite HSR_MATCH_MCR_MRC_decide by assumption.
    destruct (bool_decide_reflect
                (cp15_tuple (hsr (ctx s)) = (crn, opc1, crm, opc2))) as [E|E].
    + clear IH. rewrite E.
      destruct (decide ((crn, opc1, crm, opc2) ∈ (crn, opc1, crm, opc2) :: chain))
        as [_|Hn]; [reflexivity|].
      exfalso. apply Hn. apply list_elem_of_here.
    + rewrite IH.
      destruct (decide (cp15_tuple (hsr (ctx s)) ∈ chain)) as [Hin|Hin];
        destruct (decide (cp15_tuple (hsr (ctx s)) ∈ (crn, opc1, crm, opc2) :: chain))
        as [Hin'|Hin']; try reflexivity.
      * exfalso. apply Hin'. apply list_elem_of_further. exact Hin.
      * exfalso. apply elem_of_cons in Hin' as [?|?]; contradiction.
Qed.

Lemma cp15_32_write_chain_valid : Forall valid_tuple cp15_32_write_chain.
Proof. repeat constructor; simpl; lia. Qed.

End Cp15.

Section Cp15Write.

Import Traps Cp15Spec.

Lemma write_allow_list_chain :
  write_allow_list = (1, 0, 0, 0) :: cp15_32_write_chain.
Proof. reflexivity. Qed.

Lemma write_target_chain (t : Z * Z * Z * Z) :
  t <> (1, 0, 0, 0) -> write_target t = chain_target t.
Proof.
  intros Hne. destruct t as [[[crn opc1] crm] opc2]. unfold write_target.
  destruct (decide _); [contradiction|reflexivity].
Qed.

(** What [arch_handle_cp15_32] does with a trapped write. *)
Lemma arch_handle_cp15_32_write (u : Z) (s : trap_state) :
  Z.land (hsr (ctx s)) 1 = 0 ->
  let t := cp15_tuple (hsr (ctx s)) in
  let s1 := (access_cell_reg s (hsr_rt (hsr (ctx s))) u true).1 in
  arch_handle_cp15_32 u s =
  if decide (t = ACTLR) then
    (with_ctx (arch_skip_instruction (ctx s1)) s1, TRAP_HANDLED)
  else if decide (t ∈ write_allow_list) then
    let s2 := with_hw (Hw.write_reg (write_target t) (guest_value u s) (hw s1)) s1 in
    (with_ctx (arch_skip_instruction (ctx s2)) s2, TRAP_HANDLED)
  else (s1, TRAP_UNHANDLED).
Proof.
  intros Hw. cbv zeta. unfold arch_handle_cp15_32, guest_value, hsr_rt.
  rewrite Hw. cbn [Z.eqb negb].
  destruct (access_cell_reg_read s (Z.land (Z.shiftr (hsr (ctx s)) 5) 15) u)
    as [Hctx Hhw].
  destruct (access_cell_reg s (Z.land (Z.shiftr (hsr (ctx s)) 5) 15) u true)
    as [s1 val]. cbn [fst snd] in *.
  rewrite !HSR_MATCH_MCR_MRC_decide by lia.
  rewrite perform_write_chain_spec by apply cp15_32_write_chain_valid.
  rewrite Hctx. rewrite write_allow_list_chain.
  change ACTLR with (1, 0, 0, 1).
  destruct (decide (cp15_tuple (hsr (ctx s)) = (1, 0, 0, 1))) as [E|E].
  { rewrite bool_decide_eq_true_2 by exact E. reflexivity. }
  rewrite bool_decide_eq_false_2 by exact E.
  destruct (decide (cp15_tuple (hsr (ctx s)) = (1, 0, 0, 0))) as [E0|E0].
  { rewrite bool_decide_eq_true_2 by exact E0.
    rewrite decide_True by (rewrite E0; apply list_elem_of_here).
    rewrite E0. reflexivity. }
  rewrite bool_decide_eq_false_2 by exact E0.
  destruct (decide (cp15_tuple (hsr (ctx s)) ∈ cp15_32_write_chain)) as [Hin|Hin].
  - rewrite decide_True by (apply list_elem_of_further; exact Hin).
    rewrite write_target_chain by exact E0. reflexivity.
  - rewrite decide_False; [reflexivity|].
    intros [?|?]%elem_of_cons; contradiction.
Qed.

Lemma arch_skip_instruction_state (s : trap_state) :
  hw (with_ctx (arch_skip_instruction (ctx s)) s) = hw s.
Proof. reflexivity. Qed.

End Cp15Write.

(** A trapped [MCR] to ACTLR (CRn=1, op1=0, CRm=0, op2=1) from r0. *)
Definition actlr_write_state : Traps.trap_state :=
  Traps.mk_trap_state
    (Traps.mk_trap_context 0x8000 0x13 0x0E020400 (replicate 14 0))
    (Hw.mk_hw_state (λ _, 0) [])
    [].

(** What the local [val] of the handler held before, in the examples. *)
Definition stack_garbage : Z := 0xdeadbeef.

(** C1, as stated, fails: a write to ACTLR is not on the allow-list, yet
    [arch_handle_cp15_32] returns [TRAP_HANDLED] for it (the write itself is
    dropped and the instruction skipped). *)
Lemma cp15_32_actlr_write_is_handled :
  Z.land (Traps.hsr (Traps.ctx actlr_write_state)) 1 = 0
  /\ Cp15Spec.cp15_tuple (Traps.hsr (Traps.ctx actlr_write_state)) = (1, 0, 0, 1)
  /\ ((1, 0, 0, 1) ∉ Cp15Spec.write_allow_list)
  /\ (Traps.arch_handle_cp15_32 stack_garbage actlr_write_state).2
     = Traps.TRAP_HANDLED
  /\ ((Traps.arch_handle_cp15_32 stack_garbage actlr_write_state).2)
     <> Traps.TRAP_UNHANDLED
  /\ Hw.reg_writes
       (Traps.hw (Traps.arch_handle_cp15_32 stack_garbage actlr_write_state).1)
     = []
  /\ Traps.pc
       (Traps.ctx (Traps.arch_handle_cp15_32 stack_garbage actlr_write_state).1)
     = 0x8004.
Proof.
  split; [reflexivity|]. split; [reflexivity|]. split.
  - intros H. unfold Cp15Spec.write_allow_list in H.
    repeat (apply elem_of_cons in H as [H|H]; [discriminate H|]).
    apply elem_of_nil in H. exact H.
  - split; [reflexivity|]. split; [discriminate|].
    split; vm_compute; reflexivity.
Qed.

(** C1 (amended).  For every trapped CP15 32-bit write, whatever the
    handler's local [val] held before: a tuple that is neither on the
    allow-list nor ACTLR returns [TRAP_UNHANDLED], no register is written
    and the trap context is as it was; a write to ACTLR returns
    [TRAP_HANDLED], no register is written either, and the instruction is
    skipped; a tuple on the allow-list returns [TRAP_HANDLED] after exactly
    one register write, to that register, of what [val] holds after the
    read of the guest register Rt, and the instruction is skipped.  So
    every write accepted as [TRAP_HANDLED] is to a register on the list or
    to ACTLR, and only the former reach a register.  The value written is
    the guest's register, independent of what [val] held before, unless Rt
    is r13 or r14 and the PSR mode is none of the seven [access_cell_reg]
    knows: then the read stores nothing and the value written is what
    [val] held before. *)
Theorem cp15_32_write_allow_list_closed (uninitialised : Z)
    (s : Traps.trap_state) :
  Z.land (Traps.hsr (Traps.ctx s)) 1 = 0 ->
  let t := Cp15Spec.cp15_tuple (Traps.hsr (Traps.ctx s)) in
  let rt := Cp15Spec.hsr_rt (Traps.hsr (Traps.ctx s)) in
  let s' := (Traps.arch_handle_cp15_32 uninitialised s).1 in
  let r := (Traps.arch_handle_cp15_32 uninitialised s).2 in
  (t ∉ Cp15Spec.write_allow_list -> t <> Cp15Spec.ACTLR ->
     r = Traps.TRAP_UNHANDLED
     /\ Hw.reg_writes (Traps.hw s') = Hw.reg_writes (Traps.hw s)
     /\ Hw.regfile (Traps.hw s') = Hw.regfile (Traps.hw s)
     /\ Traps.ctx s' = Traps.ctx s)
  /\ (t = Cp15Spec.ACTLR ->
     r = Traps.TRAP_HANDLED
     /\ Hw.reg_writes (Traps.hw s') = Hw.reg_writes (Traps.hw s)
     /\ Hw.regfile (Traps.hw s') = Hw.regfile (Traps.hw s)
     /\ Traps.ctx s' = Traps.arch_skip_instruction (Traps.ctx s))
  /\ (t ∈ Cp15Spec.write_allow_list ->
     r = Traps.TRAP_HANDLED
     /\ Hw.reg_writes (Traps.hw s')
        = Hw.reg_writes (Traps.hw s)
          ++ [(Cp15Spec.write_target t, Cp15Spec.guest_value uninitialised s)]
     /\ Traps.ctx s' = Traps.arch_skip_instruction (Traps.ctx s))
  /\ (r = Traps.TRAP_HANDLED ->
     t ∈ Cp15Spec.write_allow_list \/ t = Cp15Spec.ACTLR)
  /\ (RegSpec.reads_nothing s rt = false ->
      forall before,
        Cp15Spec.guest_value uninitialised s = Cp15Spec.guest_value before s)
  /\ (RegSpec.reads_nothing s rt = true ->
      Cp15Spec.guest_value uninitialised s = uninitialised).
Proof.
  intros Hw. cbv zeta.
  rewrite (arch_handle_cp15_32_write uninitialised s Hw). cbv zeta.
  destruct (access_cell_reg_read s
              (Cp15Spec.hsr_rt (Traps.hsr (Traps.ctx s))) uninitialised)
    as [Hctx Hhw].
  assert (Cp15Spec.ACTLR ∉ Cp15Spec.write_allow_list) as Hactlr.
  { intros H. unfold Cp15Spec.write_allow_list in H.
    repeat (apply elem_of_cons in H as [H|H]; [discriminate H|]).
    apply elem_of_nil in H. exact H. }
  assert ((RegSpec.reads_nothing s (Cp15Spec.hsr_rt (Traps.hsr (Traps.ctx s)))
           = false ->
           forall before,
             Cp15Spec.guest_value uninitialised s
             = Cp15Spec.guest_value before s)
          /\ (RegSpec.reads_nothing s (Cp15Spec.hsr_rt (Traps.hsr (Traps.ctx s)))
              = true ->
              Cp15Spec.guest_value uninitialised s = uninitialised))
    as [Hreg Hnone].
  { split.
    - intros Hn before. unfold Cp15Spec.guest_value.
      apply access_cell_reg_reads_register; [|exact Hn].
      pose proof (cond_field_range (Z.shiftr (Traps.hsr (Traps.ctx s)) 5)).
      unfold Cp15Spec.hsr_rt. lia.
    - intros Hn. unfold Cp15Spec.guest_value.
      rewrite access_cell_reg_reads_nothing by exact Hn. reflexivity. }
  destruct (decide (Cp15Spec.cp15_tuple (Traps.hsr (Traps.ctx s)) = Cp15Spec.ACTLR))
    as [E|E].
  - cbn [fst snd]. rewrite arch_skip_instruction_state, Hhw.
    cbn [Traps.ctx Traps.with_ctx]. rewrite Hctx.
    split; [|split; [|split; [|split; [|split]]]]; [| | | |exact Hreg|exact Hnone].
    + intros _ Hne. contradiction.
    + intros _. repeat split.
    + intros Hin. rewrite E in Hin. contradiction.
    + intros _. right. exact E.
  - destruct (decide (Cp15Spec.cp15_tuple (Traps.hsr (Traps.ctx s))
                      ∈ Cp15Spec.write_allow_list)) as [Hin|Hin].
    + cbn [fst snd]. rewrite arch_skip_instruction_state.
      cbn [Traps.hw Traps.with_hw Hw.reg_writes Hw.write_reg
           Traps.ctx Traps.with_ctx]. rewrite Hhw, Hctx.
      split; [|split; [|split; [|split; [|split]]]]; [| | | |exact Hreg|exact Hnone].
      * intros Hn. contradiction.
      * intros Ha. contradiction.
      * intros _. repeat split.
      * intros _. left. exact Hin.
    + cbn [fst snd]. rewrite Hhw, Hctx.
      split; [|split; [|split; [|split; [|split]]]]; [| | | |exact Hreg|exact Hnone].
      * intros _ _. repeat split.
      * intros Ha. contradiction.
      * intros Hi. contradiction.
      * intros Hr. discriminate Hr.
Qed.

(** A trapped [MCR] to TTBR0 (CRn=2) from r3, which holds 0x4000. *)
Definition ttbr0_write_state : Traps.trap_state :=
  Traps.mk_trap_state
    (Traps.mk_trap_context 0x8000 0x13 0x0E000860
       [0; 0; 0; 0x4000; 0; 0; 0; 0; 0; 0; 0; 0; 0; 0])
    (Hw.mk_hw_state (λ _, 0) [])
    [].

(** The same [MCR] from r13, trapped with the PSR in HYP mode (0x1a), which
    is none of the seven modes. *)
Definition ttbr0_write_from_sp_state : Traps.trap_state :=
  Traps.mk_trap_state
    (Traps.mk_trap_context 0x8000 0x1a 0x0E0009A0
       [0; 0; 0; 0x4000; 0; 0; 0; 0; 0; 0; 0; 0; 0; 0])
    (Hw.mk_hw_state (λ _, 0) [])
    [].

Lemma cp15_32_write_allow_list_closed_witness :
  (Hw.reg_writes
     (Traps.hw (Traps.arch_handle_cp15_32 stack_garbage ttbr0_write_state).1)
   = [(Hw.SYSREG_32 0 2 0 0, 0x4000)]
   /\ (Traps.arch_handle_cp15_32 stack_garbage ttbr0_write_state).2
      = Traps.TRAP_HANDLED
   /\ Traps.pc
        (Traps.ctx (Traps.arch_handle_cp15_32 stack_garbage ttbr0_write_state).1)
      = 0x8004)
  /\ Hw.reg_writes
       (Traps.hw
          (Traps.arch_handle_cp15_32 stack_garbage ttbr0_write_from_sp_state).1)
     = [(Hw.SYSREG_32 0 2 0 0, stack_garbage)].
Proof.
  split.
  - pose proof (cp15_32_write_allow_list_closed stack_garbage ttbr0_write_state
                  eq_refl) as (_ & _ & H & _).
    cbv zeta in H.
    destruct H as (Hr & Hw & Hc).
    + apply list_elem_of_further, list_elem_of_here.
    + split; [|split; [exact Hr|]].
      * rewrite Hw. vm_compute. reflexivity.
      * rewrite Hc. vm_compute. reflexivity.
  - pose proof (cp15_32_write_allow_list_closed stack_garbage
                  ttbr0_write_from_sp_state eq_refl)
      as (_ & _ & H & _ & _ & Hnone).
    cbv zeta in H, Hnone.
    destruct H as (_ & Hw & _).
    + apply list_elem_of_further, list_elem_of_here.
    + rewrite Hw, Hnone by (vm_compute; reflexivity). reflexivity.
Defined.

(** * psci.c: CPU_ON *)

Module PsciSpec.

Import Control.

(** The system and the rest of the schedule once the executing CPU has
    acquired a lock: the critical sections of the other CPUs that came
    first have run. *)
Definition at_lock (P : platform) (sc : schedule) (s : system)
  : system * schedule :=
  match sc with
  | [] => (s, [])
  | acts :: rest => (env_run P acts s, rest)
  end.

(** What [arm_cpu_kick] does: one SGI of class [SGI_EVENT] to the CPU. *)
Definition kick (P : platform) (cpu : Z) : event :=
  EvSendSgi (mk_sgi (Z.shiftl 1 cpu) 0 (SGI_EVENT P)).

End PsciSpec.

Section PsciCpuOn.

Import Control Psci PsciSpec.

Variable P : platform.
Variable arm_cpu_by_mpidr : system -> Z -> Z -> Z.

Lemma log_events (e : event) (s : system) :
  events (log e s) = events s ++ [e].
Proof. reflexivity. Qed.

Lemma percpu_log (e : event) (s : system) : percpu (log e s) = percpu s.
Proof. reflexivity. Qed.

Lemma yield_at_lock (sc : schedule) (s : system) :
  yield P sc s = Some (tt, (at_lock P sc s).1, (at_lock P sc s).2).
Proof. destruct sc; reflexivity. Qed.

Lemma stores_same (cpu : Z) (ws : list store) (s : system) :
  percpu (stores cpu ws s) cpu = foldl (λ d w, apply_store w d) (percpu s cpu) ws.
Proof. unfold stores. cbn [percpu with_percpu]. apply fn_lookup_insert. Qed.

Lemma stores_other (cpu c : Z) (ws : list store) (s : system) :
  c <> cpu -> percpu (stores cpu ws s) c = percpu s c.
Proof.
  intros Hne. unfold stores. cbn [percpu with_percpu].
  apply fn_lookup_insert_ne. congruence.
Qed.

Lemma psci_emulate_cpu_on_denied (cpu_data : Z) (ctx : Traps.trap_context)
    (sc : schedule) (s : system) :
  arm_cpu_by_mpidr s (cell (percpu s cpu_data)) (ctx_reg ctx 1) = UINT_MINUS_1 ->
  psci_emulate_cpu_on P arm_cpu_by_mpidr cpu_data ctx sc s
  = Some (PSCI_DENIED, s, sc).
Proof.
  intros H. unfold psci_emulate_cpu_on, read, get, mbind, M_bind, mret, M_ret.
  rewrite H, Z.eqb_refl. reflexivity.
Qed.

Lemma psci_emulate_cpu_on_locked (cpu_data : Z) (ctx : Traps.trap_context)
    (sc : schedule) (s : system) :
  let cpu := arm_cpu_by_mpidr s (cell (percpu s cpu_data)) (ctx_reg ctx 1) in
  let s1 := (at_lock P sc s).1 in
  let sc1 := (at_lock P sc s).2 in
  cpu <> UINT_MINUS_1 ->
  psci_emulate_cpu_on P arm_cpu_by_mpidr cpu_data ctx sc s =
  if wait_for_poweron (percpu s1 cpu) then
    Some (PSCI_SUCCESS,
          log (kick P cpu)
            (log (EvSpinUnlock cpu)
               (log (EvStore cpu (W_reset true))
                  (stores cpu [W_reset true]
                     (log (EvStore cpu (W_cpu_on_context (ctx_reg ctx 3)))
                        (stores cpu [W_cpu_on_context (ctx_reg ctx 3)]
                           (log (EvStore cpu (W_cpu_on_entry (ctx_reg ctx 2)))
                              (stores cpu [W_cpu_on_entry (ctx_reg ctx 2)]
                                 (log (EvSpinLock cpu) s1)))))))),
          sc1)
  else
    Some (PSCI_ALREADY_ON, log (EvSpinUnlock cpu) (log (EvSpinLock cpu) s1), sc1).
Proof.
  cbv zeta. intros Hne.
  unfold psci_emulate_cpu_on, spin_lock, spin_unlock, arm_cpu_kick, kick,
    write, read, emit, modify, get, mbind, M_bind, mret, M_ret.
  apply Z.eqb_neq in Hne. rewrite Hne.
  rewrite yield_at_lock.
  cbn [percpu log with_events].
  destruct (wait_for_poweron (percpu (at_lock P sc s).1 _)); reflexivity.
Qed.

End PsciCpuOn.

(** C3.  For every calling CPU and every trap context of a CPU_ON call:
    if the MPIDR argument translates to no physical CPU of the calling
    cell, [psci_emulate_cpu_on] returns [PSCI_DENIED] and the system is
    untouched; otherwise the target's lock is taken and, with the target's
    record as it is then, if [wait_for_poweron] is false the result is
    [PSCI_ALREADY_ON] and no per-CPU record changes (the lock is taken and
    released, nothing else); else the three stores [cpu_on_entry = entry],
    [cpu_on_context = context], [reset = true] to the target's record happen
    between taking and releasing its lock, the [SGI_EVENT] kick of the
    target comes after the release, and the result is [PSCI_SUCCESS]. *)
Theorem psci_emulate_cpu_on_contract
    (P : Control.platform) (arm_cpu_by_mpidr : Control.system -> Z -> Z -> Z)
    (cpu_data : Z) (ctx : Traps.trap_context)
    (sc : Control.schedule) (s : Control.system) :
  let cpu := arm_cpu_by_mpidr s (Control.cell (Control.percpu s cpu_data))
                              (Psci.ctx_reg ctx 1) in
  let run := Psci.psci_emulate_cpu_on P arm_cpu_by_mpidr cpu_data ctx sc s in
  let s1 := (PsciSpec.at_lock P sc s).1 in
  let sc1 := (PsciSpec.at_lock P sc s).2 in
  (cpu = UINT_MINUS_1 -> run = Some (Psci.PSCI_DENIED, s, sc))
  /\ (cpu <> UINT_MINUS_1 ->
      Control.wait_for_poweron (Control.percpu s1 cpu) = false ->
      exists s2,
        run = Some (Psci.PSCI_ALREADY_ON, s2, sc1)
        /\ Control.percpu s2 = Control.percpu s1
        /\ Control.events s2
           = Control.events s1
             ++ [Control.EvSpinLock cpu; Control.EvSpinUnlock cpu])
  /\ (cpu <> UINT_MINUS_1 ->
      Control.wait_for_poweron (Control.percpu s1 cpu) = true ->
      exists s2,
        run = Some (Psci.PSCI_SUCCESS, s2, sc1)
        /\ Control.cpu_on_entry (Control.percpu s2 cpu) = Psci.ctx_reg ctx 2
        /\ Control.cpu_on_context (Control.percpu s2 cpu) = Psci.ctx_reg ctx 3
        /\ Control.reset (Control.percpu s2 cpu) = true
        /\ Control.percpu s2 cpu
           = Control.apply_store (Control.W_reset true)
               (Control.apply_store (Control.W_cpu_on_context (Psci.ctx_reg ctx 3))
                  (Control.apply_store (Control.W_cpu_on_entry (Psci.ctx_reg ctx 2))
                     (Control.percpu s1 cpu)))
        /\ (forall c, c <> cpu -> Control.percpu s2 c = Control.percpu s1 c)
        /\ Control.events s2
           = Control.events s1
             ++ [Control.EvSpinLock cpu;
                 Control.EvStore cpu (Control.W_cpu_on_entry (Psci.ctx_reg ctx 2));
                 Control.EvStore cpu (Control.W_cpu_on_context (Psci.ctx_reg ctx 3));
                 Control.EvStore cpu (Control.W_reset true);
                 Control.EvSpinUnlock cpu;
                 PsciSpec.kick P cpu]).
Proof.
  cbv zeta. split; [|split].
  - apply psci_emulate_cpu_on_denied.
  - intros Hne Hw.
    rewrite (psci_emulate_cpu_on_locked P arm_cpu_by_mpidr cpu_data ctx sc s Hne).
    cbv zeta. rewrite Hw. eexists. split; [reflexivity|]. split; [reflexivity|].
    rewrite !log_events, <- !app_assoc. reflexivity.
  - intros Hne Hw.
    rewrite (psci_emulate_cpu_on_locked P arm_cpu_by_mpidr cpu_data ctx sc s Hne).
    cbv zeta. rewrite Hw. clear Hne Hw.
    set (cpu0 := arm_cpu_by_mpidr s (Control.cell (Control.percpu s cpu_data))
                                  (Psci.ctx_reg ctx 1)).
    eexists. split; [reflexivity|].
    assert (forall e t, Control.percpu (Control.log e t) = Control.percpu t) as Hlog
      by reflexivity.
    assert (Control.percpu
              (Control.stores cpu0 [Control.W_reset true]
                 (Control.log (Control.EvStore cpu0 (Control.W_cpu_on_context (Psci.ctx_reg ctx 3)))
                    (Control.stores cpu0 [Control.W_cpu_on_context (Psci.ctx_reg ctx 3)]
                       (Control.log (Control.EvStore cpu0 (Control.W_cpu_on_entry (Psci.ctx_reg ctx 2)))
                          (Control.stores cpu0 [Control.W_cpu_on_entry (Psci.ctx_reg ctx 2)]
                             (Control.log (Control.EvSpinLock cpu0) (PsciSpec.at_lock P sc s).1))))))
              cpu0
            = Control.apply_store (Control.W_reset true)
                (Control.apply_store (Control.W_cpu_on_context (Psci.ctx_reg ctx 3))
                   (Control.apply_store (Control.W_cpu_on_entry (Psci.ctx_reg ctx 2))
                      (Control.percpu (PsciSpec.at_lock P sc s).1 cpu0)))) as Hrec.
    { repeat first [rewrite stores_same | rewrite Hlog]. reflexivity. }
    rewrite !Hlog, !log_events.
    repeat split.
    + rewrite Hrec. destruct (Control.percpu (PsciSpec.at_lock P sc s).1 cpu0); reflexivity.
    + rewrite Hrec. destruct (Control.percpu (PsciSpec.at_lock P sc s).1 cpu0); reflexivity.
    + rewrite Hrec. destruct (Control.percpu (PsciSpec.at_lock P sc s).1 cpu0); reflexivity.
    + exact Hrec.
    + intros c Hc.
      repeat first [rewrite stores_other by exact Hc | rewrite Hlog]. reflexivity.
    + assert (forall c ws t, Control.events (Control.stores c ws t) = Control.events t)
        as Hst by reflexivity.
      rewrite !Hst, !log_events, !Hst, !log_events, !Hst, !log_events,
        <- !app_assoc. reflexivity.
Qed.

(** * psci.c: the PSCI exit counter *)

Section StatsFrame.

Import Control Psci.

Variable P : platform.

(** The exit counters of every CPU are as before, and the executing CPU is
    the same. *)
Definition stats_frame (s s' : system) : Prop :=
  (forall c k, stats (percpu s' c) k = stats (percpu s c) k)
  /\ this_cpu_id s' = this_cpu_id s.

(** A computation that always returns and leaves the counters alone. *)
Definition steady {A : Type} (m : M A) : Prop :=
  forall sc s, exists r s' sc', m sc s = Some (r, s', sc') /\ stats_frame s s'.

Lemma stats_frame_refl (s : system) : stats_frame s s.
Proof. split; reflexivity. Qed.

Lemma stats_frame_trans (s1 s2 s3 : system) :
  stats_frame s1 s2 -> stats_frame s2 s3 -> stats_frame s1 s3.
Proof.
  intros [H1 H1'] [H2 H2']. split.
  - intros c k. rewrite H2, H1. reflexivity.
  - congruence.
Qed.

Definition counter_free (w : store) : Prop :=
  match w with W_stats_add _ _ => False | _ => True end.

Lemma apply_store_stats (w : store) (d : per_cpu) :
  counter_free w -> stats (apply_store w d) = stats d.
Proof. destruct w, d; simpl; intros H; try reflexivity; contradiction. Qed.

Lemma foldl_apply_store_stats (ws : list store) (d : per_cpu) :
  Forall counter_free ws ->
  stats (foldl (λ d w, apply_store w d) d ws) = stats d.
Proof.
  intros H. revert d. induction H as [|w ws Hw _ IH]; intros d; cbn [foldl].
  - reflexivity.
  - rewrite IH. apply apply_store_stats, Hw.
Qed.

Lemma stores_stats_frame (cpu : Z) (ws : list store) (s : system) :
  Forall counter_free ws -> stats_frame s (stores cpu ws s).
Proof.
  intros H. split; [|reflexivity]. intros c k.
  destruct (decide (c = cpu)) as [->|Hne].
  - rewrite stores_same, foldl_apply_store_stats by exact H. reflexivity.
  - rewrite stores_other by exact Hne. reflexivity.
Qed.

Lemma env_stores_counter_free (a : env_action) (s : system) :
  Forall counter_free (env_stores P a s).2.
Proof.
  destruct a; cbn [env_stores snd];
    unfold cpu_on_section, events_suspended_section, events_resumed_section,
      events_flush_section, enter_cpu_off;
    repeat match goal with
           | |- context [if ?b then _ else _] => destruct b
           end; cbn [fst snd]; repeat constructor.
Qed.

Lemma env_step_stats_frame (a : env_action) (s : system) :
  stats_frame s (env_step P s a).
Proof.
  unfold env_step. pose proof (env_stores_counter_free a s) as H.
  destruct (env_stores P a s) as [cpu ws]. apply stores_stats_frame, H.
Qed.

Lemma env_run_stats_frame (acts : list env_action) (s : system) :
  stats_frame s (env_run P acts s).
Proof.
  unfold env_run. revert s. induction acts as [|a acts IH]; intros s; cbn [foldl].
  - apply stats_frame_refl.
  - eapply stats_frame_trans; [apply env_step_stats_frame|apply IH].
Qed.

Lemma steady_ret {A : Type} (x : A) : steady (mret x).
Proof. intros sc s. exists x, s, sc. split; [reflexivity|apply stats_frame_refl]. Qed.

Lemma steady_bind {A B : Type} (m : M A) (f : A -> M B) :
  steady m -> (forall x, steady (f x)) -> steady (m ≫= f).
Proof.
  intros Hm Hf sc s. destruct (Hm sc s) as (x & s1 & sc1 & E1 & F1).
  destruct (Hf x sc1 s1) as (y & s2 & sc2 & E2 & F2).
  exists y, s2, sc2. split.
  - unfold mbind, M_bind. rewrite E1. exact E2.
  - eapply stats_frame_trans; eassumption.
Qed.

Lemma steady_get : steady get.
Proof. intros sc s. exists s, s, sc. split; [reflexivity|apply stats_frame_refl]. Qed.

Lemma steady_modify (f : system -> system) :
  (forall s, stats_frame s (f s)) -> steady (modify f).
Proof. intros H sc s. exists tt, (f s), sc. split; [reflexivity|apply H]. Qed.

Lemma steady_emit (e : event) : steady (emit e).
Proof. apply steady_modify. intros s. split; reflexivity. Qed.

Lemma steady_read {A : Type} (cpu : Z) (member : per_cpu -> A) :
  steady (read cpu member).
Proof.
  unfold read. apply steady_bind; [apply steady_get|]. intros s. apply steady_ret.
Qed.

Lemma steady_write (cpu : Z) (w : store) : counter_free w -> steady (write cpu w).
Proof.
  intros H. apply steady_modify. intros s.
  eapply stats_frame_trans; [apply (stores_stats_frame cpu [w])|split; reflexivity].
  constructor; [exact H|constructor].
Qed.

Lemma steady_write_all (cpu : Z) (ws : list store) :
  Forall counter_free ws -> steady (write_all cpu ws).
Proof.
  induction 1 as [|w ws Hw _ IH]; cbn [write_all].
  - apply steady_ret.
  - apply steady_bind; [apply steady_write, Hw|]. intros _. exact IH.
Qed.

Lemma steady_arm_write_reg (r : Hw.reg_name) (v : Z) : steady (arm_write_reg r v).
Proof. apply steady_modify. intros s. split; reflexivity. Qed.

Lemma steady_arm_read_reg (r : Hw.reg_name) : steady (arm_read_reg r).
Proof.
  unfold arm_read_reg. apply steady_bind; [apply steady_get|].
  intros s. apply steady_ret.
Qed.

Lemma steady_yield : steady (yield P).
Proof.
  intros [|acts rest] s.
  - exists tt, s, []. split; [reflexivity|apply stats_frame_refl].
  - exists tt, (env_run P acts s), rest. split; [reflexivity|].
    apply env_run_stats_frame.
Qed.

Lemma steady_spin_lock (cpu : Z) : steady (spin_lock P cpu).
Proof.
  unfold spin_lock. apply steady_bind; [apply steady_yield|].
  intros _. apply steady_emit.
Qed.

Lemma steady_spin_unlock (cpu : Z) : steady (spin_unlock cpu).
Proof. apply steady_emit. Qed.

Ltac steady_step :=
  lazymatch goal with
  | |- steady (let _ := _ in _) => cbv zeta
  | |- steady (_ ≫= _) => apply steady_bind; [|intros ?]
  | |- steady (mret _) => apply steady_ret
  | |- steady get => apply steady_get
  | |- steady (emit _) => apply steady_emit
  | |- steady (read _ _) => apply steady_read
  | |- steady (arm_write_reg _ _) => apply steady_arm_write_reg
  | |- steady (arm_read_reg _) => apply steady_arm_read_reg
  | |- steady (spin_lock _ _) => apply steady_spin_lock
  | |- steady (spin_unlock _) => apply steady_spin_unlock
  | |- steady (write _ _) => apply steady_write; exact I
  | |- steady (write_all _ _) => apply steady_write_all; repeat constructor
  | |- steady (if ?b then _ else _) => destruct b
  | |- steady (let '(_, _) := ?p in _) => destruct p
  end.

Lemma steady_cpu_reset : steady (cpu_reset P).
Proof. unfold cpu_reset. repeat steady_step. Qed.

Lemma steady_arm_cpu_park : steady (arm_cpu_park P).
Proof.
  unfold arm_cpu_park.
  repeat first [apply steady_cpu_reset | steady_step].
Qed.

Lemma steady_arm_cpu_kick (cpu : Z) : steady (arm_cpu_kick P cpu).
Proof. apply steady_emit. Qed.

Variable I : psci_ids.
Variable arm_cpu_by_mpidr : system -> Z -> Z -> Z.

Lemma steady_psci_emulate_cpu_on (cpu_data : Z) (ctx : Traps.trap_context) :
  steady (psci_emulate_cpu_on P arm_cpu_by_mpidr cpu_data ctx).
Proof.
  unfold psci_emulate_cpu_on.
  repeat first [apply steady_arm_cpu_kick | steady_step].
Qed.

Lemma steady_psci_emulate_affinity_info (cpu_data : Z) (ctx : Traps.trap_context) :
  steady (psci_emulate_affinity_info arm_cpu_by_mpidr cpu_data ctx).
Proof.
  unfold psci_emulate_affinity_info.
  repeat steady_step.
Qed.

(** The part of [psci_dispatch] after the counter has been incremented. *)
Lemma steady_psci_dispatch_switch (cpu_data function_id : Z)
    (ctx : Traps.trap_context) :
  steady
    (if function_id =? PSCI_VERSION I then mret 2
     else if (function_id =? PSCI_CPU_OFF)
             || (function_id =? PSCI_CPU_OFF_V0_1_UBOOT I) then
       arm_cpu_park P;; mret 0
     else if (function_id =? PSCI_CPU_ON_32)
             || (function_id =? PSCI_CPU_ON_V0_1_UBOOT I) then
       psci_emulate_cpu_on P arm_cpu_by_mpidr cpu_data ctx
     else if function_id =? PSCI_AFFINITY_INFO_32 then
       psci_emulate_affinity_info arm_cpu_by_mpidr cpu_data ctx
     else mret PSCI_NOT_SUPPORTED).
Proof.
  repeat first
    [ apply steady_arm_cpu_park | apply steady_psci_emulate_cpu_on
    | apply steady_psci_emulate_affinity_info | steady_step ].
Qed.

End StatsFrame.

(** C10.  Every invocation of [psci_dispatch] returns, and increments the
    [VMEXITS_PSCI] counter (a 32-bit word) of the calling CPU by exactly
    one, whatever the function id; no other counter of any CPU changes.  A
    function id that is none of the emulated ones is answered with
    [PSCI_NOT_SUPPORTED], and is counted all the same. *)
Theorem psci_dispatch_counts_every_call
    (P : Control.platform) (I : Psci.psci_ids)
    (arm_cpu_by_mpidr : Control.system -> Z -> Z -> Z)
    (ctx : Traps.trap_context) (sc : Control.schedule) (s : Control.system) :
  let this := Control.this_cpu_id s in
  let counter := Control.JAILHOUSE_CPU_STAT_VMEXITS_PSCI in
  let function_id := u32 (Psci.ctx_reg ctx 0) in
  exists r s' sc',
    Psci.psci_dispatch P I arm_cpu_by_mpidr ctx sc s = Some (r, s', sc')
    /\ Control.stats (Control.percpu s' this) counter
       = u32 (Control.stats (Control.percpu s this) counter + 1)
    /\ (0 <= Control.stats (Control.percpu s this) counter < 2 ^ 32 - 1 ->
        Control.stats (Control.percpu s' this) counter
        = Control.stats (Control.percpu s this) counter + 1)
    /\ (forall k, k <> counter ->
        Control.stats (Control.percpu s' this) k
        = Control.stats (Control.percpu s this) k)
    /\ (forall c k, c <> this ->
        Control.stats (Control.percpu s' c) k = Control.stats (Control.percpu s c) k)
    /\ (function_id <> Psci.PSCI_VERSION I ->
        function_id <> Psci.PSCI_CPU_OFF ->
        function_id <> Psci.PSCI_CPU_OFF_V0_1_UBOOT I ->
        function_id <> Psci.PSCI_CPU_ON_32 ->
        function_id <> Psci.PSCI_CPU_ON_V0_1_UBOOT I ->
        function_id <> Psci.PSCI_AFFINITY_INFO_32 ->
        r = Psci.PSCI_NOT_SUPPORTED).
Proof.
  cbv zeta.
  set (s0 := Control.log
               (Control.EvStore (Control.this_cpu_id s)
                  (Control.W_stats_add Control.JAILHOUSE_CPU_STAT_VMEXITS_PSCI 1))
               (Control.stores (Control.this_cpu_id s)
                  [Control.W_stats_add Control.JAILHOUSE_CPU_STAT_VMEXITS_PSCI 1] s)).
  destruct (steady_psci_dispatch_switch P I arm_cpu_by_mpidr
              (Control.this_cpu_id s) (u32 (Psci.ctx_reg ctx 0)) ctx sc s0)
    as (r & s' & sc' & E & [Hst _]).
  exists r, s', sc'.
  assert (Psci.psci_dispatch P I arm_cpu_by_mpidr ctx sc s = Some (r, s', sc')) as Hrun.
  { rewrite <- E. reflexivity. }
  assert (Control.percpu s0 (Control.this_cpu_id s)
          = Control.apply_store
              (Control.W_stats_add Control.JAILHOUSE_CPU_STAT_VMEXITS_PSCI 1)
              (Control.percpu s (Control.this_cpu_id s))) as Hthis.
  { unfold s0. change (Control.percpu (Control.log ?e ?t)) with (Control.percpu t).
    rewrite stores_same. reflexivity. }
  assert (Control.stats (Control.percpu s' (Control.this_cpu_id s))
            Control.JAILHOUSE_CPU_STAT_VMEXITS_PSCI
          = u32 (Control.stats (Control.percpu s (Control.this_cpu_id s))
                   Control.JAILHOUSE_CPU_STAT_VMEXITS_PSCI + 1)) as Hinc.
  { rewrite Hst, Hthis. destruct (Control.percpu s (Control.this_cpu_id s)).
    cbn [Control.apply_store Control.stats]. apply fn_lookup_insert. }
  split; [exact Hrun|]. split; [exact Hinc|]. split; [|split; [|split]].
  - intros Hrange. rewrite Hinc. unfold u32. apply Z.mod_small. lia.
  - intros k Hk. rewrite Hst, Hthis.
    destruct (Control.percpu s (Control.this_cpu_id s)).
    cbn [Control.apply_store Control.stats]. apply fn_lookup_insert_ne. congruence.
  - intros c k Hc. rewrite Hst. unfold s0.
    change (Control.percpu (Control.log ?e ?t)) with (Control.percpu t).
    rewrite stores_other by exact Hc. reflexivity.
  - intros H1 H2 H3 H4 H5 H6.
    apply Z.eqb_neq in H1, H2, H3, H4, H5, H6.
    rewrite H1, H2, H3, H4, H5, H6 in E. cbn [orb] in E.
    injection E as <- _ _. reflexivity.
Qed.

(** * control.c: cell creation *)

Section CellCreate.

Import Control.

Variable P : platform.

Lemma StronglySorted_seqZ (m n : Z) : StronglySorted Z.lt (seqZ m n).
Proof.
  destruct (Z_lt_le_dec 0 n) as [Hn|Hn].
  2:{ rewrite seqZ_nil by lia. constructor. }
  remember (Z.to_nat n) as k eqn:Hk. revert m n Hn Hk.
  induction k as [|k IH]; intros m n Hn Hk; [lia|].
  rewrite seqZ_cons by lia. constructor.
  - destruct (Z_lt_le_dec 0 (Z.pred n)) as [Hn'|Hn'].
    + apply IH; lia.
    + rewrite seqZ_nil by lia. constructor.
  - apply Forall_forall. intros x Hx. apply elem_of_seqZ in Hx. lia.
Qed.

Lemma StronglySorted_filter {A : Type} (R : A -> A -> Prop) (Q : A -> Prop)
    `{forall x, Decision (Q x)} (l : list A) :
  StronglySorted R l -> StronglySorted R (filter Q l).
Proof.
  induction 1 as [|x l Hl IH Hx]; [constructor|].
  rewrite filter_cons. destruct (decide (Q x)); [|exact IH].
  constructor; [exact IH|].
  apply Forall_forall. intros y Hy. apply list_elem_of_filter in Hy as [_ Hy].
  rewrite Forall_forall in Hx. apply Hx, Hy.
Qed.

(** The walk visits the CPUs of the set in ascending order, each once, and
    only numbers up to [max_cpu_id]. *)
Lemma for_each_cpu_sorted (set : cpu_set) : StronglySorted Z.lt (for_each_cpu set).
Proof. apply StronglySorted_filter, StronglySorted_seqZ. Qed.

Lemma for_each_cpu_NoDup (set : cpu_set) : NoDup (for_each_cpu set).
Proof. apply NoDup_filter, NoDup_seqZ. Qed.

Lemma for_each_cpu_elem (set : cpu_set) (cpu : Z) :
  cpu ∈ for_each_cpu set
  <-> 0 <= cpu <= max_cpu_id set /\ Z.testbit (bitmap set) cpu = true.
Proof.
  unfold for_each_cpu. rewrite list_elem_of_filter, elem_of_seqZ.
  split; intros H; split; try apply H; lia.
Qed.

Lemma for_each_cpu_length (set : cpu_set) :
  0 <= max_cpu_id set + 1 ->
  Z.of_nat (length (for_each_cpu set)) <= max_cpu_id set + 1.
Proof.
  intros H. unfold for_each_cpu.
  pose proof (length_filter (λ cpu, Z.testbit (bitmap set) cpu = true)
                (seqZ 0 (max_cpu_id set + 1))) as Hl.
  rewrite length_seqZ in Hl. lia.
Qed.

(** The loop of [arch_cell_create]: CPU number [i] of the list gets
    [virt_id + i], the records of the other CPUs stay as they are. *)
Lemma cell_create_loop_spec (cpus : list Z) :
  NoDup cpus ->
  forall (v : Z) (sc : schedule) (s : system),
  0 <= v -> v + Z.of_nat (length cpus) < 2 ^ 32 ->
  exists s' evs,
    cell_create_loop P cpus v sc s = Some (v + Z.of_nat (length cpus), s', sc)
    /\ (forall (i : nat) (c : Z), cpus !! i = Some c ->
        virt_id (percpu s' c) = v + Z.of_nat i
        /\ cpu_on_entry (percpu s' c)
           = if v + Z.of_nat i =? 0 then 0 else PSCI_INVALID_ADDRESS P)
    /\ (forall c, c ∉ cpus -> percpu s' c = percpu s c)
    /\ cells s' = cells s
    /\ events s' = events s ++ evs.
Proof.
  induction 1 as [|c rest Hc Hnd IH]; intros v sc s Hv Hlen.
  - exists s, []. cbn [cell_create_loop length]. rewrite Z.add_0_r, app_nil_r.
    split; [reflexivity|]. split; [|repeat split].
    intros i c Hi. discriminate Hi.
  - cbn [cell_create_loop length] in *.
    unfold write, modify, mbind, M_bind.
    set (s1 := log (EvStore c (W_virt_id v))
                 (stores c [W_virt_id v]
                    (log (EvStore c (W_cpu_on_entry
                                       (if v =? 0 then 0 else PSCI_INVALID_ADDRESS P)))
                       (stores c [W_cpu_on_entry
                                    (if v =? 0 then 0 else PSCI_INVALID_ADDRESS P)] s)))).
    assert (u32 (v + 1) = v + 1) as -> by (unfold u32; apply Z.mod_small; lia).
    destruct (IH (v + 1) sc s1) as (s' & evs & Hrun & Hvid & Hother & Hcells & Hev);
      [lia|lia|].
    exists s', ([EvStore c (W_cpu_on_entry (if v =? 0 then 0 else PSCI_INVALID_ADDRESS P));
                 EvStore c (W_virt_id v)] ++ evs).
    assert (percpu s1 c
            = apply_store (W_virt_id v)
                (apply_store (W_cpu_on_entry
                                (if v =? 0 then 0 else PSCI_INVALID_ADDRESS P))
                   (percpu s c))) as Hs1.
    { unfold s1. change (percpu (log ?e ?t)) with (percpu t).
      rewrite stores_same. cbn [foldl].
      change (percpu (log ?e ?t)) with (percpu t).
      rewrite stores_same. reflexivity. }
    split; [|split; [|split; [|split]]].
    + rewrite Hrun. f_equal. f_equal. f_equal. lia.
    + intros [|i] c' Hi.
      * injection Hi as <-. rewrite Hother by exact Hc. rewrite Hs1.
        rewrite Z.add_0_r. destruct (percpu s c); split; reflexivity.
      * cbn in Hi. destruct (Hvid i c' Hi) as [-> ->].
        replace (v + 1 + Z.of_nat i) with (v + Z.of_nat (S i)) by lia.
        split; reflexivity.
    + intros c' Hc'. apply not_elem_of_cons in Hc' as [Hne Hc'].
      rewrite Hother by exact Hc'. unfold s1.
      change (percpu (log ?e ?t)) with (percpu t).
      rewrite stores_other by exact Hne.
      change (percpu (log ?e ?t)) with (percpu t).
      rewrite stores_other by exact Hne. reflexivity.
    + rewrite Hcells. reflexivity.
    + rewrite Hev. unfold s1. cbn [events log with_events stores with_percpu].
      rewrite <- !app_assoc. reflexivity.
Qed.

End CellCreate.

(** C8.  [arch_cell_create] always returns.  When it returns 0 (both
    collaborators succeeded), the [virt_id] values of the cell's CPUs, taken
    in ascending physical-CPU order, are exactly 0, 1, ..., N-1;
    [last_virt_id] is N-1 (for a cell with at least one CPU); and
    [cpu_on_entry] is 0 for the CPU with [virt_id] 0 and
    [PSCI_INVALID_ADDRESS] for every other CPU of the cell.  When the
    irqchip initialisation fails, the last thing done is the destruction of
    the cell's paging, and the irqchip's error is returned. *)
Theorem arch_cell_create_assigns_virt_ids
    (P : Control.platform) (paging_cell_init irqchip_cell_init : Z)
    (cell : Z) (sc : Control.schedule) (s : Control.system) :
  let set := Control.cell_cpu_set (Control.cells s cell) in
  let cpus := Control.for_each_cpu set in
  let N := Z.of_nat (length cpus) in
  0 <= Control.max_cpu_id set < 2 ^ 32 - 1 ->
  exists r s',
    Control.arch_cell_create P paging_cell_init irqchip_cell_init cell sc s
    = Some (r, s', sc)
    /\ StronglySorted Z.lt cpus
    /\ (r = 0 ->
        paging_cell_init = 0 /\ irqchip_cell_init = 0
        /\ (λ c, Control.virt_id (Control.percpu s' c)) <$> cpus = seqZ 0 N
        /\ (forall c, c ∈ cpus ->
            Control.cpu_on_entry (Control.percpu s' c)
            = if Control.virt_id (Control.percpu s' c) =? 0 then 0
              else Control.PSCI_INVALID_ADDRESS P)
        /\ Control.last_virt_id (Control.cells s' cell) = u32 (N - 1)
        /\ (1 <= N -> Control.last_virt_id (Control.cells s' cell) = N - 1))
    /\ (paging_cell_init = 0 -> irqchip_cell_init = 0 -> r = 0)
    /\ (paging_cell_init = 0 -> irqchip_cell_init <> 0 ->
        r = irqchip_cell_init
        /\ exists evs,
            Control.events s'
            = Control.events s ++ evs
              ++ [Control.EvIrqchipCellInit cell; Control.EvPagingCellDestroy cell]).
Proof.
  cbv zeta. intros Hmax.
  set (cpus := Control.for_each_cpu (Control.cell_cpu_set (Control.cells s cell))).
  assert (Z.of_nat (length cpus)
          <= Control.max_cpu_id (Control.cell_cpu_set (Control.cells s cell)) + 1)
    as Hlen by (apply for_each_cpu_length; lia).
  unfold Control.arch_cell_create, Control.emit, Control.modify, Control.get,
    mbind, Control.M_bind, mret, Control.M_ret.
  destruct (Z.eqb_spec paging_cell_init 0) as [Hp|Hp]; cbn [negb].
  2:{ eexists _, _. split; [reflexivity|]. split; [apply for_each_cpu_sorted|].
      repeat split; intros; congruence. }
  change (Control.cells (Control.log ?e ?t)) with (Control.cells t).
  fold cpus.
  destruct (cell_create_loop_spec P cpus (for_each_cpu_NoDup _) 0 sc
              (Control.log (Control.EvPagingCellInit cell) s))
    as (s1 & evs & Hrun & Hvid & _ & Hcells & Hev); [lia|lia|].
  rewrite Hrun. rewrite Z.add_0_l.
  assert ((λ c, Control.virt_id (Control.percpu s1 c)) <$> cpus
          = seqZ 0 (Z.of_nat (length cpus))) as Hlist.
  { apply list_eq. intros i. rewrite list_lookup_fmap.
    destruct (cpus !! i) as [c|] eqn:E; cbn [fmap option_fmap option_map].
    - destruct (Hvid i c E) as [-> _].
      apply lookup_lt_Some in E. rewrite lookup_seqZ_lt by lia. reflexivity.
    - apply lookup_ge_None in E. rewrite lookup_seqZ_ge by lia. reflexivity. }
  assert (forall c, c ∈ cpus ->
          Control.cpu_on_entry (Control.percpu s1 c)
          = if Control.virt_id (Control.percpu s1 c) =? 0 then 0
            else Control.PSCI_INVALID_ADDRESS P) as Hentry.
  { intros c Hc. apply list_elem_of_lookup in Hc as [i Hi].
    destruct (Hvid i c Hi) as [-> ->]. reflexivity. }
  destruct (Z.eqb_spec irqchip_cell_init 0) as [Hi|Hi]; cbn [negb].
  - eexists _, _. split; [reflexivity|]. split; [apply for_each_cpu_sorted|].
    split; [|split].
    + intros _. split; [exact Hp|]. split; [exact Hi|].
      split; [exact Hlist|]. split; [exact Hentry|].
      cbn [Control.cells Control.log Control.with_events Control.with_cells].
      rewrite fn_lookup_insert. cbn [Control.last_virt_id].
      split; [reflexivity|]. intros HN. unfold u32. apply Z.mod_small. lia.
    + reflexivity.
    + intros _ Hne. contradiction.
  - eexists _, _. split; [reflexivity|]. split; [apply for_each_cpu_sorted|].
    split; [|split].
    + intros Hr. contradiction.
    + intros _ Hz. contradiction.
    + intros _ _. split; [reflexivity|].
      exists (Control.EvPagingCellInit cell :: evs).
      cbn [Control.events Control.log Control.with_events Control.with_cells].
      rewrite Hev. cbn [Control.events Control.log Control.with_events].
      rewrite <- !app_assoc. reflexivity.
Qed.

(** The cell of the spec's secondary-boot scenario: CPUs 3 and 5. *)
Definition demo_platform : Control.platform :=
  Control.mk_platform 0 1 0xffffffff 0x1d3 0x1005 (Z.shiftl 1 31).

Definition demo_percpu (c : Z) : Control.per_cpu :=
  Control.mk_per_cpu c c 0 0xffffffff 0 false false false false
    (negb (c =? 3)) false (λ _, 0) (replicate 14 0).

Definition demo_system : Control.system :=
  Control.mk_system demo_percpu
    (λ _, Control.mk_cell (Control.mk_cpu_set 5 0x28) 0)
    3 (Hw.mk_hw_state (λ _, 0) []) [].

Lemma arch_cell_create_assigns_virt_ids_witness :
  exists r s',
    Control.arch_cell_create demo_platform 0 0 0 [] demo_system = Some (r, s', [])
    /\ StronglySorted Z.lt [3; 5]
    /\ (r = 0 ->
        0 = 0 /\ 0 = 0
        /\ (λ c, Control.virt_id (Control.percpu s' c)) <$> [3; 5] = [0; 1]
        /\ (forall c, c ∈ [3; 5] ->
            Control.cpu_on_entry (Control.percpu s' c)
            = if Control.virt_id (Control.percpu s' c) =? 0 then 0
              else 0xffffffff)
        /\ Control.last_virt_id (Control.cells s' 0) = u32 (2 - 1)
        /\ (1 <= 2 -> Control.last_virt_id (Control.cells s' 0) = 2 - 1))
    /\ (0 = 0 -> 0 = 0 -> r = 0)
    /\ (0 = 0 -> 0 <> 0 ->
        r = 0
        /\ exists evs,
            Control.events s'
            = Control.events demo_system ++ evs
              ++ [Control.EvIrqchipCellInit 0; Control.EvPagingCellDestroy 0]).
Proof.
  apply (arch_cell_create_assigns_virt_ids demo_platform 0 0 0 [] demo_system).
  simpl. lia.
Defined.

(** * control.c: suspending a CPU twice *)

Module SuspendSpec.

Import Control.

(** No other CPU runs the critical section of [arch_resume_cpu] (also
    reached through [arch_reset_cpu] and [arch_park_cpu]) on [target]. *)
Definition no_resume (target : Z) (acts : list env_action) : Prop :=
  Forall (λ a, a <> Env_resume target) acts.

(** The target has been asked to suspend and has acknowledged: it spins in
    the suspend window of [check_events]. *)
Definition suspended (target : Z) (s : system) : Prop :=
  suspend_cpu (percpu s target) = true /\ cpu_suspended (percpu s target) = true.

End SuspendSpec.

Section Suspend.

Import Control PsciSpec SuspendSpec.

Variable P : platform.

Lemma env_step_keeps_request (target : Z) (a : env_action) (s : system) :
  a <> Env_resume target ->
  suspend_cpu (percpu s target) = true ->
  suspend_cpu (percpu (env_step P s a) target) = true.
Proof.
  intros Ha Hs. unfold env_step.
  destruct a as [c|c|c|c|c|c e x|c|c|c|c]; cbn [env_stores];
    (destruct (decide (target = c)) as [<-|Hne];
     [|rewrite stores_other by exact Hne; exact Hs]);
    try congruence;
    rewrite stores_same;
    unfold cpu_on_section, events_suspended_section, events_resumed_section,
      events_flush_section, enter_cpu_off;
    destruct (percpu s target); cbn in Hs; subst; cbn;
    repeat match goal with
           | |- context [if ?b then _ else _] => destruct b
           end; reflexivity.
Qed.

Lemma env_step_keeps_suspended (target : Z) (a : env_action) (s : system) :
  a <> Env_resume target -> suspended target s -> suspended target (env_step P s a).
Proof.
  intros Ha [Hs Hc]. split; [apply env_step_keeps_request; assumption|].
  unfold env_step.
  destruct a as [c|c|c|c|c|c e x|c|c|c|c]; cbn [env_stores];
    (destruct (decide (target = c)) as [<-|Hne];
     [|rewrite stores_other by exact Hne; exact Hc]);
    try congruence;
    rewrite stores_same;
    unfold cpu_on_section, events_suspended_section, events_resumed_section,
      events_flush_section, enter_cpu_off;
    destruct (percpu s target); cbn in Hs, Hc; subst; cbn;
    repeat match goal with
           | |- context [if ?b then _ else _] => destruct b
           end; reflexivity.
Qed.

Lemma env_run_keeps_request (target : Z) (acts : list env_action) (s : system) :
  no_resume target acts ->
  suspend_cpu (percpu s target) = true ->
  suspend_cpu (percpu (env_run P acts s) target) = true.
Proof.
  unfold env_run. intros H. revert s.
  induction H as [|a acts Ha _ IH]; intros s Hs; cbn [foldl]; [exact Hs|].
  apply IH, env_step_keeps_request; assumption.
Qed.

Lemma env_run_keeps_suspended (target : Z) (acts : list env_action) (s : system) :
  no_resume target acts -> suspended target s -> suspended target (env_run P acts s).
Proof.
  unfold env_run. intros H. revert s.
  induction H as [|a acts Ha _ IH]; intros s Hs; cbn [foldl]; [exact Hs|].
  apply IH, env_step_keeps_suspended; assumption.
Qed.

Lemma env_run_events (acts : list env_action) (s : system) :
  events (env_run P acts s) = events s.
Proof.
  unfold env_run. revert s. induction acts as [|a acts IH]; intros s; cbn [foldl].
  - reflexivity.
  - rewrite IH. unfold env_step. destruct (env_stores P a s). reflexivity.
Qed.

(** The busy-wait of [arch_suspend_cpu]: when it ends, the target has
    acknowledged, the request still stands, and what is left of the
    schedule is a part of what was there. *)
Lemma busy_wait_ends (target : Z) (sc : schedule) :
  Forall (no_resume target) sc ->
  forall (s s' : system) (sc' : schedule),
  suspend_cpu (percpu s target) = true ->
  spin_while P (λ s, negb (cpu_suspended (percpu s target))) sc s
  = Some (tt, s', sc') ->
  suspended target s' /\ Forall (no_resume target) sc'.
Proof.
  induction 1 as [|acts rest Hacts Hrest IH]; intros s s' sc' Hs Hrun;
    cbn [spin_while] in Hrun.
  - destruct (cpu_suspended (percpu s target)) eqn:E; cbn [negb] in Hrun;
      [|discriminate].
    injection Hrun as <- <-. split; [split; assumption|constructor].
  - destruct (cpu_suspended (percpu s target)) eqn:E; cbn [negb] in Hrun.
    + injection Hrun as <- <-. split; [split; assumption|].
      constructor; assumption.
    + apply IH in Hrun; [exact Hrun|].
      apply env_run_keeps_request; assumption.
Qed.

Lemma store_suspend_cpu_request (target : Z) (s : system) :
  suspend_cpu (percpu (stores target [W_suspend_cpu true] s) target) = true.
Proof. rewrite stores_same. cbn [foldl]. destruct (percpu s target); reflexivity. Qed.

Lemma store_suspend_cpu_suspended (target : Z) (s : system) :
  cpu_suspended (percpu (stores target [W_suspend_cpu true] s) target)
  = cpu_suspended (percpu s target).
Proof. rewrite stores_same. cbn [foldl]. destruct (percpu s target); reflexivity. Qed.

(** [arch_suspend_cpu] once the lock is taken. *)
Lemma arch_suspend_cpu_unfold (target : Z) (sc : schedule) (s : system) :
  let s0 := (at_lock P sc s).1 in
  let sc0 := (at_lock P sc s).2 in
  let s1 := log (EvSpinUnlock target)
              (log (EvStore target (W_suspend_cpu true))
                 (stores target [W_suspend_cpu true]
                    (log (EvSpinLock target) s0))) in
  arch_suspend_cpu P target sc s =
  if cpu_suspended (percpu s0 target) then Some (tt, s1, sc0)
  else spin_while P (λ s, negb (cpu_suspended (percpu s target))) sc0
         (log (kick P target) s1).
Proof.
  cbv zeta.
  unfold arch_suspend_cpu, spin_lock, spin_unlock, arm_cpu_kick, kick, write,
    read, emit, modify, get, mbind, M_bind, mret, M_ret.
  rewrite yield_at_lock.
  cbn [percpu log with_events].
  rewrite (store_suspend_cpu_suspended target (log (EvSpinLock target) _)).
  cbn [percpu log with_events].
  destruct (cpu_suspended (percpu (at_lock P sc s).1 target)); reflexivity.
Qed.

Lemma at_lock_tail (target : Z) (sc : schedule) (s : system) :
  Forall (no_resume target) (tail sc) ->
  Forall (no_resume target) (at_lock P sc s).2.
Proof. destruct sc; cbn; intros H; exact H. Qed.

(** When [arch_suspend_cpu] returns, the target is suspended. *)
Lemma arch_suspend_cpu_returns (target : Z) (sc : schedule) (s s1 : system)
    (sc1 : schedule) :
  Forall (no_resume target) (tail sc) ->
  arch_suspend_cpu P target sc s = Some (tt, s1, sc1) ->
  suspended target s1 /\ Forall (no_resume target) sc1.
Proof.
  intros Hsc Hrun. rewrite arch_suspend_cpu_unfold in Hrun. cbv zeta in Hrun.
  pose proof (at_lock_tail target sc s Hsc) as Hsc0.
  destruct (cpu_suspended (percpu (at_lock P sc s).1 target)) eqn:E.
  - injection Hrun as <- <-. split; [|exact Hsc0]. split.
    + apply (store_suspend_cpu_request target (log (EvSpinLock target) _)).
    + etransitivity;
        [apply (store_suspend_cpu_suspended target (log (EvSpinLock target) _))|].
      exact E.
  - eapply busy_wait_ends; [exact Hsc0| |exact Hrun].
    apply (store_suspend_cpu_request target (log (EvSpinLock target) _)).
Qed.

(** A redundant [suspend_cpu = true] changes no record. *)
Lemma store_suspend_cpu_again (target : Z) (s : system) (c : Z) :
  suspend_cpu (percpu s target) = true ->
  percpu (stores target [W_suspend_cpu true] s) c = percpu s c.
Proof.
  intros H. destruct (decide (c = target)) as [->|Hne].
  - rewrite stores_same. cbn [foldl].
    destruct (percpu s target); cbn in H; subst; reflexivity.
  - apply stores_other. exact Hne.
Qed.

End Suspend.

(** C9.  Let [arch_suspend_cpu(target)] be called twice in a row, and let
    no [arch_resume_cpu(target)] run on another CPU once the first call has
    set [suspend_cpu].  If the first call returns, the second call returns
    as well, whatever the other CPUs do or do not do meanwhile: it takes
    the target's lock, stores [suspend_cpu = true] again (which changes no
    record), finds [cpu_suspended] true and releases the lock; it sends no
    SGI and never runs [cpu_relax].  The target is still suspended
    afterwards. *)
Theorem arch_suspend_cpu_twice
    (P : Control.platform) (target : Z)
    (sc sc1 : Control.schedule) (s s1 : Control.system) :
  Forall (SuspendSpec.no_resume target) (tail sc) ->
  Control.arch_suspend_cpu P target sc s = Some (tt, s1, sc1) ->
  let s1' := (PsciSpec.at_lock P sc1 s1).1 in
  let sc2 := (PsciSpec.at_lock P sc1 s1).2 in
  exists s2,
    Control.arch_suspend_cpu P target sc1 s1 = Some (tt, s2, sc2)
    /\ (Control.arch_suspend_cpu P target;; Control.arch_suspend_cpu P target) sc s
       = Some (tt, s2, sc2)
    /\ Control.events s2
       = Control.events s1
         ++ [Control.EvSpinLock target;
             Control.EvStore target (Control.W_suspend_cpu true);
             Control.EvSpinUnlock target]
    /\ (forall c, Control.percpu s2 c = Control.percpu s1' c)
    /\ SuspendSpec.suspended target s2.
Proof.
  intros Hsc Hfirst. cbv zeta.
  destruct (arch_suspend_cpu_returns P target sc s s1 sc1 Hsc Hfirst)
    as [Hsusp Hsc1].
  assert (SuspendSpec.suspended target (PsciSpec.at_lock P sc1 s1).1) as Hsusp'.
  { destruct sc1 as [|acts rest]; [exact Hsusp|]. cbn [PsciSpec.at_lock fst].
    apply env_run_keeps_suspended; [|exact Hsusp].
    apply Forall_cons in Hsc1 as [H _]. exact H. }
  assert (Control.events (PsciSpec.at_lock P sc1 s1).1 = Control.events s1) as Hev.
  { destruct sc1 as [|acts rest]; [reflexivity|]. apply env_run_events. }
  pose proof (arch_suspend_cpu_unfold P target sc1 s1) as Hsecond.
  cbv zeta in Hsecond. destruct Hsusp' as [Hreq Hack].
  rewrite Hack in Hsecond.
  eexists. split; [exact Hsecond|]. split; [|split; [|split]].
  - unfold mbind, Control.M_bind. rewrite Hfirst. exact Hsecond.
  - cbn [Control.events Control.log Control.with_events Control.stores
           Control.with_percpu].
    rewrite Hev, <- !app_assoc. reflexivity.
  - intros c. rewrite !percpu_log.
    rewrite store_suspend_cpu_again; rewrite ?percpu_log; [reflexivity|exact Hreq].
  - split.
    + rewrite !percpu_log.
      rewrite store_suspend_cpu_again; rewrite ?percpu_log; exact Hreq.
    + rewrite !percpu_log.
      rewrite store_suspend_cpu_again; rewrite ?percpu_log; [exact Hack|exact Hreq].
Qed.

(** CPU 3 suspends CPU 5, which runs guest code: CPU 5 takes the kick and
    acknowledges in the first section of [check_events] while CPU 3 waits. *)
Definition demo_schedule : Control.schedule :=
  [[]; [Control.Env_events_suspended 5]].

Definition demo_after_suspend : Control.system :=
  match Control.arch_suspend_cpu demo_platform 5 demo_schedule demo_system with
  | Some (_, s, _) => s
  | None => demo_system
  end.

Lemma arch_suspend_cpu_twice_witness :
  exists s2,
    Control.arch_suspend_cpu demo_platform 5 [] demo_after_suspend
    = Some (tt, s2, [])
    /\ (Control.arch_suspend_cpu demo_platform 5;;
        Control.arch_suspend_cpu demo_platform 5) demo_schedule demo_system
       = Some (tt, s2, [])
    /\ Control.events s2
       = Control.events demo_after_suspend
         ++ [Control.EvSpinLock 5;
             Control.EvStore 5 (Control.W_suspend_cpu true);
             Control.EvSpinUnlock 5]
    /\ (forall c, Control.percpu s2 c = Control.percpu demo_after_suspend c)
    /\ SuspendSpec.suspended 5 s2.
Proof.
  apply (arch_suspend_cpu_twice demo_platform 5 demo_schedule [] demo_system
           demo_after_suspend).
  - repeat constructor; discriminate.
  - vm_compute. reflexivity.
Defined.

(** The first call of the witness did kick CPU 5 and wait for it. *)
Example demo_first_suspend_events :
  Control.events demo_after_suspend
  = [Control.EvSpinLock 5;
     Control.EvStore 5 (Control.W_suspend_cpu true);
     Control.EvSpinUnlock 5;
     Control.EvSendSgi (Control.mk_sgi 32 0 1);
     Control.EvCpuRelax].
Proof. vm_compute. reflexivity. Qed.

(** * gic-v2.c: interrupt injection *)

Module GicSpec.

Import GicV2.

Definition lr_indices (gic_num_lr : Z) : list Z := seqZ 0 gic_num_lr.

(** List register [i] is empty, as the status words say. *)
Definition is_empty_slot (g : gich) (i : Z) : bool :=
  test_bit i [GICH_ELSR0 g; GICH_ELSR1 g].

(** List register [i] carries the virtual id [irq_id]. *)
Definition holds_virt_id (g : gich) (irq_id : Z) (i : Z) : bool :=
  Z.land (gic_read_lr g i) GICH_LR_VIRT_ID_MASK =? irq_id.

(** Some occupied list register already holds the virtual id. *)
Definition already_listed (gic_num_lr : Z) (g : gich) (irq_id : Z) : bool :=
  existsb (λ i, negb (is_empty_slot g i) && holds_virt_id g irq_id i)
          (lr_indices gic_num_lr).

(** The first empty list register, if there is one. *)
Definition first_empty (gic_num_lr : Z) (g : gich) : option Z :=
  find (is_empty_slot g) (lr_indices gic_num_lr).

(** The entry for an interrupt: the virtual id and the pending bit, and
    for anything but an SGI the hardware bit and the id again as the
    physical id. *)
Definition lr_entry (irq_id : Z) : Z :=
  if is_sgi irq_id then Z.lor irq_id GICH_LR_PENDING_BIT
  else Z.lor (Z.lor (Z.lor irq_id GICH_LR_PENDING_BIT) GICH_LR_HW_BIT)
             (Z.shiftl irq_id GICH_LR_PHYS_ID_SHIFT).

End GicSpec.

Section GicInject.

Import GicV2 GicSpec.

Lemma seqZ_of_nat_to_nat (m n : Z) : seqZ m (Z.of_nat (Z.to_nat n)) = seqZ m n.
Proof. unfold seqZ. rewrite Nat2Z.id. reflexivity. Qed.

Lemma seqZ_succ (m : Z) (count : nat) :
  seqZ m (Z.of_nat (S count)) = m :: seqZ (m + 1) (Z.of_nat count).
Proof.
  rewrite seqZ_cons by lia. f_equal.
  replace (Z.pred (Z.of_nat (S count))) with (Z.of_nat count) by lia.
  reflexivity.
Qed.

(** The scan of the list registers from index [i] on. *)
Lemma scan_list_registers_spec (g : gich) (irq_id : Z) (count : nat) :
  forall (i first_free : Z), 0 <= i ->
  scan_list_registers g [GICH_ELSR0 g; GICH_ELSR1 g] irq_id count i first_free =
  if existsb (λ i, negb (is_empty_slot g i) && holds_virt_id g irq_id i)
             (seqZ i (Z.of_nat count))
  then inl (- EEXIST)
  else inr (if first_free =? -1
            then default (-1) (find (is_empty_slot g) (seqZ i (Z.of_nat count)))
            else first_free).
Proof.
  induction count as [|count IH]; intros i first_free Hi.
  - cbn [scan_list_registers]. rewrite seqZ_nil by lia. cbn.
    destruct (first_free =? -1) eqn:E; [|reflexivity].
    apply Z.eqb_eq in E. subst. reflexivity.
  - cbn [scan_list_registers]. rewrite seqZ_succ. cbn [existsb find].
    fold (is_empty_slot g i). fold (holds_virt_id g irq_id i).
    destruct (is_empty_slot g i) eqn:E; cbn [negb andb orb].
    + rewrite IH by lia.
      destruct (existsb _ _); [reflexivity|].
      destruct (Z.eqb_spec first_free (-1)) as [->|Hne].
      * destruct (Z.eqb_spec i (-1)); [lia|]. reflexivity.
      * apply Z.eqb_neq in Hne. rewrite Hne. reflexivity.
    + destruct (holds_virt_id g irq_id i); cbn [orb]; [reflexivity|].
      apply IH. lia.
Qed.

Lemma find_seqZ_nonneg (f : Z -> bool) (n i : Z) :
  find f (seqZ 0 n) = Some i -> 0 <= i.
Proof.
  intros H. apply find_some in H as [H _].
  apply list_elem_of_In, elem_of_seqZ in H. lia.
Qed.

(** [gic_inject_irq] against the walk the spec describes. *)
Lemma gic_inject_irq_spec (gic_num_lr : Z) (g : gich) (irq_id : Z) :
  gic_inject_irq gic_num_lr g irq_id =
  if already_listed gic_num_lr g irq_id then (g, - EEXIST)
  else match first_empty gic_num_lr g with
       | None => (g, - EBUSY)
       | Some i => (gic_write_lr i (lr_entry irq_id) g, 0)
       end.
Proof.
  unfold gic_inject_irq, already_listed, first_empty, lr_indices.
  rewrite scan_list_registers_spec by lia.
  rewrite seqZ_of_nat_to_nat, Z.eqb_refl.
  destruct (existsb _ _); [reflexivity|].
  destruct (find (is_empty_slot g) (seqZ 0 gic_num_lr)) as [i|] eqn:E;
    unfold default; cbn [from_option id]; [|reflexivity].
  apply find_seqZ_nonneg in E.
  destruct (Z.eqb_spec i (-1)); [lia|].
  unfold lr_entry. destruct (is_sgi irq_id); reflexivity.
Qed.

Lemma lr_entry_virt_id (irq_id : Z) :
  0 <= irq_id < 1024 -> Z.land (lr_entry irq_id) GICH_LR_VIRT_ID_MASK = irq_id.
Proof.
  intros H. unfold lr_entry, GICH_LR_VIRT_ID_MASK, GICH_LR_PENDING_BIT,
    GICH_LR_HW_BIT, GICH_LR_PHYS_ID_SHIFT.
  destruct (is_sgi irq_id); apply Z.bits_inj'; intros i Hi;
    rewrite (testbit_small 10 irq_id i) by lia;
    bits_rw; rewrite ?testbit_pow2_b by lia;
    bits_cases; bits_norm i; bits_close.
Qed.

Lemma lr_entry_pending (irq_id : Z) :
  0 <= irq_id -> Z.testbit (lr_entry irq_id) 28 = true.
Proof.
  intros H. unfold lr_entry, GICH_LR_PENDING_BIT, GICH_LR_HW_BIT.
  destruct (is_sgi irq_id); bits_rw; rewrite ?testbit_pow2_b by lia;
    cbn [Z.eqb Pos.eqb]; rewrite ?orb_true_r; reflexivity.
Qed.

Lemma lr_entry_hw (irq_id : Z) :
  0 <= irq_id < 1024 -> Z.testbit (lr_entry irq_id) 31 = negb (is_sgi irq_id).
Proof.
  intros H. unfold lr_entry, GICH_LR_PENDING_BIT, GICH_LR_HW_BIT,
    GICH_LR_PHYS_ID_SHIFT.
  destruct (is_sgi irq_id); bits_rw; rewrite ?testbit_pow2_b by lia;
    rewrite ?(testbit_high 10 irq_id 31), ?(testbit_high 10 irq_id (31 - 10))
      by lia; reflexivity.
Qed.

Lemma lr_entry_phys_id (irq_id : Z) :
  0 <= irq_id < 1024 ->
  Z.land (Z.shiftr (lr_entry irq_id) GICH_LR_PHYS_ID_SHIFT) 0x3ff
  = if is_sgi irq_id then 0 else irq_id.
Proof.
  intros H. unfold lr_entry, GICH_LR_PENDING_BIT, GICH_LR_HW_BIT,
    GICH_LR_PHYS_ID_SHIFT.
  destruct (is_sgi irq_id); apply Z.bits_inj'; intros i Hi;
    bits_rw; rewrite ?testbit_pow2_b by lia;
    rewrite ?(testbit_bounded 10 irq_id) by lia;
    bits_cases; rewrite ?bit_eq; bits_norm i; bits_close.
Qed.

Lemma lr_entry_not_empty (irq_id : Z) :
  0 <= irq_id -> lr_is_empty (lr_entry irq_id) = false.
Proof.
  intros H. unfold lr_is_empty.
  destruct (Z.eqb_spec (Z.land (lr_entry irq_id)
                          (Z.lor GICH_LR_PENDING_BIT GICH_LR_ACTIVE_BIT)) 0)
    as [E|E]; [|reflexivity].
  exfalso. apply (f_equal (λ x, Z.testbit x 28)) in E.
  rewrite Z.land_spec, lr_entry_pending in E by exact H. discriminate E.
Qed.

End GicInject.

Section GicScenario.

Import GicV2 GicSpec.

(** The window after an injection into list register 0: the register holds
    the entry and the hardware reports it as occupied. *)
Lemma after_injection_into_lr0 (g : gich) (irq_id : Z) :
  0 <= irq_id < 1024 -> GICH_LR g <> [] ->
  let g1 := gic_write_lr 0 (lr_entry irq_id) g in
  is_empty_slot g1 0 = false
  /\ Z.land (gic_read_lr g1 0) GICH_LR_VIRT_ID_MASK = irq_id.
Proof.
  intros Hid Hlr. cbv zeta. split.
  - unfold is_empty_slot, test_bit, gic_write_lr.
    cbn [GICH_ELSR0 GICH_ELSR1]. rewrite lr_entry_not_empty by lia.
    change (Z.to_nat (0 / 32)) with 0%nat. change (0 mod 32) with 0.
    change (0 <? 32) with true. cbn [lookup list_lookup default from_option id].
    unfold set_status_bit. apply Z.clearbit_eq.
  - unfold gic_read_lr, gic_write_lr. cbn [GICH_LR].
    change (Z.to_nat 0) with 0%nat.
    destruct (GICH_LR g) as [|lr0 rest]; [contradiction|].
    cbn. apply lr_entry_virt_id. exact Hid.
Qed.

End GicScenario.

(** C4.  For every list-register window and every requested id,
    [gic_inject_irq] returns [-EEXIST] and writes nothing if some occupied
    list register among the [gic_num_lr] ones already holds the id as its
    virtual id; otherwise it returns [-EBUSY] and writes nothing if none of
    them is empty; otherwise it writes the entry for the id into the first
    empty list register and returns 0.  The entry of an interrupt id (ten
    bits) carries the id as virtual id and the pending bit, and the hardware
    bit and the id as physical id exactly when the id is not an SGI.  With
    a single list register that the hardware reports empty, a first
    injection succeeds, a second one with a different id returns [-EBUSY],
    and a second one with the same id returns [-EEXIST]. *)
Theorem gic_inject_irq_contract :
  (forall (gic_num_lr : Z) (g : GicV2.gich) (irq_id : Z),
     GicV2.gic_inject_irq gic_num_lr g irq_id =
     if GicSpec.already_listed gic_num_lr g irq_id then (g, - GicV2.EEXIST)
     else match GicSpec.first_empty gic_num_lr g with
          | None => (g, - GicV2.EBUSY)
          | Some i => (GicV2.gic_write_lr i (GicSpec.lr_entry irq_id) g, 0)
          end)
  /\ (forall irq_id : Z, 0 <= irq_id < 1024 ->
      Z.land (GicSpec.lr_entry irq_id) GicV2.GICH_LR_VIRT_ID_MASK = irq_id
      /\ Z.land (GicSpec.lr_entry irq_id) GicV2.GICH_LR_PENDING_BIT
         = GicV2.GICH_LR_PENDING_BIT
      /\ Z.testbit (GicSpec.lr_entry irq_id) 31 = negb (GicV2.is_sgi irq_id)
      /\ Z.land (Z.shiftr (GicSpec.lr_entry irq_id) GicV2.GICH_LR_PHYS_ID_SHIFT) 0x3ff
         = if GicV2.is_sgi irq_id then 0 else irq_id)
  /\ (forall (g : GicV2.gich) (a b : Z),
      0 <= a < 1024 -> 0 <= b < 1024 -> a <> b ->
      length (GicV2.GICH_LR g) = 1%nat ->
      GicSpec.is_empty_slot g 0 = true ->
      let first := GicV2.gic_inject_irq 1 g a in
      first = (GicV2.gic_write_lr 0 (GicSpec.lr_entry a) g, 0)
      /\ GicV2.gic_inject_irq 1 first.1 b = (first.1, - GicV2.EBUSY)
      /\ GicV2.gic_inject_irq 1 first.1 a = (first.1, - GicV2.EEXIST)).
Proof.
  split; [|split].
  - apply gic_inject_irq_spec.
  - intros irq_id Hid. split; [apply lr_entry_virt_id; exact Hid|].
    split; [|split; [apply lr_entry_hw; exact Hid|apply lr_entry_phys_id; exact Hid]].
    apply Z.bits_inj'. intros i Hi. rewrite Z.land_spec.
    unfold GicV2.GICH_LR_PENDING_BIT. rewrite testbit_pow2_b by lia.
    destruct (Z.eqb_spec 28 i) as [<-|_]; [|apply andb_false_r].
    rewrite lr_entry_pending by lia. reflexivity.
  - intros g a b Ha Hb Hab Hlen Hempty. cbv zeta.
    assert (GicV2.GICH_LR g <> []) as Hne.
    { intros E. rewrite E in Hlen. discriminate Hlen. }
    assert (GicV2.gic_inject_irq 1 g a
            = (GicV2.gic_write_lr 0 (GicSpec.lr_entry a) g, 0)) as Hfirst.
    { rewrite gic_inject_irq_spec.
      unfold GicSpec.already_listed, GicSpec.first_empty, GicSpec.lr_indices.
      change (seqZ 0 1) with [0]. cbn [existsb find].
      rewrite Hempty. reflexivity. }
    rewrite Hfirst. cbn [fst].
    destruct (after_injection_into_lr0 g a Ha Hne) as [Hocc Hvid].
    split; [reflexivity|]. split.
    + rewrite gic_inject_irq_spec.
      unfold GicSpec.already_listed, GicSpec.first_empty, GicSpec.lr_indices,
        GicSpec.holds_virt_id.
      change (seqZ 0 1) with [0]. cbn [existsb find].
      rewrite Hocc, Hvid. cbn [negb andb orb].
      destruct (Z.eqb_spec a b); [contradiction|]. reflexivity.
    + rewrite gic_inject_irq_spec.
      unfold GicSpec.already_listed, GicSpec.first_empty, GicSpec.lr_indices,
        GicSpec.holds_virt_id.
      change (seqZ 0 1) with [0]. cbn [existsb find].
      rewrite Hocc, Hvid, Z.eqb_refl. reflexivity.
Qed.

(** One list register, empty; a PPI (27) and an SGI (5). *)
Definition one_lr_window : GicV2.gich := GicV2.mk_gich 1 0 [0].

Lemma gic_inject_irq_contract_witness :
  let first := GicV2.gic_inject_irq 1 one_lr_window 27 in
  first = (GicV2.gic_write_lr 0 (GicSpec.lr_entry 27) one_lr_window, 0)
  /\ GicV2.gic_inject_irq 1 first.1 5 = (first.1, - GicV2.EBUSY)
  /\ GicV2.gic_inject_irq 1 first.1 27 = (first.1, - GicV2.EEXIST).
Proof.
  destruct gic_inject_irq_contract as (_ & _ & H).
  apply (H one_lr_window 27 5); try lia; reflexivity.
Defined.

(** * Scenarios of the spec *)

(** IT-state advance: with IT = 0b10101000 (the last instruction of a
    block) and a 16-bit instruction, a skip clears the IT state and adds 2
    to the PC. *)
Example skip_last_instruction_of_it_block :
  let ctx := Traps.mk_trap_context 0x8000 (Traps.PSR_IT_MASK 0xa8) 0 [] in
  Traps.PSR_IT (Traps.cpsr ctx) = 0xa8
  /\ Traps.PSR_IT (Traps.cpsr (Traps.arch_skip_instruction ctx)) = 0
  /\ Traps.pc (Traps.arch_skip_instruction ctx) = 0x8002.
Proof. vm_compute. repeat split. Qed.

(** Secondary boot: the cell with CPUs 3 and 5 is created, then the guest
    on CPU 3 issues CPU_ON(1, 0x80001000, 0xCAFE). *)
Definition demo_created : Control.system :=
  match Control.arch_cell_create demo_platform 0 0 0 [] demo_system with
  | Some (_, s, _) => s
  | None => demo_system
  end.

Definition demo_cpu_by_mpidr (s : Control.system) (cell mpidr : Z) : Z :=
  Control.arm_cpu_virt2phys s cell (Z.land mpidr 0xffffff).

Definition demo_cpu_on_ctx : Traps.trap_context :=
  Traps.mk_trap_context 0x8000 0x13 0
    [0x84000003; 1; 0x80001000; 0xCAFE; 0; 0; 0; 0; 0; 0; 0; 0; 0; 0].

Lemma psci_emulate_cpu_on_contract_witness :
  exists s2,
    Psci.psci_emulate_cpu_on demo_platform demo_cpu_by_mpidr 3 demo_cpu_on_ctx
      [] demo_created
    = Some (Psci.PSCI_SUCCESS, s2, [])
    /\ Control.cpu_on_entry (Control.percpu s2 5) = 0x80001000
    /\ Control.cpu_on_context (Control.percpu s2 5) = 0xCAFE
    /\ Control.reset (Control.percpu s2 5) = true
    /\ Control.events s2
       = Control.events demo_created
         ++ [Control.EvSpinLock 5;
             Control.EvStore 5 (Control.W_cpu_on_entry 0x80001000);
             Control.EvStore 5 (Control.W_cpu_on_context 0xCAFE);
             Control.EvStore 5 (Control.W_reset true);
             Control.EvSpinUnlock 5;
             PsciSpec.kick demo_platform 5].
Proof.
  destruct (psci_emulate_cpu_on_contract demo_platform demo_cpu_by_mpidr 3
              demo_cpu_on_ctx [] demo_created) as (_ & _ & H).
  destruct H as (s2 & Hrun & He & Hc & Hr & _ & _ & Hev).
  - vm_compute. discriminate.
  - vm_compute. reflexivity.
  - exists s2. repeat split; assumption.
Defined.

(** * Further properties of traps.c: guest register access *)

Section GuestRegisterAccess.

Import Traps RegSpec.

Lemma access_cell_reg_0_7 (s : trap_state) (reg val : Z) (is_read : bool) :
  0 <= reg <= 7 ->
  access_cell_reg s reg val is_read = access_usr_reg s reg val is_read.
Proof.
  intros H. unfold access_cell_reg.
  destruct (Z.leb_spec 0 reg), (Z.leb_spec reg 7); try lia. reflexivity.
Qed.

Lemma access_cell_reg_8_12 (s : trap_state) (reg val : Z) (is_read : bool) :
  8 <= reg <= 12 ->
  access_cell_reg s reg val is_read =
  if mode_of s =? PSR_FIQ_MODE then access_fiq_reg s reg val is_read
  else access_usr_reg s reg val is_read.
Proof.
  intros H. unfold access_cell_reg, mode_of.
  destruct (Z.leb_spec 0 reg), (Z.leb_spec reg 7), (Z.leb_spec 8 reg),
    (Z.leb_spec reg 12); try lia; reflexivity.
Qed.

Lemma access_cell_reg_13_14 (s : trap_state) (reg val : Z) (is_read : bool) :
  13 <= reg <= 14 ->
  access_cell_reg s reg val is_read =
  let mode := mode_of s in
  if (mode =? PSR_USR_MODE) || (mode =? PSR_SYS_MODE) then
    if reg =? 13 then access_banked_reg usr s reg val is_read
    else access_usr_reg s 13 val is_read
  else if mode =? PSR_SVC_MODE then access_banked_reg svc s reg val is_read
  else if mode =? PSR_UND_MODE then access_banked_reg und s reg val is_read
  else if mode =? PSR_ABT_MODE then access_banked_reg abt s reg val is_read
  else if mode =? PSR_IRQ_MODE then access_banked_reg irq s reg val is_read
  else if mode =? PSR_FIQ_MODE then access_banked_reg fiq s reg val is_read
  else (s, val).
Proof.
  intros H. unfold access_cell_reg, mode_of.
  destruct (Z.leb_spec 0 reg), (Z.leb_spec reg 7), (Z.leb_spec 8 reg),
    (Z.leb_spec reg 12), (Z.leb_spec 13 reg), (Z.leb_spec reg 14);
    try lia; reflexivity.
Qed.

Lemma access_cell_reg_15 (s : trap_state) (val : Z) (is_read : bool) :
  access_cell_reg s 15 val is_read =
  if is_read then (printk WARN_pc_access s, pc (ctx s))
  else (with_ctx (set_pc val (ctx (printk WARN_pc_access s)))
                 (printk WARN_pc_access s), val).
Proof. reflexivity. Qed.

Lemma access_cell_reg_invalid (s : trap_state) (reg val : Z) (is_read : bool) :
  reg < 0 \/ 15 < reg ->
  access_cell_reg s reg val is_read = (printk (ERROR_write_register reg) s, val).
Proof.
  intros H. unfold access_cell_reg.
  destruct (Z.leb_spec 0 reg), (Z.leb_spec reg 7), (Z.leb_spec 8 reg),
    (Z.leb_spec reg 12), (Z.leb_spec 13 reg), (Z.leb_spec reg 14),
    (Z.eqb_spec reg 15); try lia; reflexivity.
Qed.

Lemma access_usr_reg_round_trip (s : trap_state) (reg val x : Z) :
  (Z.to_nat reg < length (regs (ctx s)))%nat ->
  (access_usr_reg (access_usr_reg s reg val false).1 reg x true).2 = val.
Proof.
  intros H. unfold access_usr_reg. cbn [fst snd ctx with_ctx regs set_regs].
  rewrite list_lookup_insert_eq by exact H. reflexivity.
Qed.

Lemma access_hw_reg_round_trip (s : trap_state) (r : Hw.reg_name) (val x : Z) :
  (access_hw_reg (access_hw_reg s r val false).1 r x true).2 = val.
Proof.
  unfold access_hw_reg, Hw.read_reg, Hw.write_reg.
  cbn [fst snd hw with_hw Hw.regfile]. apply fn_lookup_insert.
Qed.

Lemma access_fiq_reg_round_trip (s : trap_state) (reg val x : Z) :
  8 <= reg <= 12 ->
  (access_fiq_reg (access_fiq_reg s reg val false).1 reg x true).2 = val.
Proof.
  intros H. unfold access_fiq_reg.
  destruct (Z.eqb_spec reg 8); [apply access_hw_reg_round_trip|].
  destruct (Z.eqb_spec reg 9); [apply access_hw_reg_round_trip|].
  destruct (Z.eqb_spec reg 10); [apply access_hw_reg_round_trip|].
  destruct (Z.eqb_spec reg 11); [apply access_hw_reg_round_trip|].
  destruct (Z.eqb_spec reg 12); [apply access_hw_reg_round_trip|].
  lia.
Qed.

Lemma access_banked_reg_round_trip (b : bank) (s : trap_state) (reg val x : Z) :
  13 <= reg <= 14 ->
  (access_banked_reg b (access_banked_reg b s reg val false).1 reg x true).2 = val.
Proof.
  intros H. unfold access_banked_reg.
  destruct (Z.eqb_spec reg 13); [apply access_hw_reg_round_trip|].
  destruct (Z.eqb_spec reg 14); [apply access_hw_reg_round_trip|].
  lia.
Qed.

(** No access changes the PSR or the syndrome of the trap context. *)
Lemma access_cell_reg_keeps_psr (s : trap_state) (reg val : Z) (is_read : bool) :
  cpsr (ctx (access_cell_reg s reg val is_read).1) = cpsr (ctx s)
  /\ hsr (ctx (access_cell_reg s reg val is_read).1) = hsr (ctx s).
Proof.
  unfold access_cell_reg, access_banked_reg, access_fiq_reg, access_usr_reg,
    access_hw_reg.
  repeat match goal with
         | |- context [if ?b then _ else _] => destruct b
         end; split; reflexivity.
Qed.

Lemma access_usr_reg_length (s : trap_state) (reg val : Z) (is_read : bool) :
  length (regs (ctx (access_usr_reg s reg val is_read).1)) = length (regs (ctx s)).
Proof.
  unfold access_usr_reg. destruct is_read; [reflexivity|].
  cbn [fst ctx with_ctx regs set_regs]. apply length_insert.
Qed.

End GuestRegisterAccess.

Lemma access_cell_reg_round_trip (s : Traps.trap_state) (reg val x : Z) :
  0 <= reg <= 15 ->
  (14 <= length (Traps.regs (Traps.ctx s)))%nat ->
  (13 <= reg <= 14 -> RegSpec.banked_mode (RegSpec.mode_of s) = true) ->
  (Traps.access_cell_reg (Traps.access_cell_reg s reg val false).1 reg x true).2
  = val.
Proof.
  intros Hreg Hlen Hmode.
  pose proof (access_cell_reg_keeps_psr s reg val false) as [Hpsr _].
  assert (RegSpec.mode_of (Traps.access_cell_reg s reg val false).1
          = RegSpec.mode_of s) as Hm.
  { unfold RegSpec.mode_of. rewrite Hpsr. reflexivity. }
  assert (0 <= reg <= 7 \/ 8 <= reg <= 12 \/ 13 <= reg <= 14 \/ reg = 15)
    as [H|[H|[H| ->]]] by lia.
  - rewrite !access_cell_reg_0_7 by exact H.
    apply access_usr_reg_round_trip. lia.
  - rewrite (access_cell_reg_8_12 _ reg x true) by exact H. rewrite Hm.
    rewrite (access_cell_reg_8_12 s reg val false) by exact H.
    destruct (RegSpec.mode_of s =? Traps.PSR_FIQ_MODE).
    + apply access_fiq_reg_round_trip. exact H.
    + apply access_usr_reg_round_trip. lia.
  - specialize (Hmode H).
    rewrite (access_cell_reg_13_14 _ reg x true) by exact H. cbv zeta. rewrite Hm.
    rewrite (access_cell_reg_13_14 s reg val false) by exact H. cbv zeta.
    unfold RegSpec.banked_mode in Hmode.
    destruct ((RegSpec.mode_of s =? Traps.PSR_USR_MODE)
              || (RegSpec.mode_of s =? Traps.PSR_SYS_MODE)).
    { destruct (reg =? 13).
      - apply access_banked_reg_round_trip. exact H.
      - apply access_usr_reg_round_trip. lia. }
    cbn [orb] in Hmode.
    repeat match goal with
           | |- context [if ?b then _ else _] =>
               destruct b; [apply access_banked_reg_round_trip; exact H|]
           end.
    discriminate Hmode.
  - rewrite !access_cell_reg_15. reflexivity.
Qed.

(** X1.  A value written to a guest register is the value read back from
    it: for r0..r15, in every mode whose banked SP and LR the code knows,
    with a save area of the 14 user registers. *)
Theorem access_cell_reg_write_read (s : Traps.trap_state) (reg val x : Z) :
  0 <= reg <= 15 ->
  (14 <= length (Traps.regs (Traps.ctx s)))%nat ->
  (13 <= reg <= 14 -> RegSpec.banked_mode (RegSpec.mode_of s) = true) ->
  (Traps.access_cell_reg (Traps.access_cell_reg s reg val false).1 reg x true).2
  = val.
Proof. apply access_cell_reg_round_trip. Qed.

Lemma access_cell_reg_write_read_witness :
  (Traps.access_cell_reg (Traps.access_cell_reg usr_mode_state 14 77 false).1
     14 0 true).2 = 77.
Proof.
  apply (access_cell_reg_write_read usr_mode_state 14 77 0).
  - lia.
  - simpl. lia.
  - intros _. reflexivity.
Defined.

(** X2.  What [access_cell_reg] never does: no access changes the PSR or
    the syndrome; a read changes neither the trap context nor any hardware
    register; an index outside r0..r15 is only reported on the console;
    and for r13/r14 in a mode without a bank the code knows (HYP, MON)
    nothing happens at all, so that a read leaves the caller's value as it
    was. *)
Theorem access_cell_reg_frame (s : Traps.trap_state) (reg val : Z) (is_read : bool) :
  Traps.cpsr (Traps.ctx (Traps.access_cell_reg s reg val is_read).1)
    = Traps.cpsr (Traps.ctx s)
  /\ Traps.hsr (Traps.ctx (Traps.access_cell_reg s reg val is_read).1)
     = Traps.hsr (Traps.ctx s)
  /\ Traps.ctx (Traps.access_cell_reg s reg val true).1 = Traps.ctx s
  /\ Traps.hw (Traps.access_cell_reg s reg val true).1 = Traps.hw s
  /\ (reg < 0 \/ 15 < reg ->
      Traps.access_cell_reg s reg val is_read
      = (Traps.printk (Traps.ERROR_write_register reg) s, val))
  /\ (13 <= reg <= 14 -> RegSpec.banked_mode (RegSpec.mode_of s) = false ->
      Traps.access_cell_reg s reg val is_read = (s, val)).
Proof.
  split; [apply access_cell_reg_keeps_psr|].
  split; [apply access_cell_reg_keeps_psr|].
  split; [apply access_cell_reg_read|].
  split; [apply access_cell_reg_read|].
  split; [apply access_cell_reg_invalid|].
  intros H Hmode. rewrite access_cell_reg_13_14 by exact H. cbv zeta.
  unfold RegSpec.banked_mode in Hmode.
  repeat match goal with
         | |- context [RegSpec.mode_of s =? ?m] =>
             destruct (RegSpec.mode_of s =? m)
         end; cbn [orb] in Hmode; try discriminate Hmode; reflexivity.
Qed.

(** * Further properties of traps.c: CP15 reads *)

Section Cp15Read.

Import Traps Cp15Spec RegSpec.




End Cp15Read.




(** * traps.c: CP15 64-bit emulation *)

Module Traps64.

Import Traps.

(** Modelled from the spec: [HSR_MATCH_MCRR_MRRC] of [asm/traps.h] is not
    part of the sources at hand.  It compares the [{op1, CRm}] fields of an
    MCRR/MRRC syndrome (Opc1 in bits 19:16, CRm in 4:1) with the given
    encoding. *)
Definition HSR_MCRR_MRRC_FIELDS : Z := Z.lor 0xf0000 0x1e.
Definition HSR_MATCH_MCRR_MRRC (hsr opc1 crm : Z) : bool :=
  Z.land hsr HSR_MCRR_MRRC_FIELDS =? Z.lor (Z.shiftl opc1 16) (Z.shiftl crm 1).

(** The state of the 32-bit emulation, the 64-bit system-register writes
    ([arm_write_sysreg_64], by encoding and value, oldest first) and the
    values handed to [gicv3_handle_sgir_write]. *)
Record trap_state64 := mk_trap_state64 {
  base : trap_state;
  sysreg64_writes : list (Z * Z * Z);
  sgir_writes : list Z
}.

Definition with_base (b : trap_state) (s : trap_state64) : trap_state64 :=
  mk_trap_state64 b (sysreg64_writes s) (sgir_writes s).

Definition CP15_64_PERFORM_WRITE (lo hi : Z) (s : trap_state64) (opc1 crm : Z)
  : trap_state64 * bool :=
  if HSR_MATCH_MCRR_MRRC (hsr (ctx (base s))) opc1 crm then
    (mk_trap_state64 (base s)
       (sysreg64_writes s ++ [(opc1, crm, Z.lor (Z.shiftl hi 32) lo)])
       (sgir_writes s), true)
  else (s, false).

(** [CONFIG_ARM_GIC_V3] is a build option; it is a parameter here.  The
    locals [lo] and [hi] are declared without an initialiser, and
    [access_cell_reg] does not always store into them; what they hold at
    first is given. *)
Definition arch_handle_cp15_64 (CONFIG_ARM_GIC_V3 : bool)
    (uninitialised_lo uninitialised_hi : Z) (s : trap_state64)
  : trap_state64 * trap_result :=
  let hsr0 := hsr (ctx (base s)) in
  let rt2 := Z.land (Z.shiftr hsr0 10) 0xf in
  let rt := Z.land (Z.shiftr hsr0 5) 0xf in
  let read := Z.land hsr0 1 in
  (* all regs are write-only / only trapped on writes *)
  if negb (read =? 0) then (s, TRAP_UNHANDLED)
  else
    let lo := uninitialised_lo in
    let hi := uninitialised_hi in
    let '(b, lo) := access_cell_reg (base s) rt lo true in
    let '(b, hi) := access_cell_reg b rt2 hi true in
    let s := with_base b s in
    let finish (s : trap_state64) :=
      (with_base (with_ctx (arch_skip_instruction (ctx (base s))) (base s)) s,
       TRAP_HANDLED) in
    if CONFIG_ARM_GIC_V3 && HSR_MATCH_MCRR_MRRC (hsr (ctx (base s))) 0 12 then
      (* ICC_SGI1R *)
      finish (mk_trap_state64 (base s) (sysreg64_writes s)
                (sgir_writes s ++ [Z.lor (Z.shiftl hi 32) lo]))
    else
      (* trapped if HCR.TVM is set *)
      let '(s, m0) := CP15_64_PERFORM_WRITE lo hi s 0 2 in   (* TTBR0 *)
      if m0 then finish s
      else
        let '(s, m1) := CP15_64_PERFORM_WRITE lo hi s 1 2 in (* TTBR1 *)
        if m1 then finish s
        else (s, TRAP_UNHANDLED).


End Traps64.

Section Cp15_64.

Import Traps Traps64.





End Cp15_64.

Module Cp15_64Spec.

Import Traps Traps64.





End Cp15_64Spec.

Section Cp15_64Write.

Import Traps Traps64 Cp15_64Spec.



End Cp15_64Write.





(** * gic-v2.c: the rest of the driver *)

Module GicDriver.

Import GicV2.

(** Modelled from the spec: the register map and the bit constants of
    [asm/gic_common.h] and [asm/gic_v2.h] are not part of the sources at
    hand.  The registers are named as the source names them; the bits are
    those of the GICv2 architecture (GICC_CTLR: group 1 enable in bit 0,
    EOI mode in bit 9; GICH_VMCR: group 0 enable in bit 0, EOI mode in bit
    9, priority mask in bits 31:27; GICH_HCR: enable in bit 0, underflow
    interrupt enable in bit 1; five implemented priority bits). *)
Inductive gic_reg : Type :=
  | GICD_ISENABLER | GICD_ICENABLER | GICD_ISACTIVER
  | GICD_ITARGETSR (offset : Z)
  | GICD_SGIR
  | GICC_CTLR | GICC_PMR | GICC_EOIR | GICC_DIR
  | GICH_HCR | GICH_VMCR | GICH_APR | GICH_VTR.

#[global] Instance gic_reg_eq_dec : EqDecision gic_reg.
Proof. solve_decision. Defined.

Definition GICC_CTLR_GRPEN1 : Z := Z.shiftl 1 0.
Definition GICC_CTLR_EOImode : Z := Z.shiftl 1 9.
Definition GICC_PMR_DEFAULT : Z := 0xf0.
Definition GICV_PMR_SHIFT : Z := 3.
Definition GICH_HCR_EN : Z := Z.shiftl 1 0.
Definition GICH_HCR_UIE : Z := Z.shiftl 1 1.
Definition GICH_VMCR_PMR_SHIFT : Z := 27.
Definition GICH_VMCR_EN0 : Z := Z.shiftl 1 0.
Definition GICH_VMCR_EOImode : Z := Z.shiftl 1 9.
Definition EINVAL : Z := 22.

(** The interrupt controller as the driver sees it: the list-register
    window, the other registers (what a read returns), every MMIO write in
    order, the driver's [gic_num_lr], and the CPUs handed to
    [gic_probe_cpu_id]. *)
Record gic := mk_gic {
  window : gich;
  mmio : gic_reg -> Z;
  mmio_writes : list (gic_reg * Z);
  gic_num_lr : Z;
  probed : list Z
}.

Definition mmio_read32 (g : gic) (r : gic_reg) : Z := mmio g r.

(** A write is logged and, for a register that holds what was written to
    it, read back later.  (For the set-enable, clear-enable, SGI, EOI and
    deactivate registers only the log matters; the driver never reads
    them.) *)
Definition mmio_write32 (r : gic_reg) (v : Z) (g : gic) : gic :=
  mk_gic (window g) (<[r := v]> (mmio g)) (mmio_writes g ++ [(r, v)])
         (gic_num_lr g) (probed g).

Definition with_window (w : gich) (g : gic) : gic :=
  mk_gic w (mmio g) (mmio_writes g) (gic_num_lr g) (probed g).

(** The [for (n = 0; n < gic_num_lr; n++) gic_write_lr(n, 0)] loop, from
    [n] for [count] more turns. *)
Fixpoint clear_list_registers (count : nat) (n : Z) (w : gich) : gich :=
  match count with
  | O => w
  | S count => clear_list_registers count (n + 1) (gic_write_lr n 0 w)
  end.

Definition gic_clear_pending_irqs (g : gic) : gic :=
  (* Clear list registers. *)
  let g := with_window
             (clear_list_registers (Z.to_nat (gic_num_lr g)) 0 (window g)) g in
  (* Clear active priority bits. *)
  mmio_write32 GICH_APR 0 g.

(** The loop of [gic_cpu_reset] over the PPIs, from [i] for [count] more
    turns. *)
Fixpoint deactivate_ppis (active : Z) (count : nat) (i : Z) (g : gic) : gic :=
  match count with
  | O => g
  | S count =>
      deactivate_ppis active count (i + 1)
        (if Z.testbit active i then mmio_write32 GICC_DIR i g else g)
  end.

(** [cpu_data->cell == &root_cell] and the platform's [maintenance_irq]
    are given. *)
Definition gic_cpu_reset (mnt_irq : Z) (in_root_cell : bool) (is_shutdown : bool)
    (g : gic) : gic :=
  let root_shutdown := is_shutdown && in_root_cell in
  let gich_vmcr := 0 in
  let g := gic_clear_pending_irqs g in
  (* Deactivate all PPIs *)
  let active := mmio_read32 g GICD_ISACTIVER in
  let g := deactivate_ppis active 16 16 g in
  (* Ensure all IPIs and the maintenance PPI are enabled *)
  let g := mmio_write32 GICD_ISENABLER
             (Z.lor 0x0000ffff (Z.shiftl 1 mnt_irq)) g in
  (* Disable PPIs, except for the maintenance interrupt.  On shutdown, the
     root cell expects to find all its PPIs still enabled - except for the
     maintenance interrupt we used. *)
  let g := mmio_write32 GICD_ICENABLER
             (if root_shutdown then Z.shiftl 1 mnt_irq
              else Z.land 0xffff0000 (u32 (Z.lnot (Z.shiftl 1 mnt_irq)))) g in
  let g := if is_shutdown then mmio_write32 GICH_HCR 0 g else g in
  let '(g, gich_vmcr) :=
    if root_shutdown then
      let gich_vmcr := mmio_read32 g GICH_VMCR in
      let gicc_ctlr := 0 in
      let gicc_pmr :=
        u32 (Z.shiftl (Z.shiftr gich_vmcr GICH_VMCR_PMR_SHIFT) GICV_PMR_SHIFT) in
      let gicc_ctlr :=
        if negb (Z.land gich_vmcr GICH_VMCR_EN0 =? 0)
        then Z.lor gicc_ctlr GICC_CTLR_GRPEN1 else gicc_ctlr in
      let gicc_ctlr :=
        if negb (Z.land gich_vmcr GICH_VMCR_EOImode =? 0)
        then Z.lor gicc_ctlr GICC_CTLR_EOImode else gicc_ctlr in
      let g := mmio_write32 GICC_CTLR gicc_ctlr g in
      let g := mmio_write32 GICC_PMR gicc_pmr g in
      (g, 0)
    else (g, gich_vmcr) in
  mmio_write32 GICH_VMCR gich_vmcr g.

Definition gic_cpu_init (mnt_irq : Z) (cpu_id : Z) (g : gic) : gic * Z :=
  (* Ensure all IPIs and the maintenance PPI are enabled. *)
  let g := mmio_write32 GICD_ISENABLER
             (Z.lor 0x0000ffff (Z.shiftl 1 mnt_irq)) g in
  let cell_gicc_ctlr := mmio_read32 g GICC_CTLR in
  let cell_gicc_pmr := mmio_read32 g GICC_PMR in
  let g := mmio_write32 GICC_CTLR (Z.lor GICC_CTLR_GRPEN1 GICC_CTLR_EOImode) g in
  let g := mmio_write32 GICC_PMR GICC_PMR_DEFAULT g in
  let vtr := mmio_read32 g GICH_VTR in
  let g := mk_gic (window g) (mmio g) (mmio_writes g)
                  (u32 (Z.land vtr 0x3f + 1)) (probed g) in
  (* VMCR only contains 5 bits of priority *)
  let vmcr :=
    u32 (Z.shiftl (Z.shiftr cell_gicc_pmr GICV_PMR_SHIFT) GICH_VMCR_PMR_SHIFT) in
  let vmcr :=
    if negb (Z.land cell_gicc_ctlr GICC_CTLR_GRPEN1 =? 0)
    then Z.lor vmcr GICH_VMCR_EN0 else vmcr in
  let vmcr :=
    if negb (Z.land cell_gicc_ctlr GICC_CTLR_EOImode =? 0)
    then Z.lor vmcr GICH_VMCR_EOImode else vmcr in
  let g := mmio_write32 GICH_VMCR vmcr g in
  let g := mmio_write32 GICH_HCR GICH_HCR_EN g in
  (* Clear pending virtual IRQs in case anything is left from previous
     use. *)
  let g := gic_clear_pending_irqs g in
  (* Register ourselves into the CPU itf map *)
  let g := mk_gic (window g) (mmio g) (mmio_writes g) (gic_num_lr g)
                  (probed g ++ [cpu_id]) in
  (g, 0).

Definition gic_eoi_irq (irq_id : Z) (deactivate : bool) (g : gic) : gic :=
  let g := mmio_write32 GICC_EOIR irq_id g in
  if deactivate then mmio_write32 GICC_DIR irq_id g else g.

(** [gic_targets_in_cell] and the first CPU's entry of [target_cpu_map]
    belong to gic_common.c, which is not part of the sources at hand; they
    are given. *)
Definition gic_adjust_irq_target (gic_targets_in_cell : Z -> bool)
    (first_cpu_target : Z) (irq_id : Z) (g : gic) : gic :=
  let itargetsr := GICD_ITARGETSR (Z.land irq_id (Z.lnot 0x3)) in
  let targets := mmio_read32 g itargetsr in
  let shift := (irq_id mod 4) * 8 in
  if gic_targets_in_cell (Z.land (Z.shiftr targets shift) 0xff) then g
  else
    let targets := Z.land targets (u32 (Z.lnot (Z.shiftl 0xff shift))) in
    let targets := Z.lor targets (u32 (Z.shiftl first_cpu_target shift)) in
    mmio_write32 itargetsr targets g.

Definition gic_send_sgi (sgi : Control.sgi) (g : gic) : gic * Z :=
  if negb (is_sgi (Control.id sgi)) then (g, - EINVAL)
  else
    let val :=
      Z.lor (Z.lor (Z.shiftl (Z.land (Control.routing_mode sgi) 0x3) 24)
                   (Z.shiftl (Z.land (Control.targets sgi) 0xff) 16))
            (Z.land (Control.id sgi) 0xf) in
    (mmio_write32 GICD_SGIR val g, 0).

Definition gic_enable_maint_irq (enable : bool) (g : gic) : gic :=
  let hcr := mmio_read32 g GICH_HCR in
  let hcr :=
    if enable then Z.lor hcr GICH_HCR_UIE
    else Z.land hcr (u32 (Z.lnot GICH_HCR_UIE)) in
  mmio_write32 GICH_HCR hcr g.

(** [gic_inject_irq] on the driver's state. *)
Definition gic_inject (g : gic) (irq_id : Z) : gic * Z :=
  let '(w, r) := gic_inject_irq (gic_num_lr g) (window g) irq_id in
  (with_window w g, r).

End GicDriver.


Section GicWindow.

Import GicV2 GicSpec.

Lemma test_bit_words (i e0 e1 : Z) :
  0 <= i ->
  test_bit i [e0; e1] =
  if i <? 32 then Z.testbit e0 i
  else if i <? 64 then Z.testbit e1 (i - 32) else false.
Proof.
  intros Hi. unfold test_bit.
  destruct (Z.ltb_spec i 32); [|destruct (Z.ltb_spec i 64)].
  - rewrite Z.div_small, Z.mod_small by lia. reflexivity.
  - assert (i / 32 = 1) as -> by (Z.div_mod_to_equations; lia).
    assert (i mod 32 = i - 32) as -> by (Z.div_mod_to_equations; lia).
    reflexivity.
  - assert (2 <= i / 32) by (Z.div_mod_to_equations; lia).
    rewrite lookup_ge_None_2 by (cbn [length]; lia).
    apply Z.testbit_0_l.
Qed.

Lemma set_status_bit_eq (word bit : Z) (b : bool) :
  0 <= bit -> Z.testbit (set_status_bit word bit b) bit = b.
Proof.
  intros H. unfold set_status_bit. destruct b.
  - apply Z.setbit_eq. exact H.
  - apply Z.clearbit_eq.
Qed.

Lemma set_status_bit_neq (word bit i : Z) (b : bool) :
  0 <= bit -> bit <> i ->
  Z.testbit (set_status_bit word bit b) i = Z.testbit word i.
Proof.
  intros H0 H. unfold set_status_bit. destruct b.
  - apply Z.setbit_neq; assumption.
  - apply Z.clearbit_neq. exact H.
Qed.

(** The status bit of list register [i] after a write to list register
    [f]: the hardware's verdict on the new content for [f] itself, and no
    change for any other. *)
Lemma is_empty_slot_write (w : gich) (f i v : Z) :
  0 <= f -> 0 <= i ->
  is_empty_slot (gic_write_lr f v w) i =
  if bool_decide (i = f /\ f < 64) then lr_is_empty v else is_empty_slot w i.
Proof.
  intros Hf Hi. unfold is_empty_slot. rewrite !test_bit_words by lia.
  unfold gic_write_lr. cbn [GICH_ELSR0 GICH_ELSR1].
  case_bool_decide as Hd.
  - destruct Hd as [-> Hd].
    destruct (Z.ltb_spec f 32).
    + apply set_status_bit_eq. lia.
    + destruct (Z.ltb_spec f 64); [|lia].
      destruct (Z.leb_spec 32 f); [|lia]. cbn [andb].
      apply set_status_bit_eq. lia.
  - destruct (Z.ltb_spec i 32); [|destruct (Z.ltb_spec i 64); [|reflexivity]].
    + destruct (Z.ltb_spec f 32); [|reflexivity].
      apply set_status_bit_neq; lia.
    + destruct (Z.leb_spec 32 f); cbn [andb]; [|reflexivity].
      destruct (Z.ltb_spec f 64); [|reflexivity].
      apply set_status_bit_neq; lia.
Qed.

(** What list register [i] reads after a write to list register [f]. *)
Lemma gic_read_lr_write (w : gich) (f i v : Z) :
  0 <= f -> 0 <= i ->
  gic_read_lr (gic_write_lr f v w) i =
  if bool_decide (i = f /\ (Z.to_nat f < length (GICH_LR w))%nat) then v
  else gic_read_lr w i.
Proof.
  intros Hf Hi. unfold gic_read_lr, gic_write_lr. cbn [GICH_LR].
  case_bool_decide as Hd.
  - destruct Hd as [-> Hd]. rewrite list_lookup_insert_eq by exact Hd. reflexivity.
  - destruct (decide (i = f)) as [->|Hne].
    + rewrite list_insert_ge by lia. reflexivity.
    + rewrite list_lookup_insert_ne by lia. reflexivity.
Qed.

Lemma gic_write_lr_length (w : gich) (f v : Z) :
  length (GICH_LR (gic_write_lr f v w)) = length (GICH_LR w).
Proof. unfold gic_write_lr. cbn [GICH_LR]. apply length_insert. Qed.

End GicWindow.

Module GicInvariant.

Import GicV2 GicSpec.

Definition virt_id_of (w : gich) (i : Z) : Z :=
  Z.land (gic_read_lr w i) GICH_LR_VIRT_ID_MASK.

(** No two occupied list registers among the first [gic_num_lr] carry the
    same virtual id. *)
Definition distinct_virt_ids (gic_num_lr : Z) (w : gich) : bool :=
  forallb (λ i,
    forallb (λ j,
      (i =? j) || is_empty_slot w i || is_empty_slot w j
      || negb (virt_id_of w i =? virt_id_of w j))
      (lr_indices gic_num_lr))
    (lr_indices gic_num_lr).

End GicInvariant.

Section GicInjectInvariant.

Import GicV2 GicSpec GicInvariant.

Lemma distinct_virt_ids_spec (n : Z) (w : gich) :
  distinct_virt_ids n w = true <->
  forall i j, 0 <= i < n -> 0 <= j < n -> i <> j ->
    is_empty_slot w i = false -> is_empty_slot w j = false ->
    virt_id_of w i <> virt_id_of w j.
Proof.
  unfold distinct_virt_ids, lr_indices. rewrite forallb_forall. split.
  - intros H i j Hi Hj Hij Ei Ej.
    specialize (H i). rewrite forallb_forall in H.
    assert (In i (seqZ 0 n)) as Ii by (apply list_elem_of_In, elem_of_seqZ; lia).
    assert (In j (seqZ 0 n)) as Ij by (apply list_elem_of_In, elem_of_seqZ; lia).
    specialize (H Ii j Ij). rewrite Ei, Ej in H.
    destruct (Z.eqb_spec i j); [contradiction|]. cbn [orb] in H.
    destruct (Z.eqb_spec (virt_id_of w i) (virt_id_of w j)); [discriminate H|].
    assumption.
  - intros H i Ii. rewrite forallb_forall. intros j Ij.
    apply list_elem_of_In, elem_of_seqZ in Ii, Ij.
    destruct (Z.eqb_spec i j); [reflexivity|]. cbn [orb].
    destruct (is_empty_slot w i) eqn:Ei; [reflexivity|].
    destruct (is_empty_slot w j) eqn:Ej; [reflexivity|]. cbn [orb].
    destruct (Z.eqb_spec (virt_id_of w i) (virt_id_of w j)) as [E|E];
      [|reflexivity].
    exfalso. apply (H i j); try assumption; lia.
Qed.

Lemma already_listed_false (n : Z) (w : gich) (irq_id i : Z) :
  already_listed n w irq_id = false -> 0 <= i < n ->
  is_empty_slot w i = false -> virt_id_of w i <> irq_id.
Proof.
  unfold already_listed, lr_indices. intros H Hi Ei E.
  assert (existsb (λ i, negb (is_empty_slot w i) && holds_virt_id w irq_id i)
                  (seqZ 0 n) = true) as Ht; [|congruence].
  apply existsb_exists. exists i. split.
  - apply list_elem_of_In, elem_of_seqZ. lia.
  - rewrite Ei. unfold holds_virt_id. fold (virt_id_of w i).
    rewrite E, Z.eqb_refl. reflexivity.
Qed.

Lemma first_empty_Some (n : Z) (w : gich) (f : Z) :
  first_empty n w = Some f ->
  0 <= f < n /\ f < 64 /\ is_empty_slot w f = true.
Proof.
  unfold first_empty, lr_indices. intros H. apply find_some in H as [Hin He].
  apply list_elem_of_In, elem_of_seqZ in Hin.
  split; [lia|]. split; [|exact He].
  unfold is_empty_slot in He. rewrite test_bit_words in He by lia.
  destruct (Z.ltb_spec f 32); [lia|].
  destruct (Z.ltb_spec f 64); [lia|discriminate He].
Qed.

(** After a write of the entry for [irq_id] into list register [f], the
    walk finds the id. *)
Lemma already_listed_after_write (n : Z) (w : gich) (irq_id f : Z) :
  0 <= irq_id < 1024 -> 0 <= f < n -> f < 64 ->
  (Z.to_nat f < length (GICH_LR w))%nat ->
  already_listed n (gic_write_lr f (lr_entry irq_id) w) irq_id = true.
Proof.
  intros Hid Hf H64 Hlen. unfold already_listed, lr_indices.
  apply existsb_exists. exists f. split.
  - apply list_elem_of_In, elem_of_seqZ. lia.
  - rewrite is_empty_slot_write by lia.
    rewrite bool_decide_eq_true_2 by lia.
    rewrite lr_entry_not_empty by lia. cbn [negb andb].
    unfold holds_virt_id. rewrite gic_read_lr_write by lia.
    rewrite bool_decide_eq_true_2 by (split; [reflexivity|exact Hlen]).
    rewrite lr_entry_virt_id by exact Hid. apply Z.eqb_refl.
Qed.

Lemma distinct_virt_ids_after_write (n : Z) (w : gich) (irq_id f : Z) :
  0 <= irq_id < 1024 -> 0 <= f < n -> f < 64 ->
  (Z.to_nat f < length (GICH_LR w))%nat ->
  already_listed n w irq_id = false ->
  distinct_virt_ids n w = true ->
  distinct_virt_ids n (gic_write_lr f (lr_entry irq_id) w) = true.
Proof.
  intros Hid Hf H64 Hlen HA HD. rewrite distinct_virt_ids_spec in HD |- *.
  intros i j Hi Hj Hij Ei Ej.
  rewrite is_empty_slot_write in Ei, Ej by lia.
  unfold virt_id_of. rewrite !gic_read_lr_write by lia.
  assert (forall k, 0 <= k < n -> is_empty_slot w k = false ->
          Z.land (gic_read_lr w k) GICH_LR_VIRT_ID_MASK <> irq_id) as Hold.
  { intros k Hk Ek. exact (already_listed_false n w irq_id k HA Hk Ek). }
  destruct (decide (i = f)) as [->|Hif].
  - rewrite bool_decide_eq_false_2 in Ej by lia.
    rewrite (bool_decide_eq_false_2 (j = f /\ _)) by lia.
    rewrite bool_decide_eq_true_2 by (split; [reflexivity|exact Hlen]).
    rewrite lr_entry_virt_id by exact Hid.
    intros E. apply (Hold j Hj Ej). symmetry. exact E.
  - rewrite bool_decide_eq_false_2 in Ei by lia.
    rewrite (bool_decide_eq_false_2 (i = f /\ _)) by lia.
    destruct (decide (j = f)) as [->|Hjf].
    + rewrite bool_decide_eq_true_2 by (split; [reflexivity|exact Hlen]).
      rewrite lr_entry_virt_id by exact Hid. apply Hold; assumption.
    + rewrite bool_decide_eq_false_2 in Ej by lia.
      rewrite (bool_decide_eq_false_2 (j = f /\ _)) by lia.
      apply HD; assumption.
Qed.

End GicInjectInvariant.

(** Two list registers, the second one holding interrupt 33. *)
Definition two_lr_window : GicV2.gich :=
  GicV2.mk_gich 0x1 0 [0; GicSpec.lr_entry 33].

(** X5.  [gic_inject_irq] never lists an interrupt twice: if no two
    occupied list registers carry the same virtual id before the call, none
    do after it, whatever the call returns; a call that returns anything
    but 0 leaves the window as it was; and after a call that returned 0 a
    second call for the same id returns [-EEXIST] and writes nothing.  (The
    ids are interrupt ids, below 1024, and the hardware has the
    [gic_num_lr] list registers the driver counts.) *)
Theorem gic_inject_irq_never_lists_twice
    (gic_num_lr : Z) (w : GicV2.gich) (irq_id : Z) :
  0 <= irq_id < 1024 ->
  gic_num_lr <= Z.of_nat (length (GicV2.GICH_LR w)) ->
  GicInvariant.distinct_virt_ids gic_num_lr w = true ->
  let r := GicV2.gic_inject_irq gic_num_lr w irq_id in
  GicInvariant.distinct_virt_ids gic_num_lr r.1 = true
  /\ (r.2 <> 0 -> r.1 = w)
  /\ (r.2 = 0 ->
      GicV2.gic_inject_irq gic_num_lr r.1 irq_id = (r.1, - GicV2.EEXIST)).
Proof.
  intros Hid Hlen HD. cbv zeta. rewrite gic_inject_irq_spec.
  destruct (GicSpec.already_listed gic_num_lr w irq_id) eqn:HA.
  { cbn [fst snd]. split; [exact HD|]. split; [reflexivity|].
    intros E. discriminate E. }
  destruct (GicSpec.first_empty gic_num_lr w) as [f|] eqn:HF.
  2: { cbn [fst snd]. split; [exact HD|]. split; [reflexivity|].
       intros E. discriminate E. }
  apply first_empty_Some in HF as (Hf & H64 & He). cbn [fst snd].
  split; [|split].
  - apply distinct_virt_ids_after_write; try assumption; lia.
  - intros E. contradiction.
  - intros _. rewrite gic_inject_irq_spec.
    rewrite already_listed_after_write by (try assumption; lia).
    reflexivity.
Qed.

Lemma gic_inject_irq_never_lists_twice_witness :
  let r := GicV2.gic_inject_irq 2 two_lr_window 34 in
  GicInvariant.distinct_virt_ids 2 r.1 = true
  /\ (r.2 <> 0 -> r.1 = two_lr_window)
  /\ (r.2 = 0 ->
      GicV2.gic_inject_irq 2 r.1 34 = (r.1, - GicV2.EEXIST)).
Proof.
  apply (gic_inject_irq_never_lists_twice 2 two_lr_window 34).
  - lia.
  - vm_compute. discriminate.
  - vm_compute. reflexivity.
Defined.

Section GicDriverFacts.

Import GicV2 GicSpec GicDriver.

Lemma testbit_u32 (a i : Z) :
  Z.testbit (u32 a) i = (i <? 32) && Z.testbit a i.
Proof.
  unfold u32. destruct (Z.ltb_spec i 32).
  - destruct (Z_lt_le_dec i 0).
    + rewrite !Z.testbit_neg_r by lia. reflexivity.
    + apply Z.mod_pow2_bits_low. lia.
  - apply Z.mod_pow2_bits_high. lia.
Qed.

Lemma u32_small (a : Z) : 0 <= a < 2 ^ 32 -> u32 a = a.
Proof. intros H. unfold u32. apply Z.mod_small. exact H. Qed.

Lemma tb_0xfff i : Z.testbit 0xfff i = (0 <=? i) && (i <? 0 + 12).
Proof. exact (testbit_field 12 0 i ltac:(lia) ltac:(lia)). Qed.
Lemma tb_0xf8 i : Z.testbit 0xf8 i = (3 <=? i) && (i <? 3 + 5).
Proof. exact (testbit_field 5 3 i ltac:(lia) ltac:(lia)). Qed.
Lemma tb_0xffff i : Z.testbit 0xffff i = (0 <=? i) && (i <? 0 + 16).
Proof. exact (testbit_field 16 0 i ltac:(lia) ltac:(lia)). Qed.
Lemma tb_0xffff0000 i : Z.testbit 0xffff0000 i = (16 <=? i) && (i <? 16 + 16).
Proof. exact (testbit_field 16 16 i ltac:(lia) ltac:(lia)). Qed.

Lemma lr_is_empty_0 : lr_is_empty 0 = true.
Proof. reflexivity. Qed.

(** The loop that clears the list registers [n], [n+1], ... : they read
    zero and count as empty afterwards; every other one is as before. *)
Lemma clear_list_registers_spec (count : nat) :
  forall (n : Z) (w : gich) (i : Z), 0 <= n -> 0 <= i ->
  is_empty_slot (clear_list_registers count n w) i
  = (if bool_decide (n <= i < n + Z.of_nat count /\ i < 64) then true
     else is_empty_slot w i)
  /\ gic_read_lr (clear_list_registers count n w) i
     = (if bool_decide (n <= i < n + Z.of_nat count) then 0 else gic_read_lr w i).
Proof.
  induction count as [|count IH]; intros n w i Hn Hi.
  - cbn [clear_list_registers].
    rewrite !bool_decide_eq_false_2 by lia. split; reflexivity.
  - cbn [clear_list_registers].
    destruct (IH (n + 1) (gic_write_lr n 0 w) i ltac:(lia) Hi) as [-> ->].
    rewrite is_empty_slot_write, gic_read_lr_write by lia.
    split.
    + repeat case_bool_decide; try reflexivity; try lia.
    + repeat case_bool_decide; try reflexivity; try lia.
      assert (i = n) as -> by lia.
      unfold gic_read_lr. rewrite lookup_ge_None_2 by lia. reflexivity.
Qed.

Lemma clear_list_registers_length (count : nat) :
  forall (n : Z) (w : gich),
  length (GICH_LR (clear_list_registers count n w)) = length (GICH_LR w).
Proof.
  induction count as [|count IH]; intros n w; cbn [clear_list_registers].
  - reflexivity.
  - rewrite IH. apply gic_write_lr_length.
Qed.

Lemma mmio_write32_same (r : gic_reg) (v : Z) (g : gic) :
  mmio (mmio_write32 r v g) r = v.
Proof. unfold mmio_write32. cbn [mmio]. apply fn_lookup_insert. Qed.

Lemma mmio_write32_other (r r' : gic_reg) (v : Z) (g : gic) :
  r <> r' -> mmio (mmio_write32 r v g) r' = mmio g r'.
Proof. intros H. unfold mmio_write32. cbn [mmio]. apply fn_lookup_insert_ne. exact H. Qed.

(** With every list register empty, an injection takes list register 0. *)
Lemma gic_inject_irq_all_empty (n : Z) (w : gich) (irq_id : Z) :
  1 <= n -> (forall i, 0 <= i < n -> is_empty_slot w i = true) ->
  gic_inject_irq n w irq_id = (gic_write_lr 0 (lr_entry irq_id) w, 0).
Proof.
  intros Hn He. rewrite gic_inject_irq_spec.
  assert (already_listed n w irq_id = false) as ->.
  { unfold already_listed, lr_indices.
    destruct (existsb _ _) eqn:E; [|reflexivity].
    apply existsb_exists in E as (i & Hin & Hi).
    apply list_elem_of_In, elem_of_seqZ in Hin.
    rewrite He in Hi by lia. discriminate Hi. }
  assert (first_empty n w = Some 0) as ->; [|reflexivity].
  unfold first_empty, lr_indices. rewrite seqZ_cons by lia.
  cbn [find]. rewrite He by lia. reflexivity.
Qed.

End GicDriverFacts.

(** X6.  [gic_cpu_init] always returns 0 and leaves the driver ready for
    injection: [gic_num_lr] is the count of the type register, between 1
    and 64; each of these list registers reads zero and counts as empty,
    whatever they held before, so that a first injection of any interrupt
    goes into list register 0; the hypervisor interface is enabled, the
    active priorities are cleared, the physical CPU interface has group 1
    and EOI mode set and the default priority mask, and the CPU is handed
    to [gic_probe_cpu_id]. *)
Theorem gic_cpu_init_ready (mnt_irq cpu_id : Z) (g : GicDriver.gic) :
  let r := GicDriver.gic_cpu_init mnt_irq cpu_id g in
  r.2 = 0
  /\ GicDriver.gic_num_lr r.1 = Z.land (GicDriver.mmio g GicDriver.GICH_VTR) 0x3f + 1
  /\ 1 <= GicDriver.gic_num_lr r.1 <= 64
  /\ (forall i, 0 <= i < GicDriver.gic_num_lr r.1 ->
      GicSpec.is_empty_slot (GicDriver.window r.1) i = true
      /\ GicV2.gic_read_lr (GicDriver.window r.1) i = 0)
  /\ (forall irq_id,
      GicDriver.gic_inject r.1 irq_id
      = (GicDriver.with_window
           (GicV2.gic_write_lr 0 (GicSpec.lr_entry irq_id) (GicDriver.window r.1))
           r.1, 0))
  /\ GicDriver.mmio r.1 GicDriver.GICH_HCR = GicDriver.GICH_HCR_EN
  /\ GicDriver.mmio r.1 GicDriver.GICH_APR = 0
  /\ GicDriver.mmio r.1 GicDriver.GICC_CTLR
     = Z.lor GicDriver.GICC_CTLR_GRPEN1 GicDriver.GICC_CTLR_EOImode
  /\ GicDriver.mmio r.1 GicDriver.GICC_PMR = GicDriver.GICC_PMR_DEFAULT
  /\ GicDriver.probed r.1 = GicDriver.probed g ++ [cpu_id].
Proof.
  cbv zeta.
  assert (0 <= Z.land (GicDriver.mmio g GicDriver.GICH_VTR) 0x3f < 64) as Hn.
  { change 0x3f with (Z.ones 6). rewrite Z.land_ones by lia.
    apply Z.mod_pos_bound. lia. }
  unfold GicDriver.gic_cpu_init, GicDriver.gic_clear_pending_irqs,
    GicDriver.with_window, GicDriver.mmio_read32.
  cbn [fst snd GicDriver.gic_num_lr GicDriver.window GicDriver.mmio
       GicDriver.probed GicDriver.mmio_write32 GicDriver.mmio_writes].
  rewrite !fn_lookup_insert.
  rewrite ?fn_lookup_insert_ne by discriminate.
  rewrite !fn_lookup_insert.
  rewrite ?fn_lookup_insert_ne by discriminate.
  rewrite !fn_lookup_insert.
  rewrite (u32_small (Z.land _ 0x3f + 1)) by lia.
  set (n := Z.land (GicDriver.mmio g GicDriver.GICH_VTR) 0x3f + 1) in *.
  assert (forall i, 0 <= i < n ->
          GicSpec.is_empty_slot
            (GicDriver.clear_list_registers (Z.to_nat n) 0 (GicDriver.window g)) i
          = true
          /\ GicV2.gic_read_lr
               (GicDriver.clear_list_registers (Z.to_nat n) 0 (GicDriver.window g)) i
             = 0) as Hclear.
  { intros i Hi.
    destruct (clear_list_registers_spec (Z.to_nat n) 0 (GicDriver.window g) i
                ltac:(lia) ltac:(lia)) as [-> ->].
    rewrite !bool_decide_eq_true_2 by lia. split; reflexivity. }
  split; [reflexivity|]. split; [reflexivity|]. split; [lia|].
  split; [exact Hclear|]. split.
  { intros irq_id. unfold GicDriver.gic_inject.
    cbn [GicDriver.gic_num_lr GicDriver.window].
    rewrite gic_inject_irq_all_empty; [reflexivity|lia|].
    intros i Hi. apply Hclear. exact Hi. }
  repeat split; reflexivity.
Qed.

Section GicReset.

Import GicV2 GicSpec GicDriver.

(** The loop over the PPIs writes the deactivate register once for each
    active one, in ascending order, and touches nothing else. *)
Lemma deactivate_ppis_spec (active : Z) (count : nat) :
  forall (i : Z) (g : gic),
  let g' := deactivate_ppis active count i g in
  window g' = window g
  /\ gic_num_lr g' = gic_num_lr g
  /\ probed g' = probed g
  /\ (forall r, r <> GICC_DIR -> mmio g' r = mmio g r)
  /\ mmio_writes g'
     = mmio_writes g
       ++ map (λ k, (GICC_DIR, k))
              (List.filter (Z.testbit active) (seqZ i (Z.of_nat count))).
Proof.
  induction count as [|count IH]; intros i g; cbv zeta.
  - cbn [deactivate_ppis]. rewrite seqZ_nil by lia. cbn [List.filter map].
    rewrite app_nil_r. repeat split; reflexivity.
  - cbn [deactivate_ppis]. rewrite seqZ_succ. cbn [List.filter].
    match goal with
    | |- context [deactivate_ppis active count (i + 1) ?h] =>
        destruct (IH (i + 1) h) as (-> & -> & -> & Hm & ->)
    end.
    destruct (Z.testbit active i).
    + cbn [window gic_num_lr probed mmio_write32 mmio_writes map].
      rewrite <- app_assoc. cbn [app].
      repeat split; try reflexivity.
      intros r Hr. rewrite Hm by exact Hr.
      apply mmio_write32_other. congruence.
    + repeat split; try reflexivity. exact Hm.
Qed.

(** The value [gic_cpu_reset] writes to the clear-enable register. *)
Definition reset_disable_mask (mnt_irq : Z) (root_shutdown : bool) : Z :=
  if root_shutdown then Z.shiftl 1 mnt_irq
  else Z.land 0xffff0000 (u32 (Z.lnot (Z.shiftl 1 mnt_irq))).

(** The physical CPU interface settings a virtual machine control word
    stands for. *)
Definition ctlr_of_vmcr (vmcr : Z) : Z :=
  Z.lor (if Z.testbit vmcr 0 then GICC_CTLR_GRPEN1 else 0)
        (if Z.testbit vmcr 9 then GICC_CTLR_EOImode else 0).

Definition pmr_of_vmcr (vmcr : Z) : Z :=
  u32 (Z.shiftl (Z.shiftr vmcr GICH_VMCR_PMR_SHIFT) GICV_PMR_SHIFT).

Lemma land_pow2_eqb (a k : Z) :
  0 <= k -> negb (Z.land a (Z.shiftl 1 k) =? 0) = Z.testbit a k.
Proof.
  intros Hk. destruct (Z.testbit a k) eqn:E.
  - destruct (Z.eqb_spec (Z.land a (Z.shiftl 1 k)) 0) as [H|H]; [|reflexivity].
    apply (f_equal (λ x, Z.testbit x k)) in H.
    rewrite Z.land_spec, testbit_pow2_b, Z.eqb_refl, E, Z.testbit_0_l in H by lia.
    discriminate H.
  - replace (Z.land a (Z.shiftl 1 k)) with 0; [reflexivity|].
    symmetry. apply Z.bits_inj'. intros i Hi.
    rewrite Z.land_spec, testbit_pow2_b, Z.testbit_0_l by lia.
    destruct (Z.eqb_spec k i) as [<-|]; [rewrite E|]; apply andb_false_r || reflexivity.
Qed.

(** Every MMIO write of [gic_cpu_reset], in order, and what it leaves
    behind. *)
Lemma gic_cpu_reset_trace (mnt_irq : Z) (in_root_cell is_shutdown : bool)
    (g : gic) :
  let g' := gic_cpu_reset mnt_irq in_root_cell is_shutdown g in
  let root_shutdown := is_shutdown && in_root_cell in
  window g'
  = clear_list_registers (Z.to_nat (gic_num_lr g)) 0 (window g)
  /\ gic_num_lr g' = gic_num_lr g
  /\ probed g' = probed g
  /\ mmio_writes g'
     = mmio_writes g
       ++ [(GICH_APR, 0)]
       ++ map (λ k, (GICC_DIR, k))
              (List.filter (Z.testbit (mmio g GICD_ISACTIVER)) (seqZ 16 16))
       ++ [(GICD_ISENABLER, Z.lor 0x0000ffff (Z.shiftl 1 mnt_irq));
           (GICD_ICENABLER, reset_disable_mask mnt_irq root_shutdown)]
       ++ (if is_shutdown then [(GICH_HCR, 0)] else [])
       ++ (if root_shutdown
           then [(GICC_CTLR, ctlr_of_vmcr (mmio g GICH_VMCR));
                 (GICC_PMR, pmr_of_vmcr (mmio g GICH_VMCR))]
           else [])
       ++ [(GICH_VMCR, 0)]
  /\ mmio g' GICH_VMCR = 0
  /\ mmio g' GICH_APR = 0
  /\ mmio g' GICH_HCR = (if is_shutdown then 0 else mmio g GICH_HCR)
  /\ mmio g' GICC_CTLR
     = (if root_shutdown then ctlr_of_vmcr (mmio g GICH_VMCR)
        else mmio g GICC_CTLR)
  /\ mmio g' GICC_PMR
     = (if root_shutdown then pmr_of_vmcr (mmio g GICH_VMCR)
        else mmio g GICC_PMR)
  /\ mmio g' GICD_ISENABLER = Z.lor 0x0000ffff (Z.shiftl 1 mnt_irq)
  /\ mmio g' GICD_ICENABLER = reset_disable_mask mnt_irq root_shutdown.
Proof.
  cbv zeta. unfold gic_cpu_reset, gic_clear_pending_irqs, mmio_read32.
  set (g0 := mmio_write32 GICH_APR 0 (with_window _ g)).
  assert (mmio g0 GICD_ISACTIVER = mmio g GICD_ISACTIVER) as ->.
  { unfold g0. rewrite mmio_write32_other by discriminate. reflexivity. }
  destruct (deactivate_ppis_spec (mmio g GICD_ISACTIVER) 16 16 g0)
    as (Hw & Hn & Hp & Hm & Hl).
  set (g1 := deactivate_ppis (mmio g GICD_ISACTIVER) 16 16 g0) in *.
  assert (forall r, r <> GICC_DIR -> r <> GICH_APR -> mmio g1 r = mmio g r) as Hm1.
  { intros r H1 H2. rewrite Hm by exact H1. unfold g0.
    rewrite mmio_write32_other by congruence. reflexivity. }
  assert (mmio g1 GICH_APR = 0) as Hapr.
  { rewrite Hm by discriminate. unfold g0. apply mmio_write32_same. }
  change (Z.of_nat 16) with 16 in Hl.
  unfold ctlr_of_vmcr, pmr_of_vmcr, reset_disable_mask.
  destruct is_shutdown, in_root_cell; cbn [andb];
    cbn [window gic_num_lr probed mmio_write32 mmio_writes mmio];
    rewrite ?fn_lookup_insert;
    rewrite ?fn_lookup_insert_ne by discriminate;
    rewrite ?fn_lookup_insert;
    rewrite ?fn_lookup_insert_ne by discriminate;
    rewrite ?fn_lookup_insert;
    rewrite ?Hw, ?Hn, ?Hp, ?Hl, ?Hapr, ?Hm1 by discriminate;
    unfold GICH_VMCR_EN0, GICH_VMCR_EOImode;
    rewrite ?land_pow2_eqb by lia;
    unfold g0; cbn [window gic_num_lr probed mmio_write32 mmio_writes mmio
                    with_window];
    rewrite <- ?app_assoc; cbn [app];
    repeat split; try reflexivity;
    destruct (Z.testbit (mmio g GICH_VMCR) 0), (Z.testbit (mmio g GICH_VMCR) 9);
    reflexivity.
Qed.

End GicReset.

Section GicResetFacts.

Import GicV2 GicSpec GicDriver.

Lemma filter_dir_writes (l : list Z) :
  List.filter (λ e : gic_reg * Z, bool_decide (e.1 = GICC_DIR))
              (map (λ k, (GICC_DIR, k)) l)
  = map (λ k, (GICC_DIR, k)) l.
Proof.
  induction l as [|k l IH]; [reflexivity|].
  cbn [map List.filter fst]. rewrite bool_decide_eq_true_2 by reflexivity.
  rewrite IH. reflexivity.
Qed.

Lemma filter_enable_writes (l : list Z) :
  List.filter (λ e : gic_reg * Z,
                 bool_decide (e.1 = GICD_ISENABLER \/ e.1 = GICD_ICENABLER))
              (map (λ k, (GICC_DIR, k)) l)
  = [].
Proof.
  induction l as [|k l IH]; [reflexivity|].
  cbn [map List.filter fst].
  rewrite bool_decide_eq_false_2 by (intros [E|E]; discriminate E).
  exact IH.
Qed.

(** The virtual machine control word [gic_cpu_init] builds from the
    physical CPU interface it finds. *)
Definition vmcr_of (gicc_ctlr gicc_pmr : Z) : Z :=
  let vmcr :=
    u32 (Z.shiftl (Z.shiftr gicc_pmr GICV_PMR_SHIFT) GICH_VMCR_PMR_SHIFT) in
  let vmcr :=
    if negb (Z.land gicc_ctlr GICC_CTLR_GRPEN1 =? 0)
    then Z.lor vmcr GICH_VMCR_EN0 else vmcr in
  if negb (Z.land gicc_ctlr GICC_CTLR_EOImode =? 0)
  then Z.lor vmcr GICH_VMCR_EOImode else vmcr.

Lemma gic_cpu_init_vmcr (mnt_irq cpu_id : Z) (g : gic) :
  mmio (gic_cpu_init mnt_irq cpu_id g).1 GICH_VMCR
  = vmcr_of (mmio g GICC_CTLR) (mmio g GICC_PMR).
Proof.
  unfold gic_cpu_init, gic_clear_pending_irqs, with_window, mmio_read32, vmcr_of.
  cbn [fst snd gic_num_lr window mmio probed mmio_write32 mmio_writes].
  rewrite ?fn_lookup_insert_ne by discriminate.
  rewrite fn_lookup_insert.
  rewrite ?fn_lookup_insert_ne by discriminate.
  reflexivity.
Qed.

Lemma vmcr_of_bits (c p i : Z) :
  0 <= i ->
  Z.testbit (vmcr_of c p) i
  = ((27 <=? i) && (i <? 32) && Z.testbit p (i - 24))
    || ((i =? 0) && Z.testbit c 0) || ((i =? 9) && Z.testbit c 9).
Proof.
  intros Hi. unfold vmcr_of, GICC_CTLR_GRPEN1, GICC_CTLR_EOImode,
    GICH_VMCR_EN0, GICH_VMCR_EOImode, GICV_PMR_SHIFT, GICH_VMCR_PMR_SHIFT.
  cbv zeta. rewrite !land_pow2_eqb by lia.
  destruct (Z.testbit c 0), (Z.testbit c 9);
    rewrite ?Z.lor_spec, ?testbit_pow2_b, testbit_u32 by lia;
    rewrite testbit_shiftl_b, testbit_shiftr_b by lia;
    replace (i - 27 + 3) with (i - 24) by lia;
    bits_cases; bits_close.
Qed.

Lemma ctlr_of_vmcr_of (c p : Z) :
  ctlr_of_vmcr (vmcr_of c p)
  = Z.land c (Z.lor GICC_CTLR_GRPEN1 GICC_CTLR_EOImode).
Proof.
  unfold ctlr_of_vmcr. rewrite !vmcr_of_bits by lia.
  cbn [Z.leb Z.ltb Z.eqb Z.compare Pos.compare Pos.compare_cont Pos.eqb
       andb orb].
  unfold GICC_CTLR_GRPEN1, GICC_CTLR_EOImode.
  apply Z.bits_inj'. intros i Hi.
  rewrite Z.land_spec, !Z.lor_spec.
  assert (forall (b : bool) k, 0 <= k ->
          Z.testbit (if b then Z.shiftl 1 k else 0) i = b && (k =? i)) as Hb.
  { intros b k Hk. destruct b; [apply testbit_pow2_b; lia|apply Z.testbit_0_l]. }
  rewrite !Hb, !testbit_pow2_b by lia.
  destruct (Z.eqb_spec 0 i) as [<-|]; [|destruct (Z.eqb_spec 9 i) as [<-|]];
    rewrite ?andb_true_r, ?andb_false_r, ?orb_false_r; cbn [orb]; reflexivity.
Qed.

Lemma pmr_of_vmcr_of (c p : Z) :
  pmr_of_vmcr (vmcr_of c p) = Z.land p 0xf8.
Proof.
  unfold pmr_of_vmcr, GICH_VMCR_PMR_SHIFT, GICV_PMR_SHIFT.
  apply Z.bits_inj'. intros i Hi.
  rewrite testbit_u32, testbit_shiftl_b, testbit_shiftr_b by lia.
  rewrite Z.land_spec, tb_0xf8.
  destruct (Z.leb_spec 3 i); cbn [andb]; [|rewrite !andb_false_r; reflexivity].
  rewrite vmcr_of_bits by lia.
  replace (i - 3 + 27 - 24) with i by lia.
  bits_cases; bits_close.
Qed.

End GicResetFacts.

(** A controller with four list registers, two of them in use, PPIs 27 and
    30 active, and a physical CPU interface as Linux leaves it. *)
Definition demo_gic : GicDriver.gic :=
  GicDriver.mk_gic
    (GicV2.mk_gich 0xa 0 [GicSpec.lr_entry 27; 0; GicSpec.lr_entry 3; 0])
    (λ r, match r with
          | GicDriver.GICD_ISACTIVER => 0x48000000
          | GicDriver.GICC_CTLR => 0x1
          | GicDriver.GICC_PMR => 0xf0
          | GicDriver.GICH_VTR => 0x90000003
          | _ => 0
          end)
    [] 4 [].

(** X7.  [gic_cpu_reset] leaves no interrupt behind: every list register
    the driver counts reads zero and counts as empty, the active priorities
    are cleared, the virtual machine control register is zero, the
    hypervisor interface is switched off exactly on shutdown, and the
    deactivate register is written once for each PPI (16..31) that the
    distributor reports active, in ascending order, and for nothing
    else. *)
Theorem gic_cpu_reset_leaves_nothing_behind
    (mnt_irq : Z) (in_root_cell is_shutdown : bool) (g : GicDriver.gic) :
  let g' := GicDriver.gic_cpu_reset mnt_irq in_root_cell is_shutdown g in
  (forall i, 0 <= i < GicDriver.gic_num_lr g ->
     GicV2.gic_read_lr (GicDriver.window g') i = 0
     /\ (i < 64 -> GicSpec.is_empty_slot (GicDriver.window g') i = true))
  /\ List.filter (λ e : GicDriver.gic_reg * Z,
                    bool_decide (e.1 = GicDriver.GICC_DIR))
       (drop (length (GicDriver.mmio_writes g)) (GicDriver.mmio_writes g'))
     = map (λ k, (GicDriver.GICC_DIR, k))
           (List.filter (Z.testbit (GicDriver.mmio g GicDriver.GICD_ISACTIVER))
                        (seqZ 16 16))
  /\ GicDriver.mmio g' GicDriver.GICH_APR = 0
  /\ GicDriver.mmio g' GicDriver.GICH_VMCR = 0
  /\ GicDriver.mmio g' GicDriver.GICH_HCR
     = (if is_shutdown then 0 else GicDriver.mmio g GicDriver.GICH_HCR)
  /\ GicDriver.gic_num_lr g' = GicDriver.gic_num_lr g.
Proof.
  cbv zeta.
  destruct (gic_cpu_reset_trace mnt_irq in_root_cell is_shutdown g)
    as (Hw & Hn & _ & Hl & Hvmcr & Hapr & Hhcr & _).
  rewrite Hw, Hl, Hvmcr, Hapr, Hhcr, Hn.
  split; [|split; [|repeat split; reflexivity]].
  - intros i Hi.
    destruct (clear_list_registers_spec
                (Z.to_nat (GicDriver.gic_num_lr g)) 0 (GicDriver.window g) i
                ltac:(lia) ltac:(lia)) as [-> ->].
    split.
    + rewrite bool_decide_eq_true_2 by lia. reflexivity.
    + intros H64. rewrite bool_decide_eq_true_2 by lia. reflexivity.
  - rewrite drop_app_length. cbn [app List.filter fst].
    rewrite bool_decide_eq_false_2 by discriminate.
    rewrite !List.filter_app, filter_dir_writes.
    destruct is_shutdown, in_root_cell; cbn [andb app List.filter fst];
      rewrite ?bool_decide_eq_false_2 by discriminate;
      cbn [app]; rewrite ?app_nil_r; reflexivity.
Qed.

(** X8.  [gic_cpu_reset] writes the set-enable and the clear-enable
    register once each, in this order, and with a maintenance interrupt
    that is a PPI (16..31) it never disables an SGI: the set-enable word
    has the bits of all sixteen SGIs and of the maintenance interrupt and no
    other; the clear-enable word has no SGI bit; on a shutdown of the root
    cell it has the bit of the maintenance interrupt and no other; in every
    other case it has the bits of all PPIs except the maintenance
    interrupt. *)
Theorem gic_cpu_reset_never_disables_sgis
    (mnt_irq : Z) (in_root_cell is_shutdown : bool) (g : GicDriver.gic) :
  16 <= mnt_irq < 32 ->
  let g' := GicDriver.gic_cpu_reset mnt_irq in_root_cell is_shutdown g in
  exists en dis : Z,
    List.filter (λ e : GicDriver.gic_reg * Z,
                   bool_decide (e.1 = GicDriver.GICD_ISENABLER
                                \/ e.1 = GicDriver.GICD_ICENABLER))
      (drop (length (GicDriver.mmio_writes g)) (GicDriver.mmio_writes g'))
    = [(GicDriver.GICD_ISENABLER, en); (GicDriver.GICD_ICENABLER, dis)]
    /\ (forall i, 0 <= i ->
        Z.testbit en i = (i <? 16) || (i =? mnt_irq))
    /\ (forall i, 0 <= i ->
        Z.testbit dis i =
        if is_shutdown && in_root_cell then i =? mnt_irq
        else (16 <=? i) && (i <? 32) && negb (i =? mnt_irq)).
Proof.
  intros Hmnt. cbv zeta.
  destruct (gic_cpu_reset_trace mnt_irq in_root_cell is_shutdown g)
    as (_ & _ & _ & Hl & _).
  rewrite Hl.
  exists (Z.lor 0x0000ffff (Z.shiftl 1 mnt_irq)),
         (reset_disable_mask mnt_irq (is_shutdown && in_root_cell)).
  split; [|split].
  - rewrite drop_app_length. cbn [app List.filter fst].
    rewrite bool_decide_eq_false_2 by (intros [E|E]; discriminate E).
    rewrite !List.filter_app, filter_enable_writes.
    cbn [app List.filter fst].
    rewrite bool_decide_eq_true_2 by (left; reflexivity).
    rewrite bool_decide_eq_true_2 by (right; reflexivity).
    destruct is_shutdown, in_root_cell; cbn [andb app List.filter fst];
      rewrite ?bool_decide_eq_false_2 by (intros [E|E]; discriminate E);
      reflexivity.
  - intros i Hi. rewrite Z.lor_spec, tb_0xffff, testbit_pow2_b by lia.
    rewrite (Z.eqb_sym mnt_irq i).
    destruct (Z.leb_spec 0 i); [|lia]. reflexivity.
  - intros i Hi. unfold reset_disable_mask.
    destruct (is_shutdown && in_root_cell).
    + rewrite testbit_pow2_b by lia. apply Z.eqb_sym.
    + rewrite Z.land_spec, tb_0xffff0000, testbit_u32, testbit_lnot_b,
        testbit_pow2_b by lia.
      rewrite (Z.eqb_sym mnt_irq i).
      destruct (Z.leb_spec 16 i), (Z.ltb_spec i (16 + 16)), (Z.ltb_spec i 32),
        (Z.leb_spec 0 i), (Z.eqb_spec i mnt_irq); try lia; reflexivity.
Qed.

Lemma gic_cpu_reset_never_disables_sgis_witness :
  16 <= 25 < 32
  /\ exists en dis : Z,
    List.filter (λ e : GicDriver.gic_reg * Z,
                   bool_decide (e.1 = GicDriver.GICD_ISENABLER
                                \/ e.1 = GicDriver.GICD_ICENABLER))
      (drop (length (GicDriver.mmio_writes demo_gic))
            (GicDriver.mmio_writes
               (GicDriver.gic_cpu_reset 25 false false demo_gic)))
    = [(GicDriver.GICD_ISENABLER, en); (GicDriver.GICD_ICENABLER, dis)]
    /\ (forall i, 0 <= i ->
        Z.testbit en i = (i <? 16) || (i =? 25))
    /\ (forall i, 0 <= i ->
        Z.testbit dis i =
        if false && false then i =? 25
        else (16 <=? i) && (i <? 32) && negb (i =? 25)).
Proof.
  split; [lia|].
  apply (gic_cpu_reset_never_disables_sgis 25 false false demo_gic). lia.
Defined.

(** X9.  A shutdown of the root cell gives the physical CPU interface back
    as [gic_cpu_init] found it, as far as the virtual machine control
    register can carry it: if that register still holds what
    [gic_cpu_init] wrote, [gic_cpu_reset] for a root-cell shutdown restores
    the group enable and EOI mode bits of the control register and the five
    implemented priority bits of the priority mask, and leaves the virtual
    machine control register and the hypervisor control register zero. *)
Theorem gic_cpu_reset_restores_root_interface
    (mnt_irq cpu_id : Z) (g g1 : GicDriver.gic) :
  GicDriver.mmio g1 GicDriver.GICH_VMCR
  = GicDriver.mmio (GicDriver.gic_cpu_init mnt_irq cpu_id g).1
                   GicDriver.GICH_VMCR ->
  let g2 := GicDriver.gic_cpu_reset mnt_irq true true g1 in
  GicDriver.mmio g2 GicDriver.GICC_CTLR
  = Z.land (GicDriver.mmio g GicDriver.GICC_CTLR)
           (Z.lor GicDriver.GICC_CTLR_GRPEN1 GicDriver.GICC_CTLR_EOImode)
  /\ GicDriver.mmio g2 GicDriver.GICC_PMR
     = Z.land (GicDriver.mmio g GicDriver.GICC_PMR) 0xf8
  /\ GicDriver.mmio g2 GicDriver.GICH_VMCR = 0
  /\ GicDriver.mmio g2 GicDriver.GICH_HCR = 0.
Proof.
  intros Hvmcr. cbv zeta.
  destruct (gic_cpu_reset_trace mnt_irq true true g1)
    as (_ & _ & _ & _ & Hv & _ & Hh & Hc & Hp & _).
  cbn [andb] in Hc, Hp. rewrite Hc, Hp, Hv, Hh, Hvmcr, gic_cpu_init_vmcr.
  rewrite ctlr_of_vmcr_of, pmr_of_vmcr_of. repeat split; reflexivity.
Qed.

Lemma gic_cpu_reset_restores_root_interface_witness :
  let g1 := (GicDriver.gic_cpu_init 25 0 demo_gic).1 in
  let g2 := GicDriver.gic_cpu_reset 25 true true g1 in
  GicDriver.mmio g2 GicDriver.GICC_CTLR
  = Z.land (GicDriver.mmio demo_gic GicDriver.GICC_CTLR)
           (Z.lor GicDriver.GICC_CTLR_GRPEN1 GicDriver.GICC_CTLR_EOImode)
  /\ GicDriver.mmio g2 GicDriver.GICC_PMR
     = Z.land (GicDriver.mmio demo_gic GicDriver.GICC_PMR) 0xf8
  /\ GicDriver.mmio g2 GicDriver.GICH_VMCR = 0
  /\ GicDriver.mmio g2 GicDriver.GICH_HCR = 0.
Proof.
  exact (gic_cpu_reset_restores_root_interface 25 0 demo_gic
           (GicDriver.gic_cpu_init 25 0 demo_gic).1 eq_refl).
Defined.

(** X10.  [gic_send_sgi] refuses an id that is not an SGI with [-EINVAL]
    and writes nothing; for an SGI it writes the SGI register once and
    returns 0, and the word written has the id in bits 3:0, the low eight
    bits of the target list in bits 23:16, the low two bits of the routing
    mode in bits 25:24 and no other bit. *)
Theorem gic_send_sgi_contract (sgi : Control.sgi) (g : GicDriver.gic) :
  0 <= Control.id sgi ->
  let r := GicDriver.gic_send_sgi sgi g in
  (16 <= Control.id sgi -> r = (g, - GicDriver.EINVAL))
  /\ (Control.id sgi < 16 ->
      exists val : Z,
        r = (GicDriver.mmio_write32 GicDriver.GICD_SGIR val g, 0)
        /\ Z.land val 0xf = Control.id sgi
        /\ Z.land (Z.shiftr val 16) 0xff = Z.land (Control.targets sgi) 0xff
        /\ Z.land (Z.shiftr val 24) 0x3 = Z.land (Control.routing_mode sgi) 0x3
        /\ Z.land (Z.shiftr val 4) 0xfff = 0
        /\ Z.shiftr val 26 = 0).
Proof.
  intros Hid. cbv zeta. unfold GicDriver.gic_send_sgi, GicV2.is_sgi. split.
  - intros H. destruct (Z.ltb_spec (Control.id sgi) 16); [lia|]. reflexivity.
  - intros H. destruct (Z.ltb_spec (Control.id sgi) 16); [|lia]. cbn [negb].
    eexists. split; [reflexivity|].
    assert (0 <= Control.id sgi < 2 ^ 4) as Hr by lia.
    repeat split; apply Z.bits_inj'; intros i Hi;
      bits_rw; rewrite ?tb_0xfff;
      rewrite ?(testbit_bounded 4 (Control.id sgi)) by lia;
      bits_cases; rewrite ?bit_eq; bits_norm i; bits_close.
Qed.

Lemma gic_send_sgi_contract_witness :
  0 <= Control.id (Control.mk_sgi 0x2 0 1)
  /\ let r := GicDriver.gic_send_sgi (Control.mk_sgi 0x2 0 1) demo_gic in
     (16 <= Control.id (Control.mk_sgi 0x2 0 1) ->
      r = (demo_gic, - GicDriver.EINVAL))
     /\ (Control.id (Control.mk_sgi 0x2 0 1) < 16 ->
         exists val : Z,
           r = (GicDriver.mmio_write32 GicDriver.GICD_SGIR val demo_gic, 0)
           /\ Z.land val 0xf = Control.id (Control.mk_sgi 0x2 0 1)
           /\ Z.land (Z.shiftr val 16) 0xff
              = Z.land (Control.targets (Control.mk_sgi 0x2 0 1)) 0xff
           /\ Z.land (Z.shiftr val 24) 0x3
              = Z.land (Control.routing_mode (Control.mk_sgi 0x2 0 1)) 0x3
           /\ Z.land (Z.shiftr val 4) 0xfff = 0
           /\ Z.shiftr val 26 = 0).
Proof.
  split; [cbn; lia|].
  apply (gic_send_sgi_contract (Control.mk_sgi 0x2 0 1) demo_gic). cbn. lia.
Defined.

(** X11.  [gic_enable_maint_irq] changes the underflow-interrupt bit of the
    hypervisor control register and nothing else: after the call the bit is
    the argument, every other bit of the register is as before (so the
    interface stays enabled if it was), the register is written exactly
    once, and no other register and no list register changes. *)
Theorem gic_enable_maint_irq_only_uie (enable : bool) (g : GicDriver.gic) :
  0 <= GicDriver.mmio g GicDriver.GICH_HCR < 2 ^ 32 ->
  let g' := GicDriver.gic_enable_maint_irq enable g in
  Z.testbit (GicDriver.mmio g' GicDriver.GICH_HCR) 1 = enable
  /\ (forall i, i <> 1 ->
      Z.testbit (GicDriver.mmio g' GicDriver.GICH_HCR) i
      = Z.testbit (GicDriver.mmio g GicDriver.GICH_HCR) i)
  /\ GicDriver.mmio_writes g'
     = GicDriver.mmio_writes g
       ++ [(GicDriver.GICH_HCR, GicDriver.mmio g' GicDriver.GICH_HCR)]
  /\ (forall r, r <> GicDriver.GICH_HCR ->
      GicDriver.mmio g' r = GicDriver.mmio g r)
  /\ GicDriver.window g' = GicDriver.window g.
Proof.
  intros Hr. cbv zeta.
  unfold GicDriver.gic_enable_maint_irq, GicDriver.mmio_read32,
    GicDriver.GICH_HCR_UIE.
  set (hcr := GicDriver.mmio g GicDriver.GICH_HCR) in *.
  rewrite mmio_write32_same.
  split; [|split; [|split; [|split]]].
  - destruct enable.
    + rewrite Z.lor_spec, testbit_pow2_b by lia. apply orb_true_r.
    + rewrite Z.land_spec, testbit_u32, testbit_lnot_b, testbit_pow2_b by lia.
      apply andb_false_r.
  - intros i Hi. destruct (Z_lt_le_dec i 0).
    { rewrite !Z.testbit_neg_r by lia. reflexivity. }
    destruct enable.
    + rewrite Z.lor_spec, testbit_pow2_b by lia.
      destruct (Z.eqb_spec 1 i); [lia|]. apply orb_false_r.
    + rewrite Z.land_spec, testbit_u32, testbit_lnot_b, testbit_pow2_b by lia.
      destruct (Z.eqb_spec 1 i); [lia|].
      destruct (Z.leb_spec 0 i); [|lia].
      destruct (Z.ltb_spec i 32); cbn [andb negb].
      * apply andb_true_r.
      * rewrite (testbit_high 32 hcr i) by lia. reflexivity.
  - reflexivity.
  - intros r Hne. apply mmio_write32_other. congruence.
  - reflexivity.
Qed.

Lemma gic_enable_maint_irq_only_uie_witness :
  Z.testbit
    (GicDriver.mmio (GicDriver.gic_enable_maint_irq true demo_gic)
                    GicDriver.GICH_HCR) 1 = true.
Proof.
  apply (gic_enable_maint_irq_only_uie true demo_gic). vm_compute.
  split; [discriminate|reflexivity].
Defined.

(** Byte [j] of a 32-bit word. *)
Definition byte_of (j x : Z) : Z := Z.land (Z.shiftr x (8 * j)) 0xff.

(** X12.  [gic_adjust_irq_target] leaves an interrupt alone whose targets
    are within the cell; otherwise it writes the target register of the
    interrupt once, with the byte of the interrupt replaced by the first
    CPU of the cell and the bytes of the three neighbouring interrupts as
    they were. *)
Theorem gic_adjust_irq_target_one_byte
    (gic_targets_in_cell : Z -> bool) (first_cpu_target irq_id : Z)
    (g : GicDriver.gic) :
  0 <= irq_id ->
  0 <= first_cpu_target < 256 ->
  let reg := GicDriver.GICD_ITARGETSR (4 * (irq_id / 4)) in
  let old := GicDriver.mmio g reg in
  let g' := GicDriver.gic_adjust_irq_target gic_targets_in_cell
              first_cpu_target irq_id g in
  if gic_targets_in_cell (byte_of (irq_id mod 4) old) then g' = g
  else
    exists new : Z,
      g' = GicDriver.mmio_write32 reg new g
      /\ byte_of (irq_id mod 4) new = first_cpu_target
      /\ (forall j, 0 <= j < 4 -> j <> irq_id mod 4 ->
          byte_of j new = byte_of j old).
Proof.
  intros Hirq Ht. cbv zeta. unfold GicDriver.gic_adjust_irq_target,
    GicDriver.mmio_read32, byte_of.
  assert (Z.land irq_id (Z.lnot 0x3) = 4 * (irq_id / 4)) as ->.
  { rewrite <- Z.ldiff_land. change 0x3 with (Z.ones 2).
    rewrite Z.ldiff_ones_r by lia. rewrite Z.shiftr_div_pow2, Z.shiftl_mul_pow2 by lia.
    change (2 ^ 2) with 4. lia. }
  assert (0 <= irq_id mod 4 < 4) as Hk by (apply Z.mod_pos_bound; lia).
  set (k := irq_id mod 4) in *.
  replace (k * 8) with (8 * k) by lia.
  destruct (gic_targets_in_cell _); [reflexivity|].
  eexists. split; [reflexivity|]. split.
  - apply Z.bits_inj'. intros i Hi.
    rewrite (testbit_bounded 8 first_cpu_target i) by lia.
    bits_rw. rewrite !testbit_u32. bits_rw.
    bits_cases; rewrite ?bit_eq; bits_norm i; bits_close.
  - intros j Hj Hjk. apply Z.bits_inj'. intros i Hi.
    bits_rw. rewrite !testbit_u32. bits_rw.
    rewrite (testbit_bounded 8 first_cpu_target) by lia.
    bits_cases; rewrite ?bit_eq; bits_norm i; bits_close.
Qed.

Lemma gic_adjust_irq_target_one_byte_witness :
  let reg := GicDriver.GICD_ITARGETSR (4 * (34 / 4)) in
  let old := GicDriver.mmio demo_gic reg in
  let g' := GicDriver.gic_adjust_irq_target (λ t, negb (t =? 0)) 0x2 34
              demo_gic in
  if negb (byte_of (34 mod 4) old =? 0) then g' = demo_gic
  else
    exists new : Z,
      g' = GicDriver.mmio_write32 reg new demo_gic
      /\ byte_of (34 mod 4) new = 0x2
      /\ (forall j, 0 <= j < 4 -> j <> 34 mod 4 ->
          byte_of j new = byte_of j old).
Proof.
  apply (gic_adjust_irq_target_one_byte (λ t, negb (t =? 0)) 0x2 34 demo_gic);
    lia.
Defined.

(** * control.c: CPU reset and parking *)

Module ResetSpec.

Import Control.

(** What a register of the executing CPU holds after [cpu_reset], given the
    CPU's record and the registers before: the exception return state is
    set up for the guest's entry, the MPIDR the guest sees carries its
    virtual id, the system control register loses the bits of
    [SCTLR_MASK], [LR_usr], the auxiliary control register and the
    registers that are only reachable by their CP15 encoding are not
    written, and every other register is zero. *)
Definition reset_value (P : platform) (d : per_cpu) (old : Hw.hw_state)
    (r : Hw.reg_name) : Z :=
  match r with
  | Hw.SPSR_hyp => RESET_PSR P
  | Hw.ELR_hyp => cpu_on_entry d
  | Hw.VMPIDR_EL2 => Z.lor (virt_id d) (MPIDR_MP_BIT P)
  | Hw.SCTLR_EL1 =>
      Z.land (Hw.read_reg old Hw.SCTLR_EL1) (Z.lnot (SCTLR_MASK P))
  | Hw.LR_usr | Hw.ACTLR_EL1 | Hw.SYSREG_32 _ _ _ _ => Hw.read_reg old r
  | _ => 0
  end.

(** The guest's user registers after [cpu_reset]: all zero, but for r1,
    which carries the context passed to CPU_ON. *)
Definition reset_usr (d : per_cpu) : list Z :=
  <[1%nat := cpu_on_context d]> ((λ _, 0) <$> guest_usr d).

(** The same for [arm_cpu_park], which resets and then clears the return
    address. *)
Definition park_value (P : platform) (d : per_cpu) (old : Hw.hw_state)
    (r : Hw.reg_name) : Z :=
  match r with
  | Hw.ELR_hyp => 0
  | _ => reset_value P d old r
  end.

(** The record of a CPU that has entered the off state. *)
Definition cpu_off (d : per_cpu) : per_cpu :=
  apply_store (W_wait_for_poweron true) (apply_store (W_park false) d).

End ResetSpec.

Section CpuReset.

Import Control PsciSpec ResetSpec.

Variable P : platform.

Lemma cpu_reset_spec (sc : schedule) (s : system) :
  let this := this_cpu_id s in
  let d := percpu s this in
  exists s',
    cpu_reset P sc s = Some (tt, s', sc)
    /\ (forall r, Hw.read_reg (hw s') r = reset_value P d (hw s) r)
    /\ percpu s' this = apply_store (W_guest_usr (reset_usr d)) d
    /\ (forall c, c <> this -> percpu s' c = percpu s c)
    /\ cells s' = cells s
    /\ this_cpu_id s' = this
    /\ events s'
       = events s
         ++ [EvStore this (W_guest_usr ((λ _, 0) <$> guest_usr d));
             EvStore this (W_guest_usr (reset_usr d));
             EvPagingVcpuInit (cell_mm (cell d));
             EvIrqchipCpuReset this].
Proof.
  destruct s as [pc cl this [rf rw] ev]. cbv zeta.
  cbn [this_cpu_id percpu hw cells events].
  eexists. split.
  { cbv [cpu_reset read write emit modify get arm_write_reg arm_read_reg
         mbind M_bind mret M_ret with_hw log with_events stores with_percpu
         percpu cells this_cpu_id hw events Hw.write_reg Hw.read_reg
         Hw.regfile Hw.reg_writes].
    reflexivity. }
  cbn [this_cpu_id percpu hw cells events Hw.read_reg Hw.regfile].
  rewrite !fn_lookup_insert. cbn [foldl].
  split; [|split; [|split; [|split; [|split]]]].
  - intros r. unfold reset_value.
    destruct (pc this) as [id vid cel entry context pk rs su cs wfp fl st gu].
    cbn [apply_store cpu_on_entry virt_id Hw.read_reg Hw.regfile].
    destruct r; reflexivity.
  - unfold reset_usr.
    destruct (pc this) as [id vid cel entry context pk rs su cs wfp fl st gu].
    reflexivity.
  - intros c Hc. rewrite !fn_lookup_insert_ne by congruence. reflexivity.
  - reflexivity.
  - reflexivity.
  - unfold reset_usr. rewrite <- !app_assoc. cbn [app].
    destruct (pc this) as [id vid cel entry context pk rs su cs wfp fl st gu].
    reflexivity.
Qed.

End CpuReset.

Section CpuPark.

Import Control PsciSpec ResetSpec.

Variable P : platform.

(** The critical sections of the other CPUs touch per-CPU records only. *)
Lemma env_run_frame (acts : list env_action) (s : system) :
  hw (env_run P acts s) = hw s
  /\ cells (env_run P acts s) = cells s
  /\ this_cpu_id (env_run P acts s) = this_cpu_id s
  /\ events (env_run P acts s) = events s.
Proof.
  unfold env_run. revert s. induction acts as [|a acts IH]; intros s; cbn [foldl].
  - repeat split; reflexivity.
  - destruct (IH (env_step P s a)) as (-> & -> & -> & ->).
    unfold env_step. destruct (env_stores P a s). repeat split; reflexivity.
Qed.

Lemma at_lock_frame (sc : schedule) (s : system) :
  hw (at_lock P sc s).1 = hw s
  /\ cells (at_lock P sc s).1 = cells s
  /\ this_cpu_id (at_lock P sc s).1 = this_cpu_id s
  /\ events (at_lock P sc s).1 = events s.
Proof.
  destruct sc as [|acts rest]; cbn [at_lock fst].
  - repeat split; reflexivity.
  - apply env_run_frame.
Qed.

Lemma cpu_off_flags (d : per_cpu) :
  wait_for_poweron (cpu_off d) = true /\ park (cpu_off d) = false
  /\ suspend_cpu (cpu_off d) = suspend_cpu d
  /\ cpu_suspended (cpu_off d) = cpu_suspended d
  /\ reset (cpu_off d) = reset d
  /\ flush_vcpu_caches (cpu_off d) = flush_vcpu_caches d
  /\ cpu_on_entry (cpu_off d) = cpu_on_entry d
  /\ cpu_on_context (cpu_off d) = cpu_on_context d
  /\ virt_id (cpu_off d) = virt_id d
  /\ cell (cpu_off d) = cell d
  /\ guest_usr (cpu_off d) = guest_usr d
  /\ stats (cpu_off d) = stats d.
Proof. destruct d. repeat split; reflexivity. Qed.

Lemma arm_cpu_park_spec (sc : schedule) (s : system) :
  let this := this_cpu_id s in
  let s1 := (at_lock P sc s).1 in
  let sc1 := (at_lock P sc s).2 in
  let d := cpu_off (percpu s1 this) in
  exists s',
    arm_cpu_park P sc s = Some (tt, s', sc1)
    /\ (forall r, Hw.read_reg (hw s') r = park_value P d (hw s) r)
    /\ percpu s' this = apply_store (W_guest_usr (reset_usr d)) d
    /\ (forall c, c <> this -> percpu s' c = percpu s1 c)
    /\ cells s' = cells s
    /\ this_cpu_id s' = this
    /\ events s'
       = events s
         ++ [EvSpinLock this;
             EvStore this (W_park false);
             EvStore this (W_wait_for_poweron true);
             EvSpinUnlock this;
             EvStore this (W_guest_usr ((λ _, 0) <$> guest_usr d));
             EvStore this (W_guest_usr (reset_usr d));
             EvPagingVcpuInit (cell_mm (cell d));
             EvIrqchipCpuReset this;
             EvPagingVcpuInit parking_mm].
Proof.
  cbv zeta.
  destruct (at_lock_frame sc s) as (Hhw & Hcl & Hid & Hev).
  cbv [arm_cpu_park get mbind M_bind mret M_ret spin_lock spin_unlock emit
       modify write_all write enter_cpu_off].
  rewrite yield_at_lock.
  destruct (at_lock P sc s) as [s1 sc1]. cbn [fst snd] in *.
  match goal with
  | |- context [cpu_reset P ?c ?st] =>
      destruct (cpu_reset_spec P c st) as (s2 & E & Hr & Hd & Ho & Hc & Ht & He);
      rewrite E
  end.
  cbv zeta in Hr, Hd, Ho, Hc, Ht, He.
  cbn [this_cpu_id log with_events stores with_percpu percpu hw cells events]
    in Hr, Hd, Ho, Hc, Ht, He.
  rewrite Hid in Hr, Hd, Ho, Ht, He.
  rewrite !fn_lookup_insert in Hr, Hd, He. cbn [foldl] in Hr, Hd, He.
  fold (cpu_off (percpu s1 (this_cpu_id s))) in Hr, Hd, He.
  eexists. split; [reflexivity|].
  cbn [arm_write_reg modify with_hw log with_events percpu hw cells events
       this_cpu_id].
  split; [|split; [|split; [|split; [|split]]]].
  - intros r. cbn [Hw.read_reg Hw.write_reg Hw.regfile]. unfold park_value.
    destruct (decide (r = Hw.ELR_hyp)) as [->|Hne].
    + apply fn_lookup_insert.
    + rewrite fn_lookup_insert_ne by congruence.
      specialize (Hr r). unfold Hw.read_reg in Hr. rewrite Hr, Hhw.
      destruct r; try reflexivity; congruence.
  - exact Hd.
  - intros c Hne. rewrite Ho by exact Hne.
    rewrite !fn_lookup_insert_ne by congruence. reflexivity.
  - rewrite Hc. exact Hcl.
  - exact Ht.
  - rewrite He, Hev, <- !app_assoc. reflexivity.
Qed.

End CpuPark.

(** * control.c: the event check *)

Module EventsSpec.

Import Control ResetSpec.

(** The CPU whose record a critical section of another CPU works on. *)
Definition env_target (a : env_action) : Z :=
  match a with
  | Env_suspend c | Env_resume c | Env_reset_request c | Env_park_request c
  | Env_flush_request c | Env_cpu_on c _ _ | Env_events_suspended c
  | Env_events_resumed c | Env_events_flush c | Env_cpu_off c => c
  end.

(** None of the critical sections works on the record of [cpu]. *)
Definition quiet (cpu : Z) (acts : list env_action) : Prop :=
  Forall (λ a, env_target a <> cpu) acts.

(** What [check_events] ends with. *)
Inductive outcome : Type := Parks | Resets | Continues.

(** The outcome for a CPU that finds its record as [d] once it is not (or
    no longer) asked to suspend: a park request wins over a reset request;
    a reset request without a valid entry point turns the CPU off; a CPU
    that is off stays off. *)
Definition check_events_outcome (P : platform) (d : per_cpu) : outcome :=
  if park d then Parks
  else if reset d then
    if negb (cpu_on_entry d =? PSCI_INVALID_ADDRESS P) then Resets else Parks
  else if wait_for_poweron d then Parks
  else Continues.

(** [check_events] on [cpu] has taken the system from [s] to [s'], having
    found the record [d]. *)
Definition handled (P : platform) (cpu : Z) (d : per_cpu) (s s' : system)
  : Prop :=
  let d' := percpu s' cpu in
  suspend_cpu d' = false
  /\ cpu_suspended d' = false
  /\ flush_vcpu_caches d' = false
  /\ park d' = false
  /\ reset d' = park d && reset d
  /\ cpu_on_entry d' = cpu_on_entry d
  /\ cpu_on_context d' = cpu_on_context d
  /\ virt_id d' = virt_id d
  /\ cell d' = cell d
  /\ stats d' = stats d
  /\ cells s' = cells s
  /\ this_cpu_id s' = this_cpu_id s
  /\ (exists new,
        events s' = events s ++ new
        /\ (In EvFlushTlbs new <-> flush_vcpu_caches d = true)
        /\ (In (EvPagingVcpuInit parking_mm) new
            <-> check_events_outcome P d = Parks)
        /\ (In (EvIrqchipCpuReset cpu) new
            <-> check_events_outcome P d <> Continues))
  /\ match check_events_outcome P d with
     | Parks =>
         wait_for_poweron d' = true
         /\ guest_usr d' = reset_usr d
         /\ (forall r, Hw.read_reg (hw s') r = park_value P d (hw s) r)
     | Resets =>
         wait_for_poweron d' = false
         /\ guest_usr d' = reset_usr d
         /\ (forall r, Hw.read_reg (hw s') r = reset_value P d (hw s) r)
     | Continues =>
         wait_for_poweron d' = false
         /\ guest_usr d' = guest_usr d
         /\ hw s' = hw s
     end.

(** One store after the other to the record of [cpu], each logged. *)
Definition do_stores (cpu : Z) (ws : list store) (s : system) : system :=
  foldl (λ s w, log (EvStore cpu w) (stores cpu [w] s)) s ws.

End EventsSpec.

Section CheckEvents.

Import Control PsciSpec SuspendSpec ResetSpec EventsSpec.

Variable P : platform.

Lemma quiet_no_resume (cpu : Z) (acts : list env_action) :
  quiet cpu acts -> no_resume cpu acts.
Proof.
  unfold quiet, no_resume. intros H. eapply Forall_impl; [exact H|].
  intros a Ha E. subst a. apply Ha. reflexivity.
Qed.

Lemma env_stores_target (a : env_action) (s : system) :
  (env_stores P a s).1 = env_target a.
Proof. destruct a; reflexivity. Qed.

Lemma env_run_quiet (cpu : Z) (acts : list env_action) (s : system) :
  quiet cpu acts -> percpu (env_run P acts s) cpu = percpu s cpu.
Proof.
  unfold env_run. intros H. revert s.
  induction H as [|a acts Ha _ IH]; intros s; cbn [foldl]; [reflexivity|].
  rewrite IH. unfold env_step. pose proof (env_stores_target a s) as Ht.
  destruct (env_stores P a s) as [c ws]. cbn [fst] in Ht. subst c.
  apply stores_other. congruence.
Qed.

Lemma at_lock_quiet (cpu : Z) (sc : schedule) (s : system) :
  Forall (quiet cpu) sc ->
  percpu (at_lock P sc s).1 cpu = percpu s cpu
  /\ Forall (quiet cpu) (at_lock P sc s).2.
Proof.
  intros H. destruct H as [|acts rest Ha Hr]; cbn [at_lock fst snd].
  - split; [reflexivity|constructor].
  - split; [apply env_run_quiet; exact Ha|exact Hr].
Qed.

Lemma spin_while_done (cond : system -> bool) (sc : schedule) (s : system) :
  cond s = false -> spin_while P cond sc s = Some (tt, s, sc).
Proof. intros H. destruct sc; cbn [spin_while]; rewrite H; reflexivity. Qed.

(** A CPU that is asked to suspend and never resumed waits for ever. *)
Lemma spin_while_blocked (cpu : Z) (sc : schedule) :
  Forall (no_resume cpu) sc ->
  forall s, suspend_cpu (percpu s cpu) = true ->
  spin_while P (λ s, suspend_cpu (percpu s cpu)) sc s = None.
Proof.
  induction 1 as [|acts rest Ha _ IH]; intros s Hs; cbn [spin_while];
    rewrite Hs; [reflexivity|].
  apply IH. apply env_run_keeps_request; [exact Ha|]. exact Hs.
Qed.

Lemma write_all_run (cpu : Z) (ws : list store) (sc : schedule) (s : system) :
  write_all cpu ws sc s = Some (tt, do_stores cpu ws s, sc).
Proof.
  revert s. induction ws as [|w ws IH]; intros s; cbn [write_all]; [reflexivity|].
  unfold mbind, M_bind, write, modify. rewrite IH. reflexivity.
Qed.

Lemma do_stores_frame (cpu : Z) (ws : list store) (s : system) :
  hw (do_stores cpu ws s) = hw s
  /\ cells (do_stores cpu ws s) = cells s
  /\ this_cpu_id (do_stores cpu ws s) = this_cpu_id s
  /\ events (do_stores cpu ws s) = events s ++ map (EvStore cpu) ws
  /\ percpu (do_stores cpu ws s) cpu
     = foldl (λ d w, apply_store w d) (percpu s cpu) ws
  /\ (forall c, c <> cpu -> percpu (do_stores cpu ws s) c = percpu s c).
Proof.
  unfold do_stores. revert s. induction ws as [|w ws IH]; intros s; cbn [foldl map].
  - rewrite app_nil_r. repeat split; reflexivity.
  - destruct (IH (log (EvStore cpu w) (stores cpu [w] s)))
      as (-> & -> & -> & -> & -> & Ho).
    rewrite percpu_log, stores_same. cbn [foldl].
    repeat split; try reflexivity.
    + rewrite log_events, <- app_assoc. reflexivity.
    + intros c Hc. rewrite Ho by exact Hc. rewrite percpu_log.
      apply stores_other. exact Hc.
Qed.

End CheckEvents.

Section CheckEventsCore.

Import Control PsciSpec SuspendSpec ResetSpec EventsSpec.

Variable P : platform.

(** [check_events] after its loop. *)
Definition finish_events (cpu : Z) (reset : bool) : M unit :=
  flush ← read cpu flush_vcpu_caches;
  (if flush : bool then
     write cpu (W_flush_vcpu_caches false);;
     emit EvFlushTlbs
   else mret tt);;
  spin_unlock cpu;;
  wfp ← read cpu wait_for_poweron;
  if wfp : bool then arm_cpu_park P
  else if reset : bool then cpu_reset P
  else mret tt.

(** A turn of the loop of [check_events] from the point where the lock is
    taken again. *)
Definition resume_part (turns : nat) (cpu : Z) : M bool :=
  spin_lock P cpu;;
  d ← read cpu (λ d, d);
  let '(ws, break, reset) := events_resumed_section P d in
  write_all cpu ws;;
  if break then mret reset
  else
    again ← read cpu suspend_cpu;
    if again : bool then check_events_loop P turns cpu else mret reset.

Lemma check_events_unfold (cpu : Z) :
  check_events P cpu
  = (spin_lock P cpu;;
     ((λ sc, check_events_loop P (S (length sc)) cpu sc) : M bool)
       ≫= finish_events cpu).
Proof. reflexivity. Qed.

Lemma check_events_loop_unfold (turns : nat) (cpu : Z) :
  check_events_loop P (S turns) cpu
  = (d ← read cpu (λ d, d);
     write_all cpu (events_suspended_section d);;
     spin_unlock cpu;;
     spin_while P (λ s, suspend_cpu (percpu s cpu));;
     resume_part turns cpu).
Proof. reflexivity. Qed.

Lemma resumed_section_keeps_running (d : per_cpu) :
  suspend_cpu d = false ->
  suspend_cpu (foldl (λ d w, apply_store w d) d (events_resumed_section P d).1.1)
  = false.
Proof.
  intros H. unfold events_resumed_section, enter_cpu_off. rewrite H.
  destruct d as [id vid cel entry context pk rs su cs wfp fl st gu].
  cbn in H. subst su. cbn [negb park reset cpu_on_entry].
  destruct pk; [reflexivity|]. destruct rs; [|reflexivity].
  destruct (negb (entry =? PSCI_INVALID_ADDRESS P)); reflexivity.
Qed.

(** The second half of a turn for a CPU that is not asked to suspend. *)
Lemma resume_part_run (turns : nat) (cpu : Z) (sc : schedule) (s : system) :
  let s1 := (at_lock P sc s).1 in
  let d := percpu s1 cpu in
  suspend_cpu d = false ->
  resume_part turns cpu sc s
  = Some ((events_resumed_section P d).2,
          do_stores cpu (events_resumed_section P d).1.1
                    (log (EvSpinLock cpu) s1),
          (at_lock P sc s).2).
Proof.
  cbv zeta. intros Hs.
  pose proof (resumed_section_keeps_running _ Hs) as Hk.
  unfold resume_part, spin_lock, emit, modify, read, get, mbind, M_bind, mret,
    M_ret.
  rewrite yield_at_lock. rewrite percpu_log.
  destruct (events_resumed_section P (percpu (at_lock P sc s).1 cpu))
    as [[ws brk] rst] eqn:E.
  cbn [fst snd] in *. rewrite write_all_run.
  destruct brk; [reflexivity|].
  destruct (do_stores_frame cpu ws (log (EvSpinLock cpu) (at_lock P sc s).1))
    as (_ & _ & _ & _ & -> & _).
  rewrite percpu_log, Hk. reflexivity.
Qed.

(** The state once the flush request, if any, is served and the lock
    released. *)
Definition flush_served (cpu : Z) (s : system) : system :=
  log (EvSpinUnlock cpu)
    (if flush_vcpu_caches (percpu s cpu)
     then log EvFlushTlbs (do_stores cpu [W_flush_vcpu_caches false] s)
     else s).

Lemma finish_events_run (cpu : Z) (rst : bool) (sc : schedule) (s : system) :
  finish_events cpu rst sc s
  = if wait_for_poweron (percpu s cpu) then arm_cpu_park P sc (flush_served cpu s)
    else if rst then cpu_reset P sc (flush_served cpu s)
    else Some (tt, flush_served cpu s, sc).
Proof.
  unfold finish_events, flush_served, spin_unlock, emit, write, modify, read,
    get, mbind, M_bind, mret, M_ret, do_stores.
  destruct (flush_vcpu_caches (percpu s cpu)) eqn:Hf; cbn [foldl].
  - rewrite !percpu_log, stores_same. cbn [foldl].
    assert (wait_for_poweron
              (apply_store (W_flush_vcpu_caches false) (percpu s cpu))
            = wait_for_poweron (percpu s cpu)) as ->
      by (destruct (percpu s cpu); reflexivity).
    destruct (wait_for_poweron (percpu s cpu)), rst; reflexivity.
  - rewrite !percpu_log.
    destruct (wait_for_poweron (percpu s cpu)), rst; reflexivity.
Qed.

End CheckEventsCore.

Section CheckEventsHandled.

Import Control PsciSpec SuspendSpec ResetSpec EventsSpec.

Variable P : platform.

Lemma reset_value_ext (d1 d2 : per_cpu) (old : Hw.hw_state) (r : Hw.reg_name) :
  cpu_on_entry d1 = cpu_on_entry d2 -> virt_id d1 = virt_id d2 ->
  reset_value P d1 old r = reset_value P d2 old r.
Proof. intros H1 H2. unfold reset_value. rewrite H1, H2. reflexivity. Qed.

Lemma park_value_ext (d1 d2 : per_cpu) (old : Hw.hw_state) (r : Hw.reg_name) :
  cpu_on_entry d1 = cpu_on_entry d2 -> virt_id d1 = virt_id d2 ->
  park_value P d1 old r = park_value P d2 old r.
Proof.
  intros H1 H2. unfold park_value.
  rewrite (reset_value_ext d1 d2 old r H1 H2). reflexivity.
Qed.

Lemma flush_served_frame (cpu : Z) (s : system) :
  let fl := flush_vcpu_caches (percpu s cpu) in
  hw (flush_served cpu s) = hw s
  /\ cells (flush_served cpu s) = cells s
  /\ this_cpu_id (flush_served cpu s) = this_cpu_id s
  /\ events (flush_served cpu s)
     = events s
       ++ (if fl then [EvStore cpu (W_flush_vcpu_caches false); EvFlushTlbs]
           else [])
       ++ [EvSpinUnlock cpu]
  /\ percpu (flush_served cpu s) cpu
     = (if fl then apply_store (W_flush_vcpu_caches false) (percpu s cpu)
        else percpu s cpu).
Proof.
  cbv zeta. unfold flush_served.
  destruct (flush_vcpu_caches (percpu s cpu)).
  - destruct (do_stores_frame cpu [W_flush_vcpu_caches false] s)
      as (Hh & Hc & Ht & He & Hp & _).
    cbn [hw cells this_cpu_id events percpu log with_events].
    rewrite Hh, Hc, Ht, He, Hp. cbn [map foldl].
    rewrite <- !app_assoc. repeat split; reflexivity.
  - repeat split; reflexivity.
Qed.

Ltac in_list :=
  cbn [In app map];
  repeat match goal with
         | |- _ <-> _ => split; intros ?
         | H : _ \/ _ |- _ => destruct H
         | H : False |- _ => destruct H
         | H : _ = _ |- _ => discriminate H
         | H : _ <> _ |- _ => exfalso; apply H; reflexivity
         | |- _ <> _ => discriminate
         | |- _ = _ => reflexivity
         end;
  try (repeat first [left; reflexivity | right]).

(** From the point where the lock is taken again, for a CPU that is not
    asked to suspend and whose record the other CPUs leave alone. *)
Lemma resume_and_finish (turns : nat) (cpu : Z) (sc : schedule) (s : system) :
  this_cpu_id s = cpu ->
  Forall (quiet cpu) sc ->
  suspend_cpu (percpu s cpu) = false ->
  exists s' sc',
    (resume_part P turns cpu ≫= finish_events P cpu) sc s = Some (tt, s', sc')
    /\ handled P cpu (percpu s cpu) s s'
    /\ Forall (quiet cpu) sc'.
Proof.
  intros Hthis Hq Hs.
  destruct (at_lock_quiet P cpu sc s Hq) as [Hp1 Hq1].
  destruct (at_lock_frame P sc s) as (Hh1 & Hc1 & Ht1 & He1).
  unfold mbind at 1. unfold M_bind at 1.
  rewrite resume_part_run by (rewrite Hp1; exact Hs).
  rewrite finish_events_run.
  destruct (at_lock P sc s) as [s1 sc1]. cbn [fst snd] in *.
  rewrite Hp1.
  set (d := percpu s cpu) in *.
  set (ws := (events_resumed_section P d).1.1).
  set (rst := (events_resumed_section P d).2).
  destruct (do_stores_frame cpu ws (log (EvSpinLock cpu) s1))
    as (Hh3 & Hc3 & Ht3 & He3 & Hp3 & _).
  set (s3 := do_stores cpu ws (log (EvSpinLock cpu) s1)) in *.
  cbn [hw cells this_cpu_id events percpu log with_events] in Hh3, Hc3, Ht3, He3, Hp3.
  rewrite Hp1 in Hp3. rewrite He1 in He3.
  destruct (flush_served_frame cpu s3) as (Hh4 & Hc4 & Ht4 & He4 & Hp4).
  cbv zeta in He4, Hp4. rewrite Hp3 in He4, Hp4. rewrite He3 in He4.
  rewrite Hp3.
  set (s4 := flush_served cpu s3) in *.
  assert (this_cpu_id s4 = cpu) as Hthis4 by congruence.
  assert (hw s4 = hw s) as Hhw4 by congruence.
  assert (cells s4 = cells s) as Hcl4 by congruence.
  destruct (at_lock_quiet P cpu sc1 s4 Hq1) as [Hp5 Hq5].
  destruct (arm_cpu_park_spec P sc1 s4) as (sp & Ep & Hrp & Hdp & _ & Hcp & Htp & Hep).
  destruct (cpu_reset_spec P sc1 s4) as (sr & Er & Hrr & Hdr & _ & Hcr & Htr & Her).
  cbv zeta in Hrp, Hdp, Hep, Hrr, Hdr, Her.
  rewrite Hthis4 in Hrp, Hdp, Hep, Htp, Hrr, Hdr, Her, Htr.
  rewrite Hp5 in Hrp, Hdp, Hep.
  rewrite Hp4 in Hrp, Hdp, Hep, Hrr, Hdr, Her.
  rewrite He4 in Hep, Her.
  rewrite Hhw4 in Hrp, Hrr. rewrite Hcl4 in Hcp, Hcr.
  destruct (at_lock P sc1 s4) as [s5 sc5]. cbn [fst snd] in *.
  clear Hp5 Hh1 Hc1 Ht1 He1 Hh3 Hc3 Ht3 He3 Hh4 Hc4 Ht4 Hp1 Hp3.
  clearbody s4. clear s3.
  unfold handled, check_events_outcome.
  unfold ws, rst in *. clear ws rst.
  unfold events_resumed_section, enter_cpu_off in *.
  rewrite Hs in *. cbn [negb] in *.
  destruct d as [id vid cel entry context pk rs su cs wfp fl st gu] eqn:Hd.
  cbn [suspend_cpu park reset cpu_on_entry wait_for_poweron flush_vcpu_caches]
    in *.
  subst su.
  remember (negb (entry =? PSCI_INVALID_ADDRESS P)) as valid eqn:Hvalid in *.
  destruct pk; [|destruct rs; [destruct valid|destruct wfp]];
    cbn [fst snd foldl apply_store wait_for_poweron flush_vcpu_caches map app]
      in *.
  - (* park request *)
    rewrite Ep. exists sp, sc5. split; [reflexivity|]. split; [|exact Hq5].
    rewrite Hdp. cbv zeta.
    destruct fl; cbn in Hep |- *;
      (repeat split; try reflexivity; try congruence;
       [ eexists; split;
         [rewrite Hep, <- ?app_assoc; cbn [app]; reflexivity|];
         split; [|split]; in_list
       | intros r; rewrite Hrp; apply park_value_ext; reflexivity ]).
  - (* reset request with an entry point *)
    rewrite Er. exists sr, sc1. split; [reflexivity|]. split; [|exact Hq1].
    rewrite Hdr. cbv zeta.
    destruct fl; cbn in Her |- *;
      (repeat split; try reflexivity; try congruence;
       [ eexists; split;
         [rewrite Her, <- ?app_assoc; cbn [app]; reflexivity|];
         split; [|split]; in_list
       | intros r; rewrite Hrr; apply reset_value_ext; reflexivity ]).
  - (* reset request without an entry point *)
    rewrite Ep. exists sp, sc5. split; [reflexivity|]. split; [|exact Hq5].
    rewrite Hdp. cbv zeta.
    destruct fl; cbn in Hep |- *;
      (repeat split; try reflexivity; try congruence;
       [ eexists; split;
         [rewrite Hep, <- ?app_assoc; cbn [app]; reflexivity|];
         split; [|split]; in_list
       | intros r; rewrite Hrp; apply park_value_ext; reflexivity ]).
  - (* no request, the CPU is off *)
    rewrite Ep. exists sp, sc5. split; [reflexivity|]. split; [|exact Hq5].
    rewrite Hdp. cbv zeta.
    destruct fl; cbn in Hep |- *;
      (repeat split; try reflexivity; try congruence;
       [ eexists; split;
         [rewrite Hep, <- ?app_assoc; cbn [app]; reflexivity|];
         split; [|split]; in_list
       | intros r; rewrite Hrp; apply park_value_ext; reflexivity ]).
  - (* no request, the CPU runs *)
    exists s4, sc1. split; [reflexivity|]. split; [|exact Hq1].
    rewrite Hp4. cbv zeta.
    destruct fl; cbn in He4 |- *;
      (repeat split; try reflexivity; try congruence;
       eexists; split;
         [rewrite He4, <- ?app_assoc; cbn [app]; reflexivity|];
         split; [|split]; in_list).
Qed.

End CheckEventsHandled.

Module HandshakeSpec.

Import Control.

(** How another CPU lets a suspended CPU go: [arch_resume_cpu],
    [arch_reset_cpu] or [arch_park_cpu]. *)
Inductive wake : Type := WakeResume | WakeReset | WakePark.

(** The critical sections the call amounts to. *)
Definition wake_actions (cpu : Z) (w : wake) : list env_action :=
  match w with
  | WakeResume => [Env_resume cpu]
  | WakeReset => [Env_reset_request cpu; Env_resume cpu]
  | WakePark => [Env_park_request cpu; Env_resume cpu]
  end.

(** The stores to the record of the CPU. *)
Definition wake_stores (w : wake) : list store :=
  match w with
  | WakeResume => [W_suspend_cpu false]
  | WakeReset => [W_reset true; W_suspend_cpu false]
  | WakePark => [W_park true; W_suspend_cpu false]
  end.

(** The other CPUs run while the executing CPU goes through one
    [cpu_relax] after the other. *)
Definition relax_through (P : platform) (waits : schedule) (s : system)
  : system :=
  foldl (λ s acts, env_run P acts (log EvCpuRelax s)) s waits.

End HandshakeSpec.

Section CheckEventsTheorems.

Import Control PsciSpec SuspendSpec ResetSpec EventsSpec HandshakeSpec.

Variable P : platform.

Lemma handled_rebase (cpu : Z) (d : per_cpu) (s0 s s' : system)
    (pre : list event) :
  hw s = hw s0 -> cells s = cells s0 -> this_cpu_id s = this_cpu_id s0 ->
  events s = events s0 ++ pre ->
  ~ In EvFlushTlbs pre ->
  ~ In (EvPagingVcpuInit parking_mm) pre ->
  ~ In (EvIrqchipCpuReset cpu) pre ->
  handled P cpu d s s' -> handled P cpu d s0 s'.
Proof.
  intros Hh Hc Ht He N1 N2 N3.
  unfold handled. rewrite Hh, Hc, Ht, He.
  intros (H1 & H2 & H3 & H4 & H5 & H6 & H7 & H8 & H9 & H10 & H11 & H12
          & (new & Hn & F1 & F2 & F3) & Ho).
  repeat (split; [assumption|]).
  split; [|exact Ho].
  exists (pre ++ new). split; [rewrite Hn, app_assoc; reflexivity|].
  rewrite !in_app_iff. rewrite <- F1, <- F2, <- F3.
  repeat split; intros H; try (right; exact H);
    (destruct H as [H|H]; [contradiction|exact H]).
Qed.

Lemma relax_through_frame (cpu : Z) (waits : schedule) (s : system) :
  Forall (quiet cpu) waits ->
  hw (relax_through P waits s) = hw s
  /\ cells (relax_through P waits s) = cells s
  /\ this_cpu_id (relax_through P waits s) = this_cpu_id s
  /\ events (relax_through P waits s)
     = events s ++ replicate (length waits) EvCpuRelax
  /\ percpu (relax_through P waits s) cpu = percpu s cpu.
Proof.
  unfold relax_through. intros H. revert s.
  induction H as [|acts waits Ha _ IH]; intros s; cbn [foldl length replicate].
  - rewrite app_nil_r. repeat split; reflexivity.
  - destruct (IH (env_run P acts (log EvCpuRelax s))) as (-> & -> & -> & -> & ->).
    destruct (env_run_frame P acts (log EvCpuRelax s)) as (-> & -> & -> & ->).
    rewrite env_run_quiet by exact Ha.
    rewrite log_events, <- app_assoc. repeat split; reflexivity.
Qed.

(** The wait of a suspended CPU ends with the critical section that
    resumes it. *)
Lemma spin_while_woken (cpu : Z) (wake_up : list env_action) (rest : schedule)
    (waits : schedule) :
  Forall (quiet cpu) waits ->
  forall s,
  suspend_cpu (percpu s cpu) = true ->
  suspend_cpu
    (percpu (env_run P wake_up (log EvCpuRelax (relax_through P waits s))) cpu)
  = false ->
  spin_while P (λ s, suspend_cpu (percpu s cpu)) (waits ++ wake_up :: rest) s
  = Some (tt, env_run P wake_up (log EvCpuRelax (relax_through P waits s)), rest).
Proof.
  induction 1 as [|acts waits Ha _ IH]; intros s Hs Hw; cbn [app spin_while].
  - rewrite Hs. apply spin_while_done. exact Hw.
  - rewrite Hs. apply IH; [|exact Hw].
    rewrite env_run_quiet by exact Ha. exact Hs.
Qed.

Lemma wake_actions_run (cpu : Z) (w : wake) (s : system) :
  percpu (env_run P (wake_actions cpu w) s) cpu
  = foldl (λ d w, apply_store w d) (percpu s cpu) (wake_stores w).
Proof.
  destruct w; cbn [wake_actions wake_stores env_run foldl env_step env_stores];
    rewrite ?stores_same; cbn [foldl]; reflexivity.
Qed.

Lemma wake_stores_resume (w : wake) (d : per_cpu) :
  suspend_cpu (foldl (λ d w, apply_store w d) d (wake_stores w)) = false.
Proof. destruct w, d; reflexivity. Qed.

End CheckEventsTheorems.

Section CheckEventsRun.

Import Control PsciSpec SuspendSpec ResetSpec EventsSpec HandshakeSpec.

Variable P : platform.

(** [check_events] up to the end of the wait, and from there on. *)
Lemma check_events_run (cpu : Z) (sc : schedule) (s : system) :
  let s1 := log (EvSpinLock cpu) (at_lock P sc s).1 in
  let sc1 := (at_lock P sc s).2 in
  check_events P cpu sc s
  = match spin_while P (λ s, suspend_cpu (percpu s cpu)) sc1
            (log (EvSpinUnlock cpu)
               (do_stores cpu (events_suspended_section (percpu s1 cpu)) s1))
    with
    | Some (_, sw, scw) =>
        (resume_part P (length sc1) cpu ≫= finish_events P cpu) scw sw
    | None => None
    end.
Proof.
  cbv zeta. rewrite check_events_unfold.
  unfold mbind at 1. unfold M_bind at 1.
  unfold spin_lock at 1. unfold mbind at 1. unfold M_bind at 1.
  rewrite yield_at_lock. unfold emit at 1. unfold modify at 1.
  unfold mbind at 1. unfold M_bind at 1.
  rewrite check_events_loop_unfold.
  unfold mbind at 1. unfold M_bind at 1.
  unfold read at 1. unfold mbind at 1. unfold M_bind at 1.
  unfold get at 1. unfold mret at 1. unfold M_ret at 1.
  unfold mbind at 1. unfold M_bind at 1.
  rewrite write_all_run.
  unfold mbind at 1. unfold M_bind at 1.
  unfold spin_unlock at 1. unfold emit at 1. unfold modify at 1.
  unfold mbind at 1. unfold M_bind at 1.
  destruct (spin_while P _ _ _) as [[[[] sw] scw]|]; reflexivity.
Qed.

End CheckEventsRun.

(** X13.  [cpu_reset] always returns and takes no turn of the schedule.
    Afterwards every banked and system register of the CPU is zero, but
    for: the return state ([ELR_hyp] is the entry point of the CPU's
    record, [SPSR_hyp] is [RESET_PSR]), the virtual MPIDR (the virtual id
    with the multiprocessing bit), the system control register (as before
    without the bits of [SCTLR_MASK]), and the registers it does not write
    ([LR_usr], the auxiliary control register and the ones only reachable
    by CP15 encoding).  The guest's user registers are all zero, but for r1,
    which carries the CPU_ON context.  Nothing else of the CPU's record, no
    other CPU's record and no cell changes; the address space of the cell
    is selected and then the interrupt controller reset, in this order,
    at the end. *)
Theorem cpu_reset_wipes_the_cpu
    (P : Control.platform) (sc : Control.schedule) (s : Control.system) :
  let this := Control.this_cpu_id s in
  let d := Control.percpu s this in
  exists s',
    Control.cpu_reset P sc s = Some (tt, s', sc)
    /\ (forall r, Hw.read_reg (Control.hw s') r
                  = ResetSpec.reset_value P d (Control.hw s) r)
    /\ Control.percpu s' this
       = Control.apply_store (Control.W_guest_usr (ResetSpec.reset_usr d)) d
    /\ (forall c, c <> this -> Control.percpu s' c = Control.percpu s c)
    /\ Control.cells s' = Control.cells s
    /\ Control.this_cpu_id s' = this
    /\ Control.events s'
       = Control.events s
         ++ [Control.EvStore this
               (Control.W_guest_usr ((λ _, 0) <$> Control.guest_usr d));
             Control.EvStore this (Control.W_guest_usr (ResetSpec.reset_usr d));
             Control.EvPagingVcpuInit (Control.cell_mm (Control.cell d));
             Control.EvIrqchipCpuReset this].
Proof. exact (cpu_reset_spec P sc s). Qed.

(** X14.  [arm_cpu_park] always returns, whatever the other CPUs do while
    it waits for its lock.  With the CPU's record as it is when the lock is
    taken: the CPU is off afterwards ([wait_for_poweron] set, [park]
    cleared, both stored under the lock), it is reset as by [cpu_reset],
    but returns to address 0 whatever entry point its record holds, and the
    last thing that happens is the switch to the parking address space. *)
Theorem arm_cpu_park_turns_the_cpu_off
    (P : Control.platform) (sc : Control.schedule) (s : Control.system) :
  let this := Control.this_cpu_id s in
  let s1 := (PsciSpec.at_lock P sc s).1 in
  let d := ResetSpec.cpu_off (Control.percpu s1 this) in
  exists s',
    Control.arm_cpu_park P sc s = Some (tt, s', (PsciSpec.at_lock P sc s).2)
    /\ Control.wait_for_poweron (Control.percpu s' this) = true
    /\ Control.park (Control.percpu s' this) = false
    /\ Control.percpu s' this
       = Control.apply_store (Control.W_guest_usr (ResetSpec.reset_usr d)) d
    /\ (forall r, Hw.read_reg (Control.hw s') r
                  = ResetSpec.park_value P d (Control.hw s) r)
    /\ Hw.read_reg (Control.hw s') Hw.ELR_hyp = 0
    /\ (forall c, c <> this -> Control.percpu s' c = Control.percpu s1 c)
    /\ Control.events s'
       = Control.events s
         ++ [Control.EvSpinLock this;
             Control.EvStore this (Control.W_park false);
             Control.EvStore this (Control.W_wait_for_poweron true);
             Control.EvSpinUnlock this;
             Control.EvStore this
               (Control.W_guest_usr ((λ _, 0) <$> Control.guest_usr d));
             Control.EvStore this (Control.W_guest_usr (ResetSpec.reset_usr d));
             Control.EvPagingVcpuInit (Control.cell_mm (Control.cell d));
             Control.EvIrqchipCpuReset this;
             Control.EvPagingVcpuInit Control.parking_mm].
Proof.
  cbv zeta.
  destruct (arm_cpu_park_spec P sc s) as (s' & E & Hr & Hd & Ho & _ & _ & He).
  cbv zeta in Hr, Hd, Ho, He.
  exists s'. split; [exact E|].
  split; [|split; [|split; [exact Hd|split; [exact Hr|split; [|split;
    [exact Ho|exact He]]]]]].
  - rewrite Hd. destruct (Control.percpu _ _). reflexivity.
  - rewrite Hd. destruct (Control.percpu _ _). reflexivity.
  - rewrite Hr. reflexivity.
Qed.

(** [check_events] for a CPU that is not asked to suspend. *)
Lemma check_events_quiet
    (P : Control.platform) (cpu : Z) (sc : Control.schedule)
    (s : Control.system) :
  Control.this_cpu_id s = cpu ->
  Forall (EventsSpec.quiet cpu) sc ->
  Control.suspend_cpu (Control.percpu s cpu) = false ->
  exists s' sc',
    Control.check_events P cpu sc s = Some (tt, s', sc')
    /\ EventsSpec.handled P cpu (Control.percpu s cpu) s s'.
Proof.
  intros Hthis Hq Hs.
  destruct (at_lock_quiet P cpu sc s Hq) as [Hp1 Hq1].
  destruct (at_lock_frame P sc s) as (Hh1 & Hc1 & Ht1 & He1).
  rewrite check_events_run. cbv zeta.
  rewrite percpu_log, Hp1. unfold Control.events_suspended_section.
  rewrite Hs. cbn [EventsSpec.do_stores foldl].
  rewrite spin_while_done by (rewrite !percpu_log, Hp1; exact Hs).
  match goal with
  | |- context [(_ ≫= _) ?c ?st] =>
      destruct (resume_and_finish P (length c) cpu c st) as (s' & sc' & E & H & _)
  end.
  - cbn [Control.this_cpu_id Control.log Control.with_events]. congruence.
  - exact Hq1.
  - rewrite !percpu_log, Hp1. exact Hs.
  - exists s', sc'. split; [exact E|].
    rewrite !percpu_log, Hp1 in H.
    eapply (handled_rebase P cpu _ s _ s'
              [Control.EvSpinLock cpu; Control.EvSpinUnlock cpu]);
      [| | | | | | |exact H].
    + cbn [Control.hw Control.log Control.with_events]. exact Hh1.
    + cbn [Control.cells Control.log Control.with_events]. exact Hc1.
    + cbn [Control.this_cpu_id Control.log Control.with_events]. exact Ht1.
    + rewrite !log_events, He1, <- app_assoc. reflexivity.
    + cbn [In]. intros [E'|[E'|[]]]; discriminate E'.
    + cbn [In]. intros [E'|[E'|[]]]; discriminate E'.
    + cbn [In]. intros [E'|[E'|[]]]; discriminate E'.
Qed.

(** X15.  [check_events] on a CPU that is not asked to suspend, while the
    other CPUs leave its record alone, returns, and serves what it finds in
    the record: a park request turns the CPU off as [arm_cpu_park] does,
    and wins over a reset request, which stays pending; a reset request
    with a valid entry point resets the CPU as [cpu_reset] does, with
    [wait_for_poweron] cleared; a reset request without one turns the CPU
    off; a CPU that is off is parked again; otherwise registers and guest
    registers are left alone.  In every case the suspend, park and flush
    flags are clear afterwards, the TLBs are flushed exactly if the flush
    flag was set, and entry point, context, virtual id, cell and counters
    of the record are as before. *)
Theorem check_events_serves_requests
    (P : Control.platform) (cpu : Z) (sc : Control.schedule)
    (s : Control.system) :
  Control.this_cpu_id s = cpu ->
  Forall (EventsSpec.quiet cpu) sc ->
  Control.suspend_cpu (Control.percpu s cpu) = false ->
  exists s' sc',
    Control.check_events P cpu sc s = Some (tt, s', sc')
    /\ EventsSpec.handled P cpu (Control.percpu s cpu) s s'.
Proof. exact (check_events_quiet P cpu sc s). Qed.

Lemma check_events_serves_requests_witness :
  exists s' sc',
    Control.check_events demo_platform 3 [[Control.Env_suspend 5]] demo_system
    = Some (tt, s', sc')
    /\ EventsSpec.handled demo_platform 3 (Control.percpu demo_system 3)
         demo_system s'.
Proof.
  apply (check_events_serves_requests demo_platform 3
           [[Control.Env_suspend 5]] demo_system).
  - reflexivity.
  - repeat constructor. discriminate.
  - reflexivity.
Defined.

(** X16.  A CPU that is asked to suspend does not leave [check_events]
    before another CPU resumes it: as long as no [arch_resume_cpu] for it
    runs (not even through [arch_reset_cpu] or [arch_park_cpu]), the call
    does not return, whatever else the other CPUs do. *)
Theorem check_events_waits_while_suspended
    (P : Control.platform) (cpu : Z) (sc : Control.schedule)
    (s : Control.system) :
  Control.suspend_cpu (Control.percpu s cpu) = true ->
  Forall (SuspendSpec.no_resume cpu) sc ->
  Control.check_events P cpu sc s = None.
Proof.
  intros Hs Hsc.
  assert (Control.suspend_cpu (Control.percpu (PsciSpec.at_lock P sc s).1 cpu)
          = true
          /\ Forall (SuspendSpec.no_resume cpu) (PsciSpec.at_lock P sc s).2)
    as [Hs1 Hsc1].
  { destruct Hsc as [|acts rest Ha Hr]; cbn [PsciSpec.at_lock fst snd].
    - split; [exact Hs|constructor].
    - split; [|exact Hr]. apply env_run_keeps_request; assumption. }
  rewrite check_events_run. cbv zeta.
  rewrite spin_while_blocked; [reflexivity|exact Hsc1|].
  rewrite !percpu_log. unfold Control.events_suspended_section.
  rewrite Hs1.
  destruct (do_stores_frame cpu [Control.W_cpu_suspended true]
              (Control.log (Control.EvSpinLock cpu) (PsciSpec.at_lock P sc s).1))
    as (_ & _ & _ & _ & -> & _).
  rewrite percpu_log. cbn [foldl].
  destruct (Control.percpu (PsciSpec.at_lock P sc s).1 cpu);
    cbn in Hs1 |- *; exact Hs1.
Qed.

(** CPU 3 has been asked to suspend. *)
Definition demo_suspend_requested : Control.system :=
  Control.stores 3 [Control.W_suspend_cpu true] demo_system.

Lemma check_events_waits_while_suspended_witness :
  Control.check_events demo_platform 3
    [[]; [Control.Env_reset_request 3]; [Control.Env_cpu_on 5 0x8000 7]]
    demo_suspend_requested
  = None.
Proof.
  apply (check_events_waits_while_suspended demo_platform 3).
  - reflexivity.
  - repeat constructor; discriminate.
Defined.

(** [check_events] for a CPU that is asked to suspend and then let go. *)
Lemma check_events_woken
    (P : Control.platform) (cpu : Z) (w : HandshakeSpec.wake)
    (q0 : list Control.env_action) (waits rest : Control.schedule)
    (s : Control.system) :
  Control.this_cpu_id s = cpu ->
  EventsSpec.quiet cpu q0 ->
  Forall (EventsSpec.quiet cpu) waits ->
  Forall (EventsSpec.quiet cpu) rest ->
  Control.suspend_cpu (Control.percpu s cpu) = true ->
  let found :=
    foldl (λ d w, Control.apply_store w d) (Control.percpu s cpu)
          (Control.W_cpu_suspended true :: HandshakeSpec.wake_stores w) in
  exists s' sc',
    Control.check_events P cpu
      (q0 :: waits ++ HandshakeSpec.wake_actions cpu w :: rest) s
    = Some (tt, s', sc')
    /\ EventsSpec.handled P cpu found s s'
    /\ In (Control.EvStore cpu (Control.W_cpu_suspended true)) (Control.events s')
    /\ match w with
       | HandshakeSpec.WakePark =>
           EventsSpec.check_events_outcome P found = EventsSpec.Parks
       | HandshakeSpec.WakeReset =>
           Control.park (Control.percpu s cpu) = false ->
           EventsSpec.check_events_outcome P found
           = if Control.cpu_on_entry (Control.percpu s cpu)
                =? Control.PSCI_INVALID_ADDRESS P
             then EventsSpec.Parks else EventsSpec.Resets
       | HandshakeSpec.WakeResume =>
           EventsSpec.check_events_outcome P found
           = EventsSpec.check_events_outcome P (Control.percpu s cpu)
       end.
Proof.
  intros Hthis Hq0 Hqw Hqr Hs. cbv zeta.
  rewrite check_events_run. cbn [PsciSpec.at_lock fst snd].
  rewrite percpu_log, (env_run_quiet P cpu q0 s Hq0).
  unfold Control.events_suspended_section. rewrite Hs.
  destruct (env_run_frame P q0 s) as (Hh1 & Hc1 & Ht1 & He1).
  set (s1 := Control.env_run P q0 s) in *.
  destruct (do_stores_frame cpu [Control.W_cpu_suspended true]
              (Control.log (Control.EvSpinLock cpu) s1))
    as (Hh2 & Hc2 & Ht2 & He2 & Hp2 & _).
  cbn [Control.hw Control.cells Control.this_cpu_id Control.events
       Control.percpu Control.log Control.with_events map foldl] in Hh2, Hc2, Ht2, He2, Hp2.
  unfold s1 in Hp2. rewrite (env_run_quiet P cpu q0 s Hq0) in Hp2. fold s1 in Hp2.
  set (s2 := Control.log (Control.EvSpinUnlock cpu)
               (EventsSpec.do_stores cpu [Control.W_cpu_suspended true]
                  (Control.log (Control.EvSpinLock cpu) s1))) in *.
  assert (Control.percpu s2 cpu
          = Control.apply_store (Control.W_cpu_suspended true)
              (Control.percpu s cpu)) as Hp2' by exact Hp2.
  destruct (relax_through_frame P cpu waits s2 Hqw) as (Hh3 & Hc3 & Ht3 & He3 & Hp3).
  set (s3 := Control.log Control.EvCpuRelax (HandshakeSpec.relax_through P waits s2)) in *.
  destruct (env_run_frame P (HandshakeSpec.wake_actions cpu w) s3)
    as (Hh4 & Hc4 & Ht4 & He4).
  pose proof (wake_actions_run P cpu w s3) as Hp4.
  unfold s3 in Hp4 at 2. rewrite percpu_log, Hp3, Hp2' in Hp4.
  set (sw := Control.env_run P (HandshakeSpec.wake_actions cpu w) s3) in *.
  assert (Control.suspend_cpu (Control.percpu sw cpu) = false) as Hsw.
  { rewrite Hp4. apply wake_stores_resume. }
  rewrite (spin_while_woken P cpu (HandshakeSpec.wake_actions cpu w) rest waits
             Hqw s2).
  2: { rewrite Hp2'. destruct (Control.percpu s cpu); cbn in Hs |- *; exact Hs. }
  2: { exact Hsw. }
  fold s3. fold sw.
  destruct (resume_and_finish P (length (waits ++ HandshakeSpec.wake_actions cpu w :: rest))
              cpu rest sw) as (s' & sc' & E & H & _).
  { unfold s3, s2 in *.
    cbn [Control.this_cpu_id Control.log Control.with_events] in *. congruence. }
  { exact Hqr. }
  { exact Hsw. }
  exists s', sc'. split; [exact E|].
  rewrite Hp4 in H.
  assert (Control.events sw
          = Control.events s
            ++ [Control.EvSpinLock cpu;
                Control.EvStore cpu (Control.W_cpu_suspended true);
                Control.EvSpinUnlock cpu]
            ++ replicate (length waits) Control.EvCpuRelax
            ++ [Control.EvCpuRelax]) as Hev.
  { rewrite He4. unfold s3. rewrite log_events, He3. unfold s2.
    rewrite log_events, He2, He1, <- !app_assoc. reflexivity. }
  assert (forall e, e <> Control.EvSpinLock cpu ->
                    e <> Control.EvStore cpu (Control.W_cpu_suspended true) ->
                    e <> Control.EvSpinUnlock cpu ->
                    e <> Control.EvCpuRelax ->
          ~ In e ([Control.EvSpinLock cpu;
                   Control.EvStore cpu (Control.W_cpu_suspended true);
                   Control.EvSpinUnlock cpu]
                  ++ replicate (length waits) Control.EvCpuRelax
                  ++ [Control.EvCpuRelax])) as Hnot.
  { intros e N1 N2 N3 N4. rewrite !in_app_iff. cbn [In].
    intros [[E'|[E'|[E'|[]]]]|[E'|[E'|[]]]]; try congruence.
    apply list_elem_of_In, elem_of_replicate in E'. destruct E'. congruence. }
  split; [|split].
  - eapply (handled_rebase P cpu _ s sw s'); [| | |exact Hev| | | |exact H].
    + unfold s3, s2 in *.
      cbn [Control.hw Control.log Control.with_events] in *. congruence.
    + unfold s3, s2 in *.
      cbn [Control.cells Control.log Control.with_events] in *. congruence.
    + unfold s3, s2 in *.
      cbn [Control.this_cpu_id Control.log Control.with_events] in *. congruence.
    + apply Hnot; discriminate.
    + apply Hnot; discriminate.
    + apply Hnot; discriminate.
  - destruct H as (_ & _ & _ & _ & _ & _ & _ & _ & _ & _ & _ & _
                   & (new & Hn & _) & _).
    rewrite Hn, Hev, !in_app_iff. left. right. left. cbn [In]. right. left.
    reflexivity.
  - unfold EventsSpec.check_events_outcome.
    destruct (Control.percpu s cpu) as [id vid cel entry context pk rs su cs wfp fl st gu].
    destruct w; cbn.
    + reflexivity.
    + intros ->. destruct (entry =? Control.PSCI_INVALID_ADDRESS P); reflexivity.
    + reflexivity.
Qed.

(** X17.  The handshake that ends a suspension.  A CPU enters
    [check_events] asked to suspend; it acknowledges ([cpu_suspended]) and
    waits; the other CPUs leave its record alone until one of them calls
    [arch_resume_cpu], [arch_reset_cpu] or [arch_park_cpu] for it.  Then
    [check_events] returns, having served the record as that call left it:
    after [arch_park_cpu] the CPU is off and parked; after [arch_reset_cpu]
    it is reset to its entry point if it has a valid one and off
    otherwise; after [arch_resume_cpu] it serves what was pending before.
    The acknowledgement is withdrawn in every case. *)
Theorem check_events_handshake
    (P : Control.platform) (cpu : Z) (w : HandshakeSpec.wake)
    (q0 : list Control.env_action) (waits rest : Control.schedule)
    (s : Control.system) :
  Control.this_cpu_id s = cpu ->
  EventsSpec.quiet cpu q0 ->
  Forall (EventsSpec.quiet cpu) waits ->
  Forall (EventsSpec.quiet cpu) rest ->
  Control.suspend_cpu (Control.percpu s cpu) = true ->
  let found :=
    foldl (λ d w, Control.apply_store w d) (Control.percpu s cpu)
          (Control.W_cpu_suspended true :: HandshakeSpec.wake_stores w) in
  exists s' sc',
    Control.check_events P cpu
      (q0 :: waits ++ HandshakeSpec.wake_actions cpu w :: rest) s
    = Some (tt, s', sc')
    /\ EventsSpec.handled P cpu found s s'
    /\ In (Control.EvStore cpu (Control.W_cpu_suspended true)) (Control.events s')
    /\ match w with
       | HandshakeSpec.WakePark =>
           EventsSpec.check_events_outcome P found = EventsSpec.Parks
       | HandshakeSpec.WakeReset =>
           Control.park (Control.percpu s cpu) = false ->
           EventsSpec.check_events_outcome P found
           = if Control.cpu_on_entry (Control.percpu s cpu)
                =? Control.PSCI_INVALID_ADDRESS P
             then EventsSpec.Parks else EventsSpec.Resets
       | HandshakeSpec.WakeResume =>
           EventsSpec.check_events_outcome P found
           = EventsSpec.check_events_outcome P (Control.percpu s cpu)
       end.
Proof. exact (check_events_woken P cpu w q0 waits rest s). Qed.

Lemma check_events_handshake_witness :
  exists s' sc',
    Control.check_events demo_platform 3
      ([Control.Env_suspend 5]
       :: [[]; [Control.Env_events_suspended 5]]
          ++ HandshakeSpec.wake_actions 3 HandshakeSpec.WakePark :: [[]]) 
      demo_suspend_requested
    = Some (tt, s', sc')
    /\ EventsSpec.check_events_outcome demo_platform
         (foldl (λ d w, Control.apply_store w d)
                (Control.percpu demo_suspend_requested 3)
                (Control.W_cpu_suspended true
                 :: HandshakeSpec.wake_stores HandshakeSpec.WakePark))
       = EventsSpec.Parks.
Proof.
  destruct (check_events_handshake demo_platform 3 HandshakeSpec.WakePark
              [Control.Env_suspend 5] [[]; [Control.Env_events_suspended 5]]
              [[]] demo_suspend_requested)
    as (s' & sc' & E & _ & _ & H).
  - reflexivity.
  - repeat constructor; discriminate.
  - repeat constructor; discriminate.
  - repeat constructor.
  - reflexivity.
  - exists s', sc'. split; [exact E|exact H].
Defined.

(** * psci.c: CPU_ON and CPU_OFF end to end *)

Module BootSpec.

Import Control.

(** The system as the CPU [cpu] sees it: the shared records and cells, and
    its own registers. *)
Definition on_cpu (cpu : Z) (regs : Hw.hw_state) (s : system) : system :=
  mk_system (percpu s) (cells s) cpu regs (events s).

End BootSpec.

Section PsciEndToEnd.

Import Control Psci PsciSpec ResetSpec EventsSpec BootSpec.

Variable P : platform.
Variable arm_cpu_by_mpidr : system -> Z -> Z -> Z.

Lemma psci_emulate_affinity_info_run (cpu_data : Z) (ctx : Traps.trap_context)
    (sc : schedule) (s : system) :
  let cpu := arm_cpu_by_mpidr s (cell (percpu s cpu_data)) (ctx_reg ctx 1) in
  psci_emulate_affinity_info arm_cpu_by_mpidr cpu_data ctx sc s
  = Some (if cpu =? UINT_MINUS_1 then PSCI_DENIED
          else if wait_for_poweron (percpu s cpu) then PSCI_CPU_IS_OFF
               else PSCI_CPU_IS_ON,
          s, sc).
Proof.
  cbv zeta.
  unfold psci_emulate_affinity_info, read, get, mbind, M_bind, mret, M_ret.
  destruct (_ =? UINT_MINUS_1); reflexivity.
Qed.

(** CPU_ON for a CPU whose record the other CPUs leave alone meanwhile. *)
Lemma psci_emulate_cpu_on_quiet (cpu_data : Z) (ctx : Traps.trap_context)
    (sc : schedule) (s : system) :
  let cpu := arm_cpu_by_mpidr s (cell (percpu s cpu_data)) (ctx_reg ctx 1) in
  cpu <> UINT_MINUS_1 ->
  Forall (quiet cpu) sc ->
  exists s' sc',
    psci_emulate_cpu_on P arm_cpu_by_mpidr cpu_data ctx sc s
    = Some (if wait_for_poweron (percpu s cpu) then PSCI_SUCCESS
            else PSCI_ALREADY_ON, s', sc').
Proof.
  cbv zeta. intros Hne Hq.
  rewrite (psci_emulate_cpu_on_locked P arm_cpu_by_mpidr cpu_data ctx sc s Hne).
  cbv zeta. destruct (at_lock_quiet P _ sc s Hq) as [-> _].
  destruct (wait_for_poweron _); eexists _, _; reflexivity.
Qed.

End PsciEndToEnd.

(** X18.  PSCI CPU_ON boots the target.  If the MPIDR argument names a CPU
    of the caller's cell that is off (and neither asked to suspend nor to
    park) when its lock is taken, and the entry point is a valid address,
    [psci_emulate_cpu_on] returns [PSCI_SUCCESS]; and when the target then
    runs [check_events], on whatever registers it has, while the other CPUs
    leave its record alone, it comes back reset: it returns to the entry
    point of the call with [RESET_PSR], every guest register is zero but r1,
    which holds the context argument, and it is no longer off, so that a
    second CPU_ON for it is answered with [PSCI_ALREADY_ON] and an
    AFFINITY_INFO with [PSCI_CPU_IS_ON]. *)
Theorem psci_cpu_on_boots_the_target
    (P : Control.platform) (arm_cpu_by_mpidr : Control.system -> Z -> Z -> Z)
    (caller : Z) (ctx : Traps.trap_context)
    (sc sc_t : Control.schedule) (s : Control.system) (regs_t : Hw.hw_state) :
  let target := arm_cpu_by_mpidr s (Control.cell (Control.percpu s caller))
                                 (Psci.ctx_reg ctx 1) in
  let d := Control.percpu (PsciSpec.at_lock P sc s).1 target in
  target <> UINT_MINUS_1 ->
  Control.wait_for_poweron d = true ->
  Control.suspend_cpu d = false ->
  Control.park d = false ->
  Psci.ctx_reg ctx 2 <> Control.PSCI_INVALID_ADDRESS P ->
  Forall (EventsSpec.quiet target) sc_t ->
  exists s2 sc2,
    Psci.psci_emulate_cpu_on P arm_cpu_by_mpidr caller ctx sc s
    = Some (Psci.PSCI_SUCCESS, s2, sc2)
    /\ exists s3 sc3,
        Control.check_events P target sc_t (BootSpec.on_cpu target regs_t s2)
        = Some (tt, s3, sc3)
        /\ Hw.read_reg (Control.hw s3) Hw.ELR_hyp = Psci.ctx_reg ctx 2
        /\ Hw.read_reg (Control.hw s3) Hw.SPSR_hyp = Control.RESET_PSR P
        /\ Control.guest_usr (Control.percpu s3 target)
           = <[1%nat := Psci.ctx_reg ctx 3]> ((λ _, 0) <$> Control.guest_usr d)
        /\ Control.wait_for_poweron (Control.percpu s3 target) = false
        /\ Control.reset (Control.percpu s3 target) = false
        /\ (forall caller' ctx' sc',
            arm_cpu_by_mpidr s3 (Control.cell (Control.percpu s3 caller'))
                             (Psci.ctx_reg ctx' 1) = target ->
            Psci.psci_emulate_affinity_info arm_cpu_by_mpidr caller' ctx' sc' s3
            = Some (Psci.PSCI_CPU_IS_ON, s3, sc')
            /\ (Forall (EventsSpec.quiet target) sc' ->
                exists s4 sc4,
                  Psci.psci_emulate_cpu_on P arm_cpu_by_mpidr caller' ctx' sc' s3
                  = Some (Psci.PSCI_ALREADY_ON, s4, sc4))).
Proof.
  cbv zeta. intros Hne Hwfp Hsus Hpark Hentry Hq.
  rewrite (psci_emulate_cpu_on_locked P arm_cpu_by_mpidr caller ctx sc s Hne).
  cbv zeta. rewrite Hwfp.
  set (target := arm_cpu_by_mpidr s (Control.cell (Control.percpu s caller))
                                  (Psci.ctx_reg ctx 1)) in *.
  set (s1 := (PsciSpec.at_lock P sc s).1) in *.
  eexists _, _. split; [reflexivity|].
  match goal with
  | |- context [BootSpec.on_cpu target regs_t ?st] => set (s2 := st)
  end.
  assert (Control.percpu (BootSpec.on_cpu target regs_t s2) target
          = Control.apply_store (Control.W_reset true)
              (Control.apply_store (Control.W_cpu_on_context (Psci.ctx_reg ctx 3))
                 (Control.apply_store (Control.W_cpu_on_entry (Psci.ctx_reg ctx 2))
                    (Control.percpu s1 target)))) as Hrec.
  { unfold BootSpec.on_cpu, s2. cbn [Control.percpu].
    repeat first [rewrite stores_same | rewrite percpu_log]. reflexivity. }
  destruct (check_events_quiet P target sc_t (BootSpec.on_cpu target regs_t s2))
    as (s3 & sc3 & E & H).
  { reflexivity. }
  { exact Hq. }
  { rewrite Hrec. destruct (Control.percpu s1 target); exact Hsus. }
  exists s3, sc3. split; [exact E|].
  rewrite Hrec in H. unfold EventsSpec.handled in H.
  destruct (Control.percpu s1 target)
    as [id vid cel entry context pk rs su cs wfp fl st gu] eqn:Hd.
  cbn in Hwfp, Hsus, Hpark. subst.
  unfold EventsSpec.check_events_outcome in H.
  cbn [Control.apply_store Control.park Control.reset Control.cpu_on_entry
       Control.flush_vcpu_caches Control.cpu_on_context Control.virt_id
       Control.cell Control.stats Control.guest_usr] in H.
  apply Z.eqb_neq in Hentry. rewrite Hentry in H. cbn [negb andb] in H.
  destruct H as (_ & _ & _ & _ & Hrs & _ & _ & _ & _ & _ & _ & _ & _
                 & Hw & Hgu & Hr).
  split; [rewrite Hr; reflexivity|]. split; [rewrite Hr; reflexivity|].
  split; [exact Hgu|]. split; [exact Hw|]. split; [exact Hrs|].
  intros caller' ctx' sc' Hlook. split.
  - rewrite psci_emulate_affinity_info_run. cbv zeta. rewrite Hlook, Hw.
    apply Z.eqb_neq in Hne. rewrite Hne. reflexivity.
  - intros Hq'.
    destruct (psci_emulate_cpu_on_quiet P arm_cpu_by_mpidr caller' ctx' sc' s3)
      as (s4 & sc4 & E4).
    + rewrite Hlook. exact Hne.
    + rewrite Hlook. exact Hq'.
    + rewrite Hlook, Hw in E4. exists s4, sc4. exact E4.
Qed.

Lemma psci_cpu_on_boots_the_target_witness :
  exists s2 sc2,
    Psci.psci_emulate_cpu_on demo_platform demo_cpu_by_mpidr 3 demo_cpu_on_ctx
      [] demo_created
    = Some (Psci.PSCI_SUCCESS, s2, sc2)
    /\ exists s3 sc3,
        Control.check_events demo_platform 5 [[Control.Env_suspend 3]]
          (BootSpec.on_cpu 5 (Hw.mk_hw_state (λ _, 0) []) s2)
        = Some (tt, s3, sc3)
        /\ Hw.read_reg (Control.hw s3) Hw.ELR_hyp = 0x80001000
        /\ Control.wait_for_poweron (Control.percpu s3 5) = false.
Proof.
  destruct (psci_cpu_on_boots_the_target demo_platform demo_cpu_by_mpidr 3
              demo_cpu_on_ctx [] [[Control.Env_suspend 3]] demo_created
              (Hw.mk_hw_state (λ _, 0) []))
    as (s2 & sc2 & E & s3 & sc3 & E3 & H1 & _ & _ & H4 & _).
  - vm_compute. discriminate.
  - vm_compute. reflexivity.
  - vm_compute. reflexivity.
  - vm_compute. reflexivity.
  - vm_compute. discriminate.
  - repeat constructor. vm_compute. discriminate.
  - exists s2, sc2. split; [exact E|]. exists s3, sc3.
    split; [exact E3|]. split; [exact H1|exact H4].
Defined.

(** X19.  PSCI CPU_OFF turns the calling CPU off.  For either CPU_OFF
    function id, [psci_dispatch] returns 0 with the CPU parked: it is off
    ([wait_for_poweron] set, [park] clear), it returns to address 0 in the
    parking address space, which is selected last; and from then on an
    AFFINITY_INFO that names it is answered with [PSCI_CPU_IS_OFF], and a
    CPU_ON that names it, while the other CPUs leave its record alone, with
    [PSCI_SUCCESS]. *)
Theorem psci_cpu_off_parks_the_caller
    (P : Control.platform) (I : Psci.psci_ids)
    (arm_cpu_by_mpidr : Control.system -> Z -> Z -> Z)
    (ctx : Traps.trap_context) (sc : Control.schedule) (s : Control.system) :
  let this := Control.this_cpu_id s in
  let function_id := u32 (Psci.ctx_reg ctx 0) in
  function_id <> Psci.PSCI_VERSION I ->
  function_id = Psci.PSCI_CPU_OFF
  \/ function_id = Psci.PSCI_CPU_OFF_V0_1_UBOOT I ->
  exists s' sc',
    Psci.psci_dispatch P I arm_cpu_by_mpidr ctx sc s = Some (0, s', sc')
    /\ Control.wait_for_poweron (Control.percpu s' this) = true
    /\ Control.park (Control.percpu s' this) = false
    /\ Hw.read_reg (Control.hw s') Hw.ELR_hyp = 0
    /\ last (Control.events s') = Some (Control.EvPagingVcpuInit Control.parking_mm)
    /\ (forall caller' ctx' sc'',
        arm_cpu_by_mpidr s' (Control.cell (Control.percpu s' caller'))
                         (Psci.ctx_reg ctx' 1) = this ->
        this <> UINT_MINUS_1 ->
        Psci.psci_emulate_affinity_info arm_cpu_by_mpidr caller' ctx' sc'' s'
        = Some (Psci.PSCI_CPU_IS_OFF, s', sc'')
        /\ (Forall (EventsSpec.quiet this) sc'' ->
            exists s4 sc4,
              Psci.psci_emulate_cpu_on P arm_cpu_by_mpidr caller' ctx' sc'' s'
              = Some (Psci.PSCI_SUCCESS, s4, sc4))).
Proof.
  cbv zeta. intros Hv Hoff.
  unfold Psci.psci_dispatch.
  unfold mbind at 1. unfold Control.M_bind at 1. unfold Control.get at 1.
  unfold mbind at 1. unfold Control.M_bind at 1.
  unfold Control.write at 1. unfold Control.modify at 1.
  apply Z.eqb_neq in Hv. rewrite Hv.
  assert ((u32 (Psci.ctx_reg ctx 0) =? Psci.PSCI_CPU_OFF)
          || (u32 (Psci.ctx_reg ctx 0) =? Psci.PSCI_CPU_OFF_V0_1_UBOOT I) = true)
    as ->.
  { destruct Hoff as [->| ->]; rewrite Z.eqb_refl; [reflexivity|apply orb_true_r]. }
  unfold mbind at 1. unfold Control.M_bind at 1.
  match goal with
  | |- context [Control.arm_cpu_park P sc ?st] =>
      destruct (arm_cpu_park_spec P sc st)
        as (s' & E & Hr & Hd & _ & _ & Ht & He);
      rewrite E
  end.
  cbv zeta in Hr, Hd, Ht, He.
  cbn [Control.this_cpu_id Control.log Control.with_events Control.stores
       Control.with_percpu] in Hr, Hd, Ht, He.
  exists s', (PsciSpec.at_lock P sc
                (Control.log
                   (Control.EvStore (Control.this_cpu_id s)
                      (Control.W_stats_add Control.JAILHOUSE_CPU_STAT_VMEXITS_PSCI 1))
                   (Control.stores (Control.this_cpu_id s)
                      [Control.W_stats_add Control.JAILHOUSE_CPU_STAT_VMEXITS_PSCI 1]
                      s))).2.
  split; [reflexivity|].
  assert (Control.wait_for_poweron (Control.percpu s' (Control.this_cpu_id s))
          = true) as Hw.
  { rewrite Hd. destruct (Control.percpu _ _). reflexivity. }
  split; [exact Hw|]. split.
  { rewrite Hd. destruct (Control.percpu _ _). reflexivity. }
  split; [rewrite Hr; reflexivity|]. split.
  { rewrite He.
    match goal with
    | |- last (?l ++ ?l') = _ =>
        change l' with ((removelast l') ++ [Control.EvPagingVcpuInit Control.parking_mm])
    end.
    rewrite app_assoc. apply last_snoc. }
  intros caller' ctx' sc'' Hlook Hne. split.
  - rewrite psci_emulate_affinity_info_run. cbv zeta. rewrite Hlook, Hw.
    apply Z.eqb_neq in Hne. rewrite Hne. reflexivity.
  - intros Hq.
    destruct (psci_emulate_cpu_on_quiet P arm_cpu_by_mpidr caller' ctx' sc'' s')
      as (s4 & sc4 & E4).
    + rewrite Hlook. exact Hne.
    + rewrite Hlook. exact Hq.
    + rewrite Hlook, Hw in E4. exists s4, sc4. exact E4.
Qed.

(** The trap context of a CPU_OFF call. *)
Definition demo_cpu_off_ctx : Traps.trap_context :=
  Traps.mk_trap_context 0x8000 0x13 0
    [0x84000002; 0; 0; 0; 0; 0; 0; 0; 0; 0; 0; 0; 0; 0].

Definition demo_psci_ids : Psci.psci_ids :=
  Psci.mk_psci_ids 0x84000000 0x95c1ba5f 0x95c1ba60.

Lemma psci_cpu_off_parks_the_caller_witness :
  exists s' sc',
    Psci.psci_dispatch demo_platform demo_psci_ids demo_cpu_by_mpidr
      demo_cpu_off_ctx [] demo_created
    = Some (0, s', sc')
    /\ Control.wait_for_poweron (Control.percpu s' 3) = true
    /\ Hw.read_reg (Control.hw s') Hw.ELR_hyp = 0.
Proof.
  destruct (psci_cpu_off_parks_the_caller demo_platform demo_psci_ids
              demo_cpu_by_mpidr demo_cpu_off_ctx [] demo_created)
    as (s' & sc' & E & H1 & _ & H3 & _).
  - vm_compute. discriminate.
  - left. vm_compute. reflexivity.
  - exists s', sc'. split; [exact E|]. split; [exact H1|exact H3].
Defined.

(** * control.c: flushing the caches of a cell's CPUs *)

Module ControlFlush.

Import Control.

(** The loop of [arch_flush_cell_vcpu_caches] over the CPUs of the cell. *)
Fixpoint flush_cell_loop (cpus : list Z) : M unit :=
  match cpus with
  | [] => mret tt
  | cpu :: rest =>
      s ← get;
      (if cpu =? this_cpu_id s then emit EvFlushTlbs
       else write cpu (W_flush_vcpu_caches true));;
      flush_cell_loop rest
  end.

(** Note: only supports synchronous flushing as triggered by
    config_commit! *)
Definition arch_flush_cell_vcpu_caches (cell : Z) : M unit :=
  s ← get;
  flush_cell_loop (for_each_cpu (cell_cpu_set (cells s cell))).

Definition is_flush (e : event) : bool :=
  match e with EvFlushTlbs => true | _ => false end.

End ControlFlush.

Section FlushCell.

Import Control PsciSpec ResetSpec EventsSpec HandshakeSpec BootSpec ControlFlush.

Variable P : platform.

Lemma flush_cell_loop_spec (cpus : list Z) :
  NoDup cpus ->
  forall (sc : schedule) (s : system),
  exists s' evs,
    flush_cell_loop cpus sc s = Some (tt, s', sc)
    /\ (forall c, c ∈ cpus -> c <> this_cpu_id s ->
        percpu s' c = apply_store (W_flush_vcpu_caches true) (percpu s c))
    /\ (forall c, c ∉ cpus \/ c = this_cpu_id s -> percpu s' c = percpu s c)
    /\ hw s' = hw s /\ cells s' = cells s /\ this_cpu_id s' = this_cpu_id s
    /\ events s' = events s ++ evs
    /\ List.filter is_flush evs
       = (if bool_decide (this_cpu_id s ∈ cpus) then [EvFlushTlbs] else []).
Proof.
  induction 1 as [|c rest Hc Hnd IH]; intros sc s.
  - exists s, []. cbn [flush_cell_loop]. rewrite app_nil_r.
    split; [reflexivity|]. split; [intros c Hc; inversion Hc|].
    repeat split; try reflexivity.
  - cbn [flush_cell_loop].
    unfold mbind at 1. unfold M_bind at 1. unfold get at 1.
    unfold mbind at 1. unfold M_bind at 1.
    destruct (Z.eqb_spec c (this_cpu_id s)) as [Heq|Hne].
    + unfold emit, modify.
      destruct (IH sc (log EvFlushTlbs s))
        as (s' & evs & E & Hin & Hout & Hh & Hcl & Ht & He & Hf).
      cbn [this_cpu_id log with_events] in Hin, Hout, Ht, Hf.
      exists s', (EvFlushTlbs :: evs). split; [exact E|].
      split; [|split; [|split; [exact Hh|split; [exact Hcl|split; [exact Ht|split]]]]].
      * intros c' Hc' Hn. apply elem_of_cons in Hc' as [->|Hc']; [congruence|].
        apply Hin; assumption.
      * intros c' [Hc'|Hc'].
        -- apply Hout. left. intros Hr. apply Hc'. right. exact Hr.
        -- apply Hout. right. exact Hc'.
      * rewrite He, log_events, <- app_assoc. reflexivity.
      * cbn [List.filter is_flush]. rewrite Hf.
        rewrite bool_decide_eq_false_2 by (rewrite <- Heq; exact Hc).
        rewrite bool_decide_eq_true_2 by (rewrite <- Heq; left).
        reflexivity.
    + unfold write, modify.
      destruct (IH sc (log (EvStore c (W_flush_vcpu_caches true))
                         (stores c [W_flush_vcpu_caches true] s)))
        as (s' & evs & E & Hin & Hout & Hh & Hcl & Ht & He & Hf).
      cbn [this_cpu_id log with_events stores with_percpu] in Hin, Hout, Ht, Hf.
      exists s', (EvStore c (W_flush_vcpu_caches true) :: evs).
      split; [exact E|].
      split; [|split; [|split; [exact Hh|split; [exact Hcl|split; [exact Ht|split]]]]].
      * intros c' Hc' Hn. apply elem_of_cons in Hc' as [->|Hc'].
        -- rewrite Hout by (left; exact Hc).
           rewrite percpu_log, stores_same. reflexivity.
        -- rewrite Hin by assumption. rewrite percpu_log, stores_other; [reflexivity|].
           intros ->. contradiction.
      * intros c' Hc'.
        assert (c' <> c) as Hcc.
        { destruct Hc' as [Hc'|Hc']; [|congruence].
          intros ->. apply Hc'. left. }
        rewrite Hout.
        -- rewrite percpu_log. apply stores_other. exact Hcc.
        -- destruct Hc' as [Hc'|Hc']; [left|right; exact Hc'].
           intros Hr. apply Hc'. right. exact Hr.
      * rewrite He, log_events. cbn [events stores with_percpu].
        rewrite <- app_assoc. reflexivity.
      * cbn [List.filter is_flush]. rewrite Hf.
        destruct (decide (this_cpu_id s ∈ rest)) as [Hr|Hr].
        -- rewrite !bool_decide_eq_true_2; [reflexivity|right; exact Hr|exact Hr].
        -- rewrite !bool_decide_eq_false_2; [reflexivity| |exact Hr].
           intros Hx. apply elem_of_cons in Hx as [Hx|Hx]; [congruence|contradiction].
Qed.

End FlushCell.

(** X20.  [arch_flush_cell_vcpu_caches] reaches every CPU of the cell: it
    returns without waiting; the executing CPU, if it belongs to the cell,
    flushes its TLBs at once, exactly once; every other CPU of the cell has
    its [flush_vcpu_caches] flag set and nothing else of its record
    changed; the records of CPUs outside the cell, the registers and the
    cells are untouched.  And the flag does its work: a CPU of the cell that
    is suspended meanwhile flushes its TLBs in [check_events] when it is
    let go, whichever way, and clears the flag. *)
Theorem arch_flush_cell_vcpu_caches_reaches_every_cpu
    (P : Control.platform) (cell : Z) (sc : Control.schedule)
    (s : Control.system) :
  let cpus := Control.for_each_cpu (Control.cell_cpu_set (Control.cells s cell)) in
  let this := Control.this_cpu_id s in
  exists s' evs,
    ControlFlush.arch_flush_cell_vcpu_caches cell sc s = Some (tt, s', sc)
    /\ (forall c, c ∈ cpus -> c <> this ->
        Control.percpu s' c
        = Control.apply_store (Control.W_flush_vcpu_caches true)
            (Control.percpu s c))
    /\ (forall c, c ∉ cpus \/ c = this -> Control.percpu s' c = Control.percpu s c)
    /\ Control.hw s' = Control.hw s
    /\ Control.cells s' = Control.cells s
    /\ Control.events s' = Control.events s ++ evs
    /\ List.filter ControlFlush.is_flush evs
       = (if bool_decide (this ∈ cpus) then [Control.EvFlushTlbs] else [])
    /\ (forall c regs w q0 waits rest,
        c ∈ cpus -> c <> this ->
        Control.suspend_cpu (Control.percpu s c) = true ->
        EventsSpec.quiet c q0 ->
        Forall (EventsSpec.quiet c) waits ->
        Forall (EventsSpec.quiet c) rest ->
        exists s'' sc'' new,
          Control.check_events P c
            (q0 :: waits ++ HandshakeSpec.wake_actions c w :: rest)
            (BootSpec.on_cpu c regs s')
          = Some (tt, s'', sc'')
          /\ Control.events s'' = Control.events s' ++ new
          /\ In Control.EvFlushTlbs new
          /\ Control.flush_vcpu_caches (Control.percpu s'' c) = false).
Proof.
  cbv zeta. unfold ControlFlush.arch_flush_cell_vcpu_caches.
  unfold mbind at 1. unfold Control.M_bind at 1. unfold Control.get at 1.
  destruct (flush_cell_loop_spec
              (Control.for_each_cpu (Control.cell_cpu_set (Control.cells s cell)))
              (for_each_cpu_NoDup _) sc s)
    as (s' & evs & E & Hin & Hout & Hh & Hcl & Ht & He & Hf).
  exists s', evs. split; [exact E|].
  split; [exact Hin|]. split; [exact Hout|]. split; [exact Hh|].
  split; [exact Hcl|]. split; [exact He|]. split; [exact Hf|].
  intros c regs w q0 waits rest Hc Hne Hsus Hq0 Hqw Hqr.
  destruct (check_events_woken P c w q0 waits rest (BootSpec.on_cpu c regs s'))
    as (s'' & sc'' & E' & H & _).
  - reflexivity.
  - exact Hq0.
  - exact Hqw.
  - exact Hqr.
  - cbn [BootSpec.on_cpu Control.percpu]. rewrite Hin by assumption.
    destruct (Control.percpu s c); exact Hsus.
  - destruct H as (_ & _ & Hfl & _ & _ & _ & _ & _ & _ & _ & _ & _
                   & (new & Hn & Hflush & _) & _).
    exists s'', sc'', new. split; [exact E'|]. split; [exact Hn|].
    split; [|exact Hfl].
    apply Hflush. cbn [BootSpec.on_cpu Control.percpu].
    rewrite Hin by assumption.
    destruct (Control.percpu s c). destruct w; reflexivity.
Qed.

(** * control.c: virtual CPU ids *)

Section VirtToPhys.

Import Control.

Variable P : platform.

Lemma head_filter_injective {A : Type} (f : A -> Z) (l : list A) (c : A) :
  NoDup (f <$> l) -> c ∈ l -> head (filter (λ x, f x = f c) l) = Some c.
Proof.
  induction l as [|x l IH]; intros Hnd Hc; [inversion Hc|].
  rewrite fmap_cons in Hnd. apply NoDup_cons in Hnd as [Hx Hnd].
  apply elem_of_cons in Hc as [->|Hc].
  - rewrite filter_cons_True by reflexivity. reflexivity.
  - rewrite filter_cons_False; [apply IH; assumption|].
    intros E. apply Hx. rewrite E. apply list_elem_of_fmap. exists c.
    split; [reflexivity|exact Hc].
Qed.

Lemma filter_absent {A : Type} (f : A -> Z) (l : list A) (v : Z) :
  v ∉ f <$> l -> filter (λ x, f x = v) l = [].
Proof.
  induction l as [|x l IH]; intros Hv; [reflexivity|].
  rewrite fmap_cons in Hv. apply not_elem_of_cons in Hv as [Hx Hv].
  rewrite filter_cons_False by congruence. apply IH. exact Hv.
Qed.

(** A successful [arch_cell_create]. *)
Lemma arch_cell_create_ok (cell : Z) (sc : schedule) (s : system) :
  let set := cell_cpu_set (cells s cell) in
  let cpus := for_each_cpu set in
  0 <= max_cpu_id set < 2 ^ 32 - 1 ->
  exists s',
    arch_cell_create P 0 0 cell sc s = Some (0, s', sc)
    /\ (λ c, virt_id (percpu s' c)) <$> cpus = seqZ 0 (Z.of_nat (length cpus))
    /\ cell_cpu_set (cells s' cell) = set.
Proof.
  cbv zeta. intros Hmax.
  set (cpus := for_each_cpu (cell_cpu_set (cells s cell))).
  assert (Z.of_nat (length cpus) <= max_cpu_id (cell_cpu_set (cells s cell)) + 1)
    as Hlen by (apply for_each_cpu_length; lia).
  unfold arch_cell_create, emit, modify, get, mbind, M_bind, mret, M_ret.
  cbn [Z.eqb negb].
  change (cells (log ?e ?t)) with (cells t). fold cpus.
  destruct (cell_create_loop_spec P cpus (for_each_cpu_NoDup _) 0 sc
              (log (EvPagingCellInit cell) s))
    as (s1 & evs & Hrun & Hvid & _ & Hcells & _); [lia|lia|].
  rewrite Hrun. eexists. split; [reflexivity|].
  cbn [percpu cells log with_events with_cells].
  split.
  - apply list_eq. intros i. rewrite list_lookup_fmap.
    destruct (cpus !! i) as [c|] eqn:E; cbn [fmap option_fmap option_map].
    + destruct (Hvid i c E) as [-> _].
      apply lookup_lt_Some in E. rewrite lookup_seqZ_lt by lia. reflexivity.
    + apply lookup_ge_None in E. rewrite lookup_seqZ_ge by lia. reflexivity.
  - rewrite fn_lookup_insert. cbn [cell_cpu_set]. rewrite Hcells. reflexivity.
Qed.

End VirtToPhys.

(** X21.  After a successful [arch_cell_create], [arm_cpu_virt2phys]
    inverts the numbering: virtual id [i] of the cell is the CPU at
    position [i] of the cell's CPU set, the virtual id of a CPU of the cell
    leads back to that CPU, and a value that is no virtual id of the cell
    gives [-1]. *)
Theorem arm_cpu_virt2phys_inverts_cell_create
    (P : Control.platform) (cell : Z) (sc : Control.schedule)
    (s : Control.system) :
  let set := Control.cell_cpu_set (Control.cells s cell) in
  let cpus := Control.for_each_cpu set in
  0 <= Control.max_cpu_id set < 2 ^ 32 - 1 ->
  exists s',
    Control.arch_cell_create P 0 0 cell sc s = Some (0, s', sc)
    /\ (forall (i : nat) (c : Z), cpus !! i = Some c ->
        Control.arm_cpu_virt2phys s' cell (Z.of_nat i) = c)
    /\ (forall c, c ∈ cpus ->
        Control.arm_cpu_virt2phys s' cell
          (Control.virt_id (Control.percpu s' c)) = c)
    /\ (forall v, ~ 0 <= v < Z.of_nat (length cpus) ->
        Control.arm_cpu_virt2phys s' cell v = UINT_MINUS_1).
Proof.
  cbv zeta. intros Hmax.
  destruct (arch_cell_create_ok P cell sc s Hmax) as (s' & E & Hlist & Hset).
  cbv zeta in Hlist, Hset.
  set (cpus := Control.for_each_cpu (Control.cell_cpu_set (Control.cells s cell))) in *.
  exists s'. split; [exact E|].
  assert (NoDup ((λ c, Control.virt_id (Control.percpu s' c)) <$> cpus)) as Hnd.
  { rewrite Hlist. apply NoDup_seqZ. }
  assert (forall c, c ∈ cpus ->
          Control.arm_cpu_virt2phys s' cell
            (Control.virt_id (Control.percpu s' c)) = c) as Hback.
  { intros c Hc. unfold Control.arm_cpu_virt2phys. rewrite Hset. fold cpus.
    rewrite (head_filter_injective
               (λ c, Control.virt_id (Control.percpu s' c)) cpus c Hnd Hc).
    reflexivity. }
  split; [|split; [exact Hback|]].
  - intros i c Hi.
    assert (Control.virt_id (Control.percpu s' c) = Z.of_nat i) as <-.
    { apply (f_equal (λ l, l !! i)) in Hlist.
      rewrite list_lookup_fmap, Hi in Hlist. cbn in Hlist.
      apply lookup_lt_Some in Hi.
      rewrite lookup_seqZ_lt in Hlist by lia. injection Hlist as ->. lia. }
    apply Hback. apply list_elem_of_lookup. exists i. exact Hi.
  - intros v Hv. unfold Control.arm_cpu_virt2phys. rewrite Hset. fold cpus.
    rewrite (filter_absent (λ c, Control.virt_id (Control.percpu s' c)) cpus v).
    + reflexivity.
    + rewrite Hlist, elem_of_seqZ. lia.
Qed.

Lemma arm_cpu_virt2phys_inverts_cell_create_witness :
  exists s',
    Control.arch_cell_create demo_platform 0 0 0 [] demo_system
    = Some (0, s', [])
    /\ Control.arm_cpu_virt2phys s' 0 1 = 5
    /\ Control.arm_cpu_virt2phys s' 0 2 = UINT_MINUS_1.
Proof.
  destruct (arm_cpu_virt2phys_inverts_cell_create demo_platform 0 []
              demo_system) as (s' & E & H1 & _ & H3).
  - vm_compute. split; discriminate || reflexivity.
  - exists s'. split; [exact E|]. split.
    + apply (H1 1%nat 5). reflexivity.
    + apply H3. vm_compute. intros [_ H]. discriminate H.
Defined.

(** * traps.c: the trap dispatcher *)

Module TrapEntry.

Import Traps Traps64.

(** Modelled from the spec: the exception classes of [asm/traps.h] and the
    encoding of the syndrome register in [asm/sysregs.h] are not part of
    the sources at hand.  The spec names the classes of the dispatch table;
    their numbers, and the CP15 encoding of HSR, are those of the ARMv7
    architecture. *)
Definition HSR_EC_CP15_32 : Z := 0x03.
Definition HSR_EC_CP15_64 : Z := 0x04.
Definition HSR_EC_HVC : Z := 0x12.
Definition HSR_EC_SMC : Z := 0x13.
Definition HSR_EC_DABT : Z := 0x24.
Definition HSR : Hw.reg_name := Hw.SYSREG_32 4 5 2 0.

(** The lines of [panic_printk]. *)
Inductive panic_msg : Type :=
  | FATAL_trap (unhandled : bool) (exception_class : Z)
  | DUMP_context (pc cpsr hsr : Z)
  | DUMP_reg (reg val : Z)
  | DUMP_newline.

(** Everything the dispatcher and its handlers work on besides the trap
    context: the registers of the CPU, the console, the 64-bit
    system-register writes and the values handed to the SGI emulation, the
    panic console, and the rest of the system ([X]), which only the
    handlers that are not part of the sources at hand touch. *)
Record world (X : Type) := mk_world {
  w_hw : Hw.hw_state;
  w_console : list printk_msg;
  w_sysreg64_writes : list (Z * Z * Z);
  w_sgir_writes : list Z;
  w_panic : list panic_msg;
  w_ext : X
}.
#[global] Arguments mk_world {X} _ _ _ _ _ _.
#[global] Arguments w_hw {X} _.
#[global] Arguments w_console {X} _.
#[global] Arguments w_sysreg64_writes {X} _.
#[global] Arguments w_sgir_writes {X} _.
#[global] Arguments w_panic {X} _.
#[global] Arguments w_ext {X} _.

(** How [arch_handle_trap] ends: it returns, with the guest's saved
    registers and the world as they are then; or [panic_park] does not come
    back; or the exception class lies outside the 38 slots of the table
    (the C code would read past the array). *)
Inductive outcome (X : Type) : Type :=
  | Returned (guest_regs : list Z) (w : world X)
  | NotReturned
  | TableOverrun.
#[global] Arguments Returned {X} _ _.
#[global] Arguments NotReturned {X}.
#[global] Arguments TableOverrun {X}.

Section WithSystem.

Context {X : Type}.

(** A handler gets the trap context by reference. *)
Definition trap_handler : Type :=
  trap_context -> world X -> trap_context * world X * trap_result.

(** [CONFIG_ARM_GIC_V3] is a build option.  [arch_handle_hvc] and
    [arch_handle_smc] end in [hypercall] and [smc], [arch_handle_dabt] and
    [panic_park] belong to other files; none of these is part of the
    sources at hand, so that the three handlers and [panic_park] are
    given.  [panic_park] may or may not return, and may change the guest's
    saved registers, but not the local trap context.  The local [reg_val]
    of [dump_guest_regs] is not initialised; its first value is given
    ([uninitialised]), and so are those of the local [val] of
    [arch_handle_cp15_32] and of the locals [lo] and [hi] of
    [arch_handle_cp15_64]. *)
Variable CONFIG_ARM_GIC_V3 : bool.
Variables uninitialised_val uninitialised_lo uninitialised_hi : Z.
Variables arch_handle_hvc arch_handle_smc arch_handle_dabt : trap_handler.
Variable panic_park : list Z -> world X -> option (list Z * world X).
Variable uninitialised : Z.

Definition trap_state_of (ctx : trap_context) (w : world X) : trap_state :=
  mk_trap_state ctx (w_hw w) (w_console w).

Definition world_of (ts : trap_state) (w : world X) : world X :=
  mk_world (Traps.hw ts) (console ts) (w_sysreg64_writes w) (w_sgir_writes w)
           (w_panic w) (w_ext w).

Definition handle_cp15_32 : trap_handler := λ ctx w,
  let '(ts, ret) :=
    arch_handle_cp15_32 uninitialised_val (trap_state_of ctx w) in
  (Traps.ctx ts, world_of ts w, ret).

Definition handle_cp15_64 : trap_handler := λ ctx w,
  let '(ts, ret) :=
    arch_handle_cp15_64 CONFIG_ARM_GIC_V3 uninitialised_lo uninitialised_hi
      (mk_trap_state64 (trap_state_of ctx w) (w_sysreg64_writes w)
                       (w_sgir_writes w)) in
  (Traps.ctx (base ts),
   mk_world (Traps.hw (base ts)) (console (base ts)) (sysreg64_writes ts)
            (sgir_writes ts) (w_panic w) (w_ext w),
   ret).

(** The table [trap_handlers[38]], for an index within it. *)
Definition trap_handlers (exception_class : Z) : option trap_handler :=
  if exception_class =? HSR_EC_CP15_32 then Some handle_cp15_32
  else if exception_class =? HSR_EC_CP15_64 then Some handle_cp15_64
  else if exception_class =? HSR_EC_HVC then Some arch_handle_hvc
  else if exception_class =? HSR_EC_SMC then Some arch_handle_smc
  else if exception_class =? HSR_EC_DABT then Some arch_handle_dabt
  else None.

Definition panic_printk (m : panic_msg) (w : world X) : world X :=
  mk_world (w_hw w) (w_console w) (w_sysreg64_writes w) (w_sgir_writes w)
           (w_panic w ++ [m]) (w_ext w).

(** The loop of [dump_guest_regs], from register [reg] for [count] more
    turns. *)
Fixpoint dump_regs_loop (count : nat) (reg : Z) (ts : trap_state) (reg_val : Z)
    (out : list panic_msg) : trap_state * Z * list panic_msg :=
  match count with
  | O => (ts, reg_val, out)
  | S count =>
      let '(ts, reg_val) := access_cell_reg ts reg reg_val true in
      let out := out ++ [DUMP_reg reg reg_val] in
      let out := if (reg + 1) mod 4 =? 0 then out ++ [DUMP_newline] else out in
      dump_regs_loop count (reg + 1) ts reg_val out
  end.

Definition dump_guest_regs (ctx : trap_context) (w : world X)
  : trap_context * world X :=
  let w := panic_printk (DUMP_context (pc ctx) (cpsr ctx) (hsr ctx)) w in
  let '(ts, _, out) :=
    dump_regs_loop 15 0 (trap_state_of ctx w) uninitialised (w_panic w) in
  (Traps.ctx ts,
   mk_world (Traps.hw ts) (console ts) (w_sysreg64_writes w) (w_sgir_writes w)
            (out ++ [DUMP_newline]) (w_ext w)).

(** The [restore_context] label. *)
Definition restore_context (ctx : trap_context) (guest_regs : list Z)
    (w : world X) : outcome X :=
  Returned guest_regs
    (mk_world
       (Hw.write_reg Hw.ELR_hyp (pc ctx)
          (Hw.write_reg Hw.SPSR_hyp (cpsr ctx) (w_hw w)))
       (w_console w) (w_sysreg64_writes w) (w_sgir_writes w) (w_panic w)
       (w_ext w)).

(** The context the dispatcher captures. *)
Definition trapped_context (guest_regs : list Z) (w : world X) : trap_context :=
  mk_trap_context (Hw.read_reg (w_hw w) Hw.ELR_hyp)
                  (Hw.read_reg (w_hw w) Hw.SPSR_hyp)
                  (Hw.read_reg (w_hw w) HSR)
                  guest_regs.

Definition arch_handle_trap (guest_regs : list Z) (w : world X) : outcome X :=
  let ctx := trapped_context guest_regs w in
  let exception_class := HSR_EC (hsr ctx) in
  (* On some implementations, instructions that fail their condition check
     can trap. *)
  if arch_failed_condition ctx then
    let ctx := arch_skip_instruction ctx in
    restore_context ctx (regs ctx) w
  else if 38 <=? exception_class then TableOverrun
  else
    let '(ctx, w, ret) :=
      match trap_handlers exception_class with
      | Some handler => handler ctx w
      | None => (ctx, w, TRAP_UNHANDLED)
      end in
    match ret with
    | TRAP_HANDLED => restore_context ctx (regs ctx) w
    | _ =>
        let w :=
          panic_printk
            (FATAL_trap (match ret with TRAP_UNHANDLED => true | _ => false end)
                        exception_class) w in
        let '(ctx, w) := dump_guest_regs ctx w in
        match panic_park (regs ctx) w with
        | Some (guest_regs, w) => restore_context ctx guest_regs w
        | None => NotReturned
        end
    end.

End WithSystem.

End TrapEntry.

Module TrapSpec.

Import Traps TrapEntry.

(** The value the dump shows for a guest register. *)
Definition shown_value (ts : trap_state) (reg : Z) : Z :=
  (access_cell_reg ts reg 0 true).2.

(** The lines of the dump for one register: the register, and a line break
    after every fourth. *)
Definition dump_line (ts : trap_state) (reg : Z) : list panic_msg :=
  DUMP_reg reg (shown_value ts reg)
  :: (if (reg + 1) mod 4 =? 0 then [DUMP_newline] else []).

(** Whether the fatal line names the trap unhandled, or else the access
    forbidden. *)
Definition named_unhandled (ret : trap_result) : bool :=
  match ret with TRAP_UNHANDLED => true | _ => false end.

(** The world with other hardware registers. *)
Definition with_w_hw {X : Type} (h : Hw.hw_state) (w : world X) : world X :=
  mk_world h (w_console w) (w_sysreg64_writes w) (w_sgir_writes w)
           (w_panic w) (w_ext w).

(** The write-back of the return state. *)
Definition written_back {X : Type} (ctx : trap_context) (w : world X) : world X :=
  with_w_hw (Hw.write_reg Hw.ELR_hyp (pc ctx)
               (Hw.write_reg Hw.SPSR_hyp (cpsr ctx) (w_hw w))) w.

End TrapSpec.

Section TrapDispatch.

Import Traps Traps64 TrapEntry TrapSpec RegSpec Cp15Spec.

Context {X : Type}.
Variable CONFIG_ARM_GIC_V3 : bool.
Variables uninitialised_val uninitialised_lo uninitialised_hi : Z.
Variables arch_handle_hvc arch_handle_smc arch_handle_dabt : @trap_handler X.
Variable panic_park : list Z -> world X -> option (list Z * world X).
Variable uninitialised : Z.

Lemma access_cell_reg_read_state (s : trap_state) (reg val : Z) :
  0 <= reg <= 14 -> (access_cell_reg s reg val true).1 = s.
Proof.
  intros H. unfold access_cell_reg, access_banked_reg, access_fiq_reg,
    access_usr_reg, access_hw_reg.
  destruct (Z.eqb_spec reg 15); [lia|].
  destruct (Z.leb_spec 0 reg), (Z.leb_spec reg 7), (Z.leb_spec 8 reg),
    (Z.leb_spec reg 12), (Z.leb_spec 13 reg), (Z.leb_spec reg 14);
    try lia; cbn [andb];
    repeat match goal with
           | |- context [if ?b then _ else _] => destruct b
           end; reflexivity.
Qed.

Lemma access_cell_reg_read_defined (s : trap_state) (reg v v' : Z) :
  0 <= reg <= 14 ->
  banked_mode (mode_of s) = true \/ reg <= 12 ->
  (access_cell_reg s reg v true).2 = (access_cell_reg s reg v' true).2.
Proof.
  intros H Hm.
  destruct (Z_le_gt_dec reg 7); [|destruct (Z_le_gt_dec reg 12)].
  - rewrite !access_cell_reg_0_7 by lia. reflexivity.
  - rewrite !access_cell_reg_8_12 by lia.
    unfold access_fiq_reg, access_usr_reg, access_hw_reg.
    destruct (mode_of s =? PSR_FIQ_MODE); [|reflexivity].
    destruct (Z.eqb_spec reg 8), (Z.eqb_spec reg 9), (Z.eqb_spec reg 10),
      (Z.eqb_spec reg 11), (Z.eqb_spec reg 12); try lia; reflexivity.
  - destruct Hm as [Hm|Hm]; [|lia].
    rewrite !access_cell_reg_13_14 by lia. cbv zeta.
    unfold banked_mode in Hm.
    unfold access_banked_reg, access_usr_reg, access_hw_reg.
    destruct (Z.eqb_spec reg 13), (Z.eqb_spec reg 14); try lia;
      repeat match goal with
             | |- context [mode_of s =? ?m] =>
                 destruct (mode_of s =? m); cbn [orb] in Hm |- *
             end; try reflexivity; discriminate Hm.
Qed.

(** In a mode [access_cell_reg] does not know, reading r13 or r14 stores
    nothing in [*val]. *)
Lemma access_cell_reg_read_unknown_mode (s : trap_state) (reg v : Z) :
  13 <= reg <= 14 ->
  banked_mode (mode_of s) = false ->
  access_cell_reg s reg v true = (s, v).
Proof.
  intros H Hm. rewrite access_cell_reg_13_14 by lia. cbv zeta.
  unfold banked_mode in Hm.
  repeat match goal with
         | |- context [mode_of s =? ?m] =>
             destruct (mode_of s =? m); cbn [orb] in Hm |- *
         end; try discriminate Hm; reflexivity.
Qed.

Lemma dump_regs_loop_spec (ts : trap_state) (count : nat) :
  forall (reg v : Z) (out : list panic_msg),
  0 <= reg -> reg + Z.of_nat count <= 15 ->
  banked_mode (mode_of ts) = true \/ reg + Z.of_nat count <= 13 ->
  dump_regs_loop count reg ts v out
  = (ts,
     match count with
     | O => v
     | S _ => shown_value ts (reg + Z.of_nat count - 1)
     end,
     out ++ flat_map (dump_line ts) (seqZ reg (Z.of_nat count))).
Proof.
  induction count as [|count IH]; intros reg v out H0 H1 Hm.
  - cbn [dump_regs_loop]. rewrite seqZ_nil by lia.
    cbn [flat_map]. rewrite app_nil_r. reflexivity.
  - cbn [dump_regs_loop].
    pose proof (access_cell_reg_read_state ts reg v ltac:(lia)) as Hs.
    pose proof (access_cell_reg_read_defined ts reg v 0 ltac:(lia)
                  ltac:(destruct Hm; [left; assumption|right; lia])) as Hv.
    destruct (access_cell_reg ts reg v true) as [ts' val]. cbn [fst snd] in Hs, Hv.
    subst ts'. fold (shown_value ts reg) in Hv. subst val.
    rewrite IH; [|lia|lia|destruct Hm; [left; assumption|right; lia]].
    rewrite seqZ_succ. cbn [flat_map]. unfold dump_line at 2.
    f_equal; [f_equal|].
    + destruct count; [f_equal; lia|f_equal; lia].
    + destruct ((reg + 1) mod 4 =? 0); rewrite <- !app_assoc; reflexivity.
Qed.

Lemma dump_regs_loop_app (n m : nat) :
  forall (reg v : Z) (ts : trap_state) (out : list panic_msg),
  dump_regs_loop (n + m) reg ts v out
  = let '(ts1, v1, out1) := dump_regs_loop n reg ts v out in
    dump_regs_loop m (reg + Z.of_nat n) ts1 v1 out1.
Proof.
  induction n as [|n IH]; intros reg v ts out.
  - cbn [dump_regs_loop Nat.add]. f_equal. cbn. lia.
  - cbn [dump_regs_loop Nat.add].
    destruct (access_cell_reg ts reg v true) as [ts1 val].
    rewrite IH.
    replace (reg + 1 + Z.of_nat n) with (reg + Z.of_nat (S n)) by lia.
    reflexivity.
Qed.

(** The two lines the dump shows for r13 and r14: the registers, or, in a
    mode [access_cell_reg] does not know, what the last read left in
    [reg_val], the value of r12. *)
Definition dump_sp_lr (ts : trap_state) : list panic_msg :=
  if banked_mode (mode_of ts)
  then [DUMP_reg 13 (shown_value ts 13); DUMP_reg 14 (shown_value ts 14)]
  else [DUMP_reg 13 (shown_value ts 12); DUMP_reg 14 (shown_value ts 12)].

(** [dump_guest_regs] reads, and writes to the panic console only. *)
Lemma dump_guest_regs_spec (ctx : trap_context) (w : world X) :
  dump_guest_regs uninitialised ctx w
  = (ctx,
     mk_world (w_hw w) (w_console w) (w_sysreg64_writes w) (w_sgir_writes w)
       (w_panic w
        ++ [DUMP_context (pc ctx) (cpsr ctx) (hsr ctx)]
        ++ flat_map (dump_line (trap_state_of ctx w)) (seqZ 0 13)
        ++ dump_sp_lr (trap_state_of ctx w)
        ++ [DUMP_newline])
       (w_ext w)).
Proof.
  unfold dump_guest_regs.
  set (w0 := panic_printk (DUMP_context (pc ctx) (cpsr ctx) (hsr ctx)) w).
  change (trap_state_of ctx w0) with (trap_state_of ctx w).
  set (ts := trap_state_of ctx w).
  change 15%nat with (13 + 2)%nat. rewrite dump_regs_loop_app.
  rewrite dump_regs_loop_spec; [|lia|cbn; lia|right; cbn; lia].
  change (0 + Z.of_nat 13 - 1) with 12. change (0 + Z.of_nat 13) with 13.
  change (Z.of_nat 13) with 13.
  unfold dump_sp_lr. destruct (banked_mode (mode_of ts)) eqn:Hm.
  - rewrite dump_regs_loop_spec; [|lia|cbn; lia|left; exact Hm].
    subst w0 ts.
    cbn [Traps.ctx Traps.hw console trap_state_of panic_printk w_hw
         w_console w_sysreg64_writes w_sgir_writes w_panic w_ext].
    rewrite <- !app_assoc. reflexivity.
  - cbn [dump_regs_loop].
    rewrite access_cell_reg_read_unknown_mode; [|lia|exact Hm].
    rewrite access_cell_reg_read_unknown_mode; [|lia|exact Hm].
    subst w0 ts.
    cbn [Traps.ctx Traps.hw console trap_state_of panic_printk w_hw
         w_console w_sysreg64_writes w_sgir_writes w_panic w_ext].
    change ((13 + 1) mod 4 =? 0) with false.
    change ((13 + 1 + 1) mod 4 =? 0) with false. cbv iota.
    rewrite <- !app_assoc. reflexivity.
Qed.

(** The dispatcher when the condition check passes and the class lies
    within the table. *)
Lemma arch_handle_trap_passed (guest_regs : list Z) (w : world X) :
  let ctx := trapped_context guest_regs w in
  let class := HSR_EC (hsr ctx) in
  arch_failed_condition ctx = false ->
  class < 38 ->
  arch_handle_trap CONFIG_ARM_GIC_V3 uninitialised_val uninitialised_lo
      uninitialised_hi arch_handle_hvc arch_handle_smc
    arch_handle_dabt panic_park uninitialised guest_regs w
  = let '(ctx1, w1, ret) :=
      match trap_handlers CONFIG_ARM_GIC_V3 uninitialised_val uninitialised_lo
      uninitialised_hi arch_handle_hvc arch_handle_smc
              arch_handle_dabt class with
      | Some handler => handler ctx w
      | None => (ctx, w, TRAP_UNHANDLED)
      end in
    match ret with
    | TRAP_HANDLED => Returned (regs ctx1) (written_back ctx1 w1)
    | _ =>
        let '(ctx2, w2) :=
          dump_guest_regs uninitialised ctx1
            (panic_printk
               (FATAL_trap (match ret with TRAP_UNHANDLED => true | _ => false end)
                           class) w1) in
        match panic_park (regs ctx2) w2 with
        | Some (guest_regs', w3) => Returned guest_regs' (written_back ctx2 w3)
        | None => NotReturned
        end
    end.
Proof.
  cbv zeta. intros Hc Hk. unfold arch_handle_trap. rewrite Hc.
  destruct (Z.leb_spec 38 (HSR_EC (hsr (trapped_context guest_regs w))));
    [lia|].
  reflexivity.
Qed.

End TrapDispatch.

Section TrapDispatchFacts.

Import Traps Traps64 TrapEntry TrapSpec RegSpec Cp15Spec.

Context {X : Type}.
Variable CONFIG_ARM_GIC_V3 : bool.
Variables uninitialised_val uninitialised_lo uninitialised_hi : Z.
Variables arch_handle_hvc arch_handle_smc arch_handle_dabt : @trap_handler X.
Variable panic_park : list Z -> world X -> option (list Z * world X).
Variable uninitialised : Z.

(** In any mode, [dump_guest_regs] leaves the trap context and the
    hardware registers alone, and adds to the panic console, the captured
    context first. *)
Lemma dump_guest_regs_frame (ctx : trap_context) (w : world X) :
  exists w' lines,
    dump_guest_regs uninitialised ctx w = (ctx, w')
    /\ w_hw w' = w_hw w
    /\ w_console w' = w_console w
    /\ w_sysreg64_writes w' = w_sysreg64_writes w
    /\ w_sgir_writes w' = w_sgir_writes w
    /\ w_ext w' = w_ext w
    /\ w_panic w'
       = w_panic w ++ DUMP_context (pc ctx) (cpsr ctx) (hsr ctx) :: lines.
Proof.
  unfold dump_guest_regs.
  eexists _, _. split; [apply dump_guest_regs_spec|].
  cbn [w_hw w_console w_sysreg64_writes w_sgir_writes w_ext w_panic].
  repeat split; reflexivity.
Qed.

Lemma trap_handlers_none (class : Z) :
  trap_handlers CONFIG_ARM_GIC_V3 uninitialised_val uninitialised_lo
      uninitialised_hi arch_handle_hvc arch_handle_smc
    arch_handle_dabt class = None
  <-> class ∉ [HSR_EC_CP15_32; HSR_EC_CP15_64; HSR_EC_HVC; HSR_EC_SMC;
               HSR_EC_DABT].
Proof.
  unfold trap_handlers. rewrite !not_elem_of_cons.
  destruct (Z.eqb_spec class HSR_EC_CP15_32), (Z.eqb_spec class HSR_EC_CP15_64),
    (Z.eqb_spec class HSR_EC_HVC), (Z.eqb_spec class HSR_EC_SMC),
    (Z.eqb_spec class HSR_EC_DABT);
    split; intros H; try discriminate H; try reflexivity;
    try (repeat split; try assumption; apply not_elem_of_nil);
    destruct H as (? & ? & ? & ? & ? & _); contradiction.
Qed.

(** The end of [arch_handle_trap] after a handler has failed. *)
Lemma arch_handle_trap_panic (class : Z) (unhandled : bool)
    (ctx1 : trap_context) (w1 : world X) :
  exists w2 lines,
    dump_guest_regs uninitialised ctx1
      (panic_printk (FATAL_trap unhandled class) w1) = (ctx1, w2)
    /\ w_hw w2 = w_hw w1
    /\ w_console w2 = w_console w1
    /\ w_sysreg64_writes w2 = w_sysreg64_writes w1
    /\ w_sgir_writes w2 = w_sgir_writes w1
    /\ w_ext w2 = w_ext w1
    /\ w_panic w2
       = w_panic w1
         ++ FATAL_trap unhandled class
            :: DUMP_context (pc ctx1) (cpsr ctx1) (hsr ctx1) :: lines.
Proof.
  destruct (dump_guest_regs_frame ctx1
              (panic_printk (FATAL_trap unhandled class) w1))
    as (w2 & lines & E & Hh & Hcon & H64 & Hs & He & Hp).
  exists w2, lines. split; [exact E|].
  cbn [panic_printk w_hw w_console w_sysreg64_writes w_sgir_writes w_ext
       w_panic] in *.
  rewrite <- app_assoc in Hp. repeat split; assumption.
Qed.

End TrapDispatchFacts.

(** The hardware registers of a CPU that trapped with the given context. *)
Definition trapped_hw (ctx : Traps.trap_context) : Hw.hw_state :=
  Hw.mk_hw_state
    (λ r, if decide (r = Hw.ELR_hyp) then Traps.pc ctx
          else if decide (r = Hw.SPSR_hyp) then Traps.cpsr ctx
          else if decide (r = TrapEntry.HSR) then Traps.hsr ctx
          else 0)
    [].

Definition trapped_world (ctx : Traps.trap_context) : TrapEntry.world unit :=
  TrapEntry.mk_world (trapped_hw ctx) [] [] [] [] tt.

(** Handlers that do nothing and report success, and a [panic_park] that
    comes back. *)
Definition idle_handler : @TrapEntry.trap_handler unit :=
  λ ctx w, (ctx, w, Traps.TRAP_HANDLED).
Definition returning_park (regs : list Z) (w : TrapEntry.world unit)
  : option (list Z * TrapEntry.world unit) := Some (regs, w).

(** X22.  A trapped instruction whose condition fails is skipped and never
    emulated.  If the condition that applies to the trapped instruction
    (from the syndrome, or else from the IT block) does not hold under the
    guest's flags, [arch_handle_trap] returns with the guest's registers
    untouched; it writes [SPSR_hyp] and then [ELR_hyp] and no other
    register: the return address is the trapped one plus the instruction
    length, the IT state is advanced by one step and the other PSR bits are
    as before; no handler runs, whatever the handlers are: console, panic
    console and the rest of the system are as before. *)
Theorem arch_handle_trap_skips_failed_condition
    {X : Type} (CONFIG_ARM_GIC_V3 : bool)
    (uninitialised_val uninitialised_lo uninitialised_hi : Z)
    (arch_handle_hvc arch_handle_smc arch_handle_dabt : @TrapEntry.trap_handler X)
    (panic_park : list Z -> TrapEntry.world X -> option (list Z * TrapEntry.world X))
    (uninitialised : Z) (guest_regs : list Z) (w : TrapEntry.world X) (c : Z) :
  let ctx := TrapEntry.trapped_context guest_regs w in
  0 <= Traps.cpsr ctx < 2 ^ 32 ->
  Spec.applicable_condition ctx = Some c ->
  Spec.arm_condition_holds c (Z.shiftr (Traps.cpsr ctx) 28) = false ->
  exists psr,
    TrapEntry.arch_handle_trap CONFIG_ARM_GIC_V3 uninitialised_val uninitialised_lo
      uninitialised_hi arch_handle_hvc arch_handle_smc
      arch_handle_dabt panic_park uninitialised guest_regs w
    = TrapEntry.Returned guest_regs
        (TrapSpec.with_w_hw
           (Hw.write_reg Hw.ELR_hyp
              (u32 (Traps.pc ctx + Spec.instruction_length (Traps.hsr ctx)))
              (Hw.write_reg Hw.SPSR_hyp psr (TrapEntry.w_hw w)))
           w)
    /\ Traps.PSR_IT psr = Spec.it_advance (Traps.PSR_IT (Traps.cpsr ctx))
    /\ Z.ldiff psr Spec.PSR_IT_FIELD = Z.ldiff (Traps.cpsr ctx) Spec.PSR_IT_FIELD.
Proof.
  cbv zeta. intros Hc Ha Hf.
  set (ctx := TrapEntry.trapped_context guest_regs w) in *.
  assert (Traps.arch_failed_condition ctx = true) as Hfail.
  { rewrite arch_failed_condition_eq by exact Hc. rewrite Ha, Hf. reflexivity. }
  exists (Traps.cpsr (Traps.arch_skip_instruction ctx)).
  split; [|split].
  - unfold TrapEntry.arch_handle_trap. fold ctx. rewrite Hfail.
    unfold TrapEntry.restore_context, TrapSpec.with_w_hw.
    rewrite arch_skip_instruction_pc.
    destruct (arch_skip_instruction_frame ctx) as [_ ->]. reflexivity.
  - apply arch_skip_instruction_it.
  - apply arch_skip_instruction_other_bits.
Qed.

Lemma arch_handle_trap_skips_failed_condition_witness :
  exists psr,
    TrapEntry.arch_handle_trap false stack_garbage stack_garbage stack_garbage
      idle_handler idle_handler idle_handler
      returning_park 0 (replicate 14 0) (trapped_world ctx_mcr_eq_z_clear)
    = TrapEntry.Returned (replicate 14 0)
        (TrapSpec.with_w_hw
           (Hw.write_reg Hw.ELR_hyp (u32 (0x8000 + 4))
              (Hw.write_reg Hw.SPSR_hyp psr
                 (TrapEntry.w_hw (trapped_world ctx_mcr_eq_z_clear))))
           (trapped_world ctx_mcr_eq_z_clear))
    /\ Traps.PSR_IT psr = 0.
Proof.
  destruct (arch_handle_trap_skips_failed_condition false stack_garbage stack_garbage stack_garbage
      idle_handler
              idle_handler idle_handler returning_park 0 (replicate 14 0)
              (trapped_world ctx_mcr_eq_z_clear) 0)
    as (psr & E & Hit & _).
  - vm_compute. split; [discriminate|reflexivity].
  - vm_compute. reflexivity.
  - vm_compute. reflexivity.
  - exists psr. split; [exact E|exact Hit].
Defined.

(** A guest in SVC mode whose save area holds 100, 101, ... and whose banked
    SP and LR are 0x7000 and 0x8004; syndrome [hsr]. *)
Definition svc_guest_world (hsr : Z) : TrapEntry.world unit :=
  TrapEntry.mk_world
    (Hw.mk_hw_state
       (λ r, if decide (r = Hw.ELR_hyp) then 0x8000
             else if decide (r = Hw.SPSR_hyp) then 0x13
             else if decide (r = TrapEntry.HSR) then hsr
             else if decide (r = Hw.SP_svc) then 0x7000
             else if decide (r = Hw.LR_svc) then 0x8004
             else 0)
       [])
    [] [] [] [] tt.

Definition svc_guest_regs : list Z :=
  [100; 101; 102; 103; 104; 105; 106; 107; 108; 109; 110; 111; 112; 113].

(** X23.  How [arch_handle_trap] dispatches a trap whose condition check
    passes and whose exception class lies within the 38 slots of the
    table.  The table has handlers for exactly the classes CP15_32,
    CP15_64, HVC, SMC and DABT; a class without one counts as unhandled.
    If the handler reports success, the return state of its trap context
    is written to [SPSR_hyp] and [ELR_hyp] and the call returns.  Otherwise
    the panic console gets the fatal line (naming the trap unhandled or the
    access forbidden, with the class) followed by the dump of the context,
    nothing else changes, and [panic_park] is called; if it comes back, the
    return state of the trap context is still written back. *)
Theorem arch_handle_trap_dispatch
    {X : Type} (CONFIG_ARM_GIC_V3 : bool)
    (uninitialised_val uninitialised_lo uninitialised_hi : Z)
    (arch_handle_hvc arch_handle_smc arch_handle_dabt : @TrapEntry.trap_handler X)
    (panic_park : list Z -> TrapEntry.world X -> option (list Z * TrapEntry.world X))
    (uninitialised : Z) (guest_regs : list Z) (w : TrapEntry.world X) :
  let ctx := TrapEntry.trapped_context guest_regs w in
  let class := Traps.HSR_EC (Traps.hsr ctx) in
  let handler :=
    TrapEntry.trap_handlers CONFIG_ARM_GIC_V3 uninitialised_val uninitialised_lo
      uninitialised_hi arch_handle_hvc arch_handle_smc
      arch_handle_dabt class in
  let run :=
    TrapEntry.arch_handle_trap CONFIG_ARM_GIC_V3 uninitialised_val uninitialised_lo
      uninitialised_hi arch_handle_hvc arch_handle_smc
      arch_handle_dabt panic_park uninitialised guest_regs w in
  Traps.arch_failed_condition ctx = false ->
  class < 38 ->
  (handler = None
   <-> class ∉ [TrapEntry.HSR_EC_CP15_32; TrapEntry.HSR_EC_CP15_64;
                TrapEntry.HSR_EC_HVC; TrapEntry.HSR_EC_SMC;
                TrapEntry.HSR_EC_DABT])
  /\ exists ctx1 w1 ret,
       match handler with
       | Some h => h ctx w
       | None => (ctx, w, Traps.TRAP_UNHANDLED)
       end = (ctx1, w1, ret)
       /\ (ret = Traps.TRAP_HANDLED ->
           run = TrapEntry.Returned (Traps.regs ctx1)
                   (TrapSpec.written_back ctx1 w1))
       /\ (ret <> Traps.TRAP_HANDLED ->
           exists w2 lines,
             TrapEntry.w_hw w2 = TrapEntry.w_hw w1
             /\ TrapEntry.w_console w2 = TrapEntry.w_console w1
             /\ TrapEntry.w_sysreg64_writes w2 = TrapEntry.w_sysreg64_writes w1
             /\ TrapEntry.w_sgir_writes w2 = TrapEntry.w_sgir_writes w1
             /\ TrapEntry.w_ext w2 = TrapEntry.w_ext w1
             /\ TrapEntry.w_panic w2
                = TrapEntry.w_panic w1
                  ++ TrapEntry.FATAL_trap (TrapSpec.named_unhandled ret) class
                     :: TrapEntry.DUMP_context (Traps.pc ctx1) (Traps.cpsr ctx1)
                          (Traps.hsr ctx1)
                     :: lines
             /\ run = match panic_park (Traps.regs ctx1) w2 with
                      | Some (guest_regs', w3) =>
                          TrapEntry.Returned guest_regs'
                            (TrapSpec.written_back ctx1 w3)
                      | None => TrapEntry.NotReturned
                      end).
Proof.
  cbv zeta. intros Hc Hk. split; [apply trap_handlers_none|].
  rewrite (arch_handle_trap_passed CONFIG_ARM_GIC_V3 uninitialised_val uninitialised_lo
      uninitialised_hi arch_handle_hvc
             arch_handle_smc arch_handle_dabt panic_park uninitialised
             guest_regs w Hc Hk).
  destruct (match TrapEntry.trap_handlers _ _ _ _ _ _ _ _ with
            | Some h => h _ w
            | None => _
            end) as [[ctx1 w1] ret].
  exists ctx1, w1, ret. split; [reflexivity|]. split.
  - intros ->. reflexivity.
  - intros Hr.
    destruct (arch_handle_trap_panic uninitialised
                (Traps.HSR_EC (Traps.hsr (TrapEntry.trapped_context guest_regs w)))
                (TrapSpec.named_unhandled ret) ctx1 w1)
      as (w2 & lines & E & Hh & Hcon & H64 & Hs & He & Hp).
    exists w2, lines. repeat (split; [assumption|]).
    destruct ret; [contradiction| |];
      cbn [TrapSpec.named_unhandled] in E; rewrite E; reflexivity.
Qed.

(** A trapped WFI-class exception (class 1, no handler) in SVC mode. *)
Lemma arch_handle_trap_dispatch_witness :
  exists w2 lines,
    TrapEntry.w_panic w2
    = TrapEntry.FATAL_trap true 1
      :: TrapEntry.DUMP_context 0x8000 0x13 0x06000000 :: lines
    /\ TrapEntry.arch_handle_trap false stack_garbage stack_garbage stack_garbage
      idle_handler idle_handler idle_handler
         returning_park 0 svc_guest_regs (svc_guest_world 0x06000000)
       = TrapEntry.Returned svc_guest_regs
           (TrapSpec.written_back
              (Traps.mk_trap_context 0x8000 0x13 0x06000000 svc_guest_regs) w2).
Proof.
  destruct (arch_handle_trap_dispatch false stack_garbage stack_garbage stack_garbage
      idle_handler idle_handler
              idle_handler returning_park 0 svc_guest_regs
              (svc_guest_world 0x06000000))
    as (_ & ctx1 & w1 & ret & E & _ & H).
  - vm_compute. reflexivity.
  - vm_compute. reflexivity.
  - match type of E with
    | ?l = _ =>
        assert (l = (Traps.mk_trap_context 0x8000 0x13 0x06000000 svc_guest_regs,
                     svc_guest_world 0x06000000, Traps.TRAP_UNHANDLED)) as El
          by (vm_compute; reflexivity)
    end.
    rewrite El in E. injection E as <- <- <-.
    destruct (H ltac:(discriminate)) as (w2 & lines & _ & _ & _ & _ & _ & Hp & Hrun).
    exists w2, lines. split; [exact Hp|exact Hrun].
Defined.

(** X24.  [dump_guest_regs] only reads: the trap context, the hardware
    registers and everything but the panic console are as before.  The
    panic console gets the line with pc, cpsr and hsr, then r0..r12 as
    [access_cell_reg] reads them, with a line break after every fourth
    register, then r13 and r14, and a final line break.  The local
    [reg_val] is not initialised, and its first value is never shown.  In
    one of the seven modes [access_cell_reg] knows, r13 and r14 are shown
    as read; in any other mode both show the value of r12, left over from
    the turn before.  r0..r7 are the slots of the save area. *)
Theorem dump_guest_regs_reads_only
    {X : Type} (uninitialised : Z) (ctx : Traps.trap_context)
    (w : TrapEntry.world X) :
  let ts := TrapEntry.trap_state_of ctx w in
  TrapEntry.dump_guest_regs uninitialised ctx w
  = (ctx,
     TrapEntry.mk_world (TrapEntry.w_hw w) (TrapEntry.w_console w)
       (TrapEntry.w_sysreg64_writes w) (TrapEntry.w_sgir_writes w)
       (TrapEntry.w_panic w
        ++ [TrapEntry.DUMP_context (Traps.pc ctx) (Traps.cpsr ctx)
              (Traps.hsr ctx)]
        ++ flat_map (TrapSpec.dump_line ts) (seqZ 0 13)
        ++ (if RegSpec.banked_mode (RegSpec.mode_of ts)
            then [TrapEntry.DUMP_reg 13 (TrapSpec.shown_value ts 13);
                  TrapEntry.DUMP_reg 14 (TrapSpec.shown_value ts 14)]
            else [TrapEntry.DUMP_reg 13 (TrapSpec.shown_value ts 12);
                  TrapEntry.DUMP_reg 14 (TrapSpec.shown_value ts 12)])
        ++ [TrapEntry.DUMP_newline])
       (TrapEntry.w_ext w))
  /\ forall reg, 0 <= reg <= 7 ->
       TrapSpec.shown_value ts reg
       = default 0 (Traps.regs ctx !! Z.to_nat reg).
Proof.
  cbv zeta. split.
  - apply dump_guest_regs_spec.
  - intros reg H. unfold TrapSpec.shown_value.
    rewrite access_cell_reg_0_7 by exact H. reflexivity.
Qed.

Section TrapDispatchCp15.

Import Traps Traps64 TrapEntry TrapSpec RegSpec Cp15Spec.

Context {X : Type}.
Variable CONFIG_ARM_GIC_V3 : bool.
Variables uninitialised_val uninitialised_lo uninitialised_hi : Z.
Variables arch_handle_hvc arch_handle_smc arch_handle_dabt : @trap_handler X.
Variable panic_park : list Z -> world X -> option (list Z * world X).
Variable uninitialised : Z.

Lemma ACTLR_not_on_write_allow_list : ACTLR ∉ write_allow_list.
Proof.
  unfold ACTLR, write_allow_list. rewrite !not_elem_of_cons.
  repeat split; try discriminate. apply not_elem_of_nil.
Qed.

(** What the CP15_32 slot of the table does with a trapped write. *)
Lemma handle_cp15_32_write (ctx : trap_context) (w : world X) :
  Z.land (hsr ctx) 1 = 0 ->
  let t := cp15_tuple (hsr ctx) in
  let ts := trap_state_of ctx w in
  exists con,
    handle_cp15_32 uninitialised_val ctx w =
    if decide (t = ACTLR) then
      (arch_skip_instruction ctx,
       mk_world (w_hw w) con (w_sysreg64_writes w) (w_sgir_writes w)
         (w_panic w) (w_ext w),
       TRAP_HANDLED)
    else if decide (t ∈ write_allow_list) then
      (arch_skip_instruction ctx,
       mk_world
         (Hw.write_reg (write_target t) (guest_value uninitialised_val ts)
            (w_hw w))
         con
         (w_sysreg64_writes w) (w_sgir_writes w) (w_panic w) (w_ext w),
       TRAP_HANDLED)
    else
      (ctx,
       mk_world (w_hw w) con (w_sysreg64_writes w) (w_sgir_writes w)
         (w_panic w) (w_ext w),
       TRAP_UNHANDLED).
Proof.
  intros Hw. cbv zeta. unfold handle_cp15_32.
  rewrite (arch_handle_cp15_32_write uninitialised_val (trap_state_of ctx w) Hw).
  cbv zeta.
  change (Traps.ctx (trap_state_of ctx w)) with ctx.
  destruct (access_cell_reg_read (trap_state_of ctx w) (hsr_rt (hsr ctx))
              uninitialised_val) as [Hc Hh].
  destruct (access_cell_reg (trap_state_of ctx w) (hsr_rt (hsr ctx))
              uninitialised_val true).1 as [c1 h1 con1].
  cbn [Traps.ctx Traps.hw trap_state_of] in Hc, Hh. subst c1 h1.
  exists con1.
  destruct (decide (cp15_tuple (hsr ctx) = ACTLR)); [reflexivity|].
  destruct (decide (cp15_tuple (hsr ctx) ∈ write_allow_list)); reflexivity.
Qed.

End TrapDispatchCp15.

(** X25.  A guest's [MCR] (CP15 32-bit write) from entry to return,
    whatever the uninitialised locals of the handlers held before.  If
    the trap is of class CP15_32, its condition check passes and the
    syndrome marks a write: for a register on the allow-list,
    [arch_handle_trap] writes exactly three registers, in this order: the
    target system register with what the handler's local [val] holds after
    the read of the guest register Rt, then [SPSR_hyp] and [ELR_hyp] with
    the state after the instruction was skipped; for ACTLR it writes only
    the latter two, so that the guest's write is dropped and the guest goes
    on; in both cases the guest's saved registers and the panic console
    are untouched.  For every other register no register is written
    before the panic: the fatal line names an unhandled trap of class 3,
    and [panic_park] is called.  The value written is the guest's
    register, independent of what [val] held before, unless Rt is r13 or
    r14 and the PSR mode is none of the seven [access_cell_reg] knows:
    then it is what [val] held before. *)
Theorem arch_handle_trap_emulates_mcr
    {X : Type} (CONFIG_ARM_GIC_V3 : bool)
    (uninitialised_val uninitialised_lo uninitialised_hi : Z)
    (arch_handle_hvc arch_handle_smc arch_handle_dabt : @TrapEntry.trap_handler X)
    (panic_park : list Z -> TrapEntry.world X -> option (list Z * TrapEntry.world X))
    (uninitialised : Z) (guest_regs : list Z) (w : TrapEntry.world X) :
  let ctx := TrapEntry.trapped_context guest_regs w in
  let ts := TrapEntry.trap_state_of ctx w in
  let t := Cp15Spec.cp15_tuple (Traps.hsr ctx) in
  let run :=
    TrapEntry.arch_handle_trap CONFIG_ARM_GIC_V3 uninitialised_val uninitialised_lo
      uninitialised_hi arch_handle_hvc arch_handle_smc
      arch_handle_dabt panic_park uninitialised guest_regs w in
  let return_state :=
    [(Hw.SPSR_hyp, Traps.cpsr (Traps.arch_skip_instruction ctx));
     (Hw.ELR_hyp,
      u32 (Traps.pc ctx + Spec.instruction_length (Traps.hsr ctx)))] in
  Traps.arch_failed_condition ctx = false ->
  Traps.HSR_EC (Traps.hsr ctx) = TrapEntry.HSR_EC_CP15_32 ->
  Z.land (Traps.hsr ctx) 1 = 0 ->
  (t ∈ Cp15Spec.write_allow_list ->
   exists w',
     run = TrapEntry.Returned guest_regs w'
     /\ Hw.reg_writes (TrapEntry.w_hw w')
        = Hw.reg_writes (TrapEntry.w_hw w)
          ++ (Cp15Spec.write_target t,
              Cp15Spec.guest_value uninitialised_val ts) :: return_state
     /\ TrapEntry.w_panic w' = TrapEntry.w_panic w
     /\ TrapEntry.w_ext w' = TrapEntry.w_ext w)
  /\ (t = Cp15Spec.ACTLR ->
      exists w',
        run = TrapEntry.Returned guest_regs w'
        /\ Hw.reg_writes (TrapEntry.w_hw w')
           = Hw.reg_writes (TrapEntry.w_hw w) ++ return_state
        /\ TrapEntry.w_panic w' = TrapEntry.w_panic w
        /\ TrapEntry.w_ext w' = TrapEntry.w_ext w)
  /\ (t ∉ Cp15Spec.write_allow_list -> t <> Cp15Spec.ACTLR ->
      exists w2 lines,
        TrapEntry.w_hw w2 = TrapEntry.w_hw w
        /\ TrapEntry.w_ext w2 = TrapEntry.w_ext w
        /\ TrapEntry.w_panic w2
           = TrapEntry.w_panic w
             ++ TrapEntry.FATAL_trap true TrapEntry.HSR_EC_CP15_32
                :: TrapEntry.DUMP_context (Traps.pc ctx) (Traps.cpsr ctx)
                     (Traps.hsr ctx)
                :: lines
        /\ run = match panic_park guest_regs w2 with
                 | Some (guest_regs', w3) =>
                     TrapEntry.Returned guest_regs'
                       (TrapSpec.written_back ctx w3)
                 | None => TrapEntry.NotReturned
                 end)
  /\ (RegSpec.reads_nothing ts (Cp15Spec.hsr_rt (Traps.hsr ctx)) = false ->
      forall before,
        Cp15Spec.guest_value uninitialised_val ts
        = Cp15Spec.guest_value before ts)
  /\ (RegSpec.reads_nothing ts (Cp15Spec.hsr_rt (Traps.hsr ctx)) = true ->
      Cp15Spec.guest_value uninitialised_val ts = uninitialised_val).
Proof.
  cbv zeta. intros Hc Hk Hw.
  rewrite (arch_handle_trap_passed CONFIG_ARM_GIC_V3 uninitialised_val uninitialised_lo
      uninitialised_hi arch_handle_hvc
             arch_handle_smc arch_handle_dabt panic_park uninitialised
             guest_regs w Hc)
    by (rewrite Hk; reflexivity).
  rewrite Hk. cbn [TrapEntry.trap_handlers Z.eqb TrapEntry.HSR_EC_CP15_32 Pos.eqb].
  set (ctx := TrapEntry.trapped_context guest_regs w) in *.
  destruct (handle_cp15_32_write uninitialised_val ctx w Hw) as [con E].
  cbv zeta in E. rewrite E. clear E.
  split; [|split; [|split; [|split]]].
  - intros Hin.
    rewrite decide_False
      by (intros Ha; rewrite Ha in Hin; exact (ACTLR_not_on_write_allow_list Hin)).
    rewrite decide_True by exact Hin.
    eexists. split.
    + destruct (arch_skip_instruction_frame ctx) as [_ ->]. reflexivity.
    + unfold TrapSpec.written_back, TrapSpec.with_w_hw, Hw.write_reg.
      cbn [TrapEntry.w_hw TrapEntry.w_panic TrapEntry.w_ext Hw.reg_writes].
      rewrite arch_skip_instruction_pc. rewrite <- !app_assoc.
      repeat split; reflexivity.
  - intros Ha. rewrite decide_True by exact Ha.
    eexists. split.
    + destruct (arch_skip_instruction_frame ctx) as [_ ->]. reflexivity.
    + unfold TrapSpec.written_back, TrapSpec.with_w_hw, Hw.write_reg.
      cbn [TrapEntry.w_hw TrapEntry.w_panic TrapEntry.w_ext Hw.reg_writes].
      rewrite arch_skip_instruction_pc. rewrite <- !app_assoc.
      repeat split; reflexivity.
  - intros Hin Ha.
    rewrite decide_False by exact Ha. rewrite decide_False by exact Hin.
    match goal with
    | |- context [TrapEntry.dump_guest_regs _ _
                    (TrapEntry.panic_printk (TrapEntry.FATAL_trap ?u ?c) ?w1)] =>
        destruct (arch_handle_trap_panic uninitialised c u ctx w1)
          as (w2 & lines & E & Hh & _ & _ & _ & He & Hp)
    end.
    rewrite E. exists w2, lines.
    cbn [TrapEntry.w_hw TrapEntry.w_panic TrapEntry.w_ext] in Hh, He, Hp.
    repeat split; assumption || reflexivity.
  - intros Hn before. unfold Cp15Spec.guest_value.
    apply access_cell_reg_reads_register; [|exact Hn].
    pose proof (cond_field_range (Z.shiftr (Traps.hsr ctx) 5)).
    unfold Cp15Spec.hsr_rt. cbn [Traps.ctx TrapEntry.trap_state_of]. lia.
  - intros Hn. unfold Cp15Spec.guest_value.
    rewrite access_cell_reg_reads_nothing by exact Hn. reflexivity.
Qed.

(** The guest's [MCR] to TTBR0 from r3, which holds 0x4000. *)
Definition ttbr0_write_world : TrapEntry.world unit :=
  trapped_world (Traps.ctx ttbr0_write_state).

(** The same [MCR] from r13, trapped with the PSR in HYP mode. *)
Definition ttbr0_write_from_sp_world : TrapEntry.world unit :=
  trapped_world (Traps.ctx ttbr0_write_from_sp_state).

Lemma arch_handle_trap_emulates_mcr_witness :
  (exists w',
     TrapEntry.arch_handle_trap false stack_garbage stack_garbage stack_garbage
       idle_handler idle_handler idle_handler
       returning_park 0 (Traps.regs (Traps.ctx ttbr0_write_state))
       ttbr0_write_world
     = TrapEntry.Returned (Traps.regs (Traps.ctx ttbr0_write_state)) w'
     /\ Hw.reg_writes (TrapEntry.w_hw w')
        = [(Hw.SYSREG_32 0 2 0 0, 0x4000); (Hw.SPSR_hyp, 0x13);
           (Hw.ELR_hyp, 0x8004)])
  /\ (exists w',
        TrapEntry.arch_handle_trap false stack_garbage stack_garbage
          stack_garbage idle_handler idle_handler idle_handler
          returning_park 0 (Traps.regs (Traps.ctx ttbr0_write_from_sp_state))
          ttbr0_write_from_sp_world
        = TrapEntry.Returned (Traps.regs (Traps.ctx ttbr0_write_from_sp_state)) w'
        /\ Hw.reg_writes (TrapEntry.w_hw w')
           = [(Hw.SYSREG_32 0 2 0 0, stack_garbage); (Hw.SPSR_hyp, 0x1a);
              (Hw.ELR_hyp, 0x8004)]).
Proof.
  split.
  - destruct (arch_handle_trap_emulates_mcr false stack_garbage stack_garbage
                stack_garbage idle_handler idle_handler
                idle_handler returning_park 0
                (Traps.regs (Traps.ctx ttbr0_write_state)) ttbr0_write_world)
      as (H & _).
    + vm_compute. reflexivity.
    + vm_compute. reflexivity.
    + vm_compute. reflexivity.
    + destruct H as (w' & Hrun & Hw & _).
      * apply list_elem_of_further, list_elem_of_here.
      * exists w'. split; [exact Hrun|].
        rewrite Hw. vm_compute. reflexivity.
  - destruct (arch_handle_trap_emulates_mcr false stack_garbage stack_garbage
                stack_garbage idle_handler idle_handler
                idle_handler returning_park 0
                (Traps.regs (Traps.ctx ttbr0_write_from_sp_state))
                ttbr0_write_from_sp_world)
      as (H & _ & _ & _ & Hnone).
    + vm_compute. reflexivity.
    + vm_compute. reflexivity.
    + vm_compute. reflexivity.
    + destruct H as (w' & Hrun & Hw & _).
      * apply list_elem_of_further, list_elem_of_here.
      * exists w'. split; [exact Hrun|].
        rewrite Hw, Hnone by (vm_compute; reflexivity).
        vm_compute. reflexivity.
Defined.
